(** * Diff-Sheriff: the review-extraction pipeline, embedded and verified

    The repository is a Cloudflare Worker written in TypeScript.  Three
    revisions of its [index.ts] are kept side by side:

    - [V1]  ([src/index.ts]): the first pipeline: request checks,
            truncation, one inference call, extraction and validation;
    - [V2]  ([unnamed/part_000]): adds [deriveRecommendation],
            [renderReviewMarkdown] with a recommendation emoji in the
            heading, and [buildInlineComments];
    - [V3]  (the [index.ts] quoted at the end of [README.md]): adds
            [getAiResponseText], the metadata-noise filter, [isTrivialDiff]
            and the single retry; it has no inline comments and a fixed
            heading.

    Functions whose text is the same in all revisions that have them are
    embedded once; the others live in a module per revision.  Built-ins of
    the JavaScript runtime ([JSON.parse], regular expressions, number
    printing, ...) are the fields of the class [JSRuntime]; the inference
    binding is a field of [Env]; the calls made to it are recorded in a
    [World] that the handlers thread through.

    Strings are sequences of UTF-16 code units, so [length], [slice] and
    [indexOf] count what JavaScript counts.  The copy of [V3] in [README.md]
    holds its non-ASCII literals as the characters of a Windows-1252
    misreading of UTF-8 text (what was an em dash is the three characters
    U+00E2 U+20AC U+201D, and so on); the literals of [V3] below are those
    characters, as the file has them.  Two of them do not show: a no-break
    space (U+00A0) in the header of the medium bucket and a soft hyphen
    (U+00AD) in the header of the recommendation. *)

From Stdlib Require Import List ZArith NArith Lia Bool.
From Stdlib Require String Ascii DecimalString.
From Stdlib Require Import SpecFloat Permutation.
Import ListNotations String.StringSyntax.

Set Implicit Arguments.
Local Open Scope Z_scope.

(* ================================================================== *)
(** ** JavaScript strings: sequences of UTF-16 code units *)
(* ================================================================== *)

Definition code_unit := N.
Definition jsstring := list code_unit.

(** Source literals are written as UTF-8 text and turned into the UTF-16
    code units a JavaScript engine holds for them. *)
Fixpoint utf16_of_utf8 (bs : list N) : jsstring :=
  match bs with
  | [] => []
  | b0 :: r0 =>
    if (b0 <? 0x80)%N then b0 :: utf16_of_utf8 r0
    else
      match r0 with
      | [] => []
      | b1 :: r1 =>
        if (b0 <? 0xE0)%N
        then ((b0 mod 0x20) * 0x40 + b1 mod 0x40)%N :: utf16_of_utf8 r1
        else
          match r1 with
          | [] => []
          | b2 :: r2 =>
            if (b0 <? 0xF0)%N
            then ((b0 mod 0x10) * 0x1000 + (b1 mod 0x40) * 0x40 + b2 mod 0x40)%N
                   :: utf16_of_utf8 r2
            else
              match r2 with
              | [] => []
              | b3 :: r3 =>
                let cp := ((b0 mod 0x08) * 0x40000 + (b1 mod 0x40) * 0x1000
                           + (b2 mod 0x40) * 0x40 + b3 mod 0x40)%N in
                let v := (cp - 0x10000)%N in
                (0xD800 + v / 0x400)%N :: (0xDC00 + v mod 0x400)%N
                  :: utf16_of_utf8 r3
              end
          end
      end
  end.

Definition js (s : String.string) : jsstring :=
  utf16_of_utf8 (map Ascii.N_of_ascii (String.list_ascii_of_string s)).

Delimit Scope string_scope with string.
Arguments js s%_string.

Definition LF : code_unit := 10%N.
Definition DQUOTE : code_unit := 34%N.
Definition LBRACE : code_unit := 123%N.
Definition RBRACE : code_unit := 125%N.

(** [s.length] *)
Definition jslength (s : jsstring) : Z := Z.of_nat (length s).

Fixpoint jsstring_eqb (a b : jsstring) : bool :=
  match a, b with
  | [], [] => true
  | x :: a', y :: b' => N.eqb x y && jsstring_eqb a' b'
  | _, _ => false
  end.

(** [s.indexOf(c)] for a one-unit search string: the least index holding
    [c], or [-1]. *)
Fixpoint indexOf_from (s : jsstring) (c : code_unit) (i : Z) : Z :=
  match s with
  | [] => -1
  | x :: r => if N.eqb x c then i else indexOf_from r c (i + 1)
  end.

Definition indexOf (s : jsstring) (c : code_unit) : Z := indexOf_from s c 0.

(** [s.lastIndexOf(c)]: the greatest index holding [c], or [-1]. *)
Fixpoint lastIndexOf_from (s : jsstring) (c : code_unit) (i : Z) (found : Z) : Z :=
  match s with
  | [] => found
  | x :: r => lastIndexOf_from r c (i + 1) (if N.eqb x c then i else found)
  end.

Definition lastIndexOf (s : jsstring) (c : code_unit) : Z :=
  lastIndexOf_from s c 0 (-1).

(** [s.slice(start, end)] with ECMAScript's clamping of both bounds. *)
Definition clamp_index (len k : Z) : Z :=
  if k <? 0 then Z.max (len + k) 0 else Z.min k len.

Definition slice (s : jsstring) (start stop : Z) : jsstring :=
  let len := jslength s in
  let from := clamp_index len start in
  let to := clamp_index len stop in
  firstn (Z.to_nat (Z.max (to - from) 0)) (skipn (Z.to_nat from) s).

(** [s.slice(start)] *)
Definition slice_from (s : jsstring) (start : Z) : jsstring :=
  slice s start (jslength s).

(** [s.startsWith(p)] *)
Fixpoint startsWith (s p : jsstring) : bool :=
  match p, s with
  | [], _ => true
  | _ :: _, [] => false
  | a :: p', b :: s' => N.eqb b a && startsWith s' p'
  end.

(** ECMAScript WhiteSpace and LineTerminator code points: what [trim]
    strips and what the regular-expression class [\s] matches. *)
Definition isWhiteSpace (c : code_unit) : bool :=
  ((c =? 0x09) || (c =? 0x0A) || (c =? 0x0B) || (c =? 0x0C) || (c =? 0x0D)
   || (c =? 0x20) || (c =? 0xA0) || (c =? 0x1680)
   || ((0x2000 <=? c) && (c <=? 0x200A))
   || (c =? 0x2028) || (c =? 0x2029) || (c =? 0x202F) || (c =? 0x205F)
   || (c =? 0x3000) || (c =? 0xFEFF))%N.

Fixpoint trimStart (s : jsstring) : jsstring :=
  match s with
  | [] => []
  | c :: r => if isWhiteSpace c then trimStart r else s
  end.

Definition trimEnd (s : jsstring) : jsstring := rev (trimStart (rev s)).

(** [s.trim()] *)
Definition trim (s : jsstring) : jsstring := trimEnd (trimStart s).

(** [s.split(sep)] for a one-unit separator; the empty string splits into
    one empty piece. *)
Fixpoint split (sep : code_unit) (s : jsstring) : list jsstring :=
  match s with
  | [] => [[]]
  | c :: r =>
    if N.eqb c sep then [] :: split sep r
    else match split sep r with
         | [] => [[c]]
         | piece :: pieces => (c :: piece) :: pieces
         end
  end.

(** [parts.join(sep)] *)
Fixpoint join (sep : jsstring) (parts : list jsstring) : jsstring :=
  match parts with
  | [] => []
  | [p] => p
  | p :: rest => p ++ sep ++ join sep rest
  end.

(** Truthiness of a string: non-empty. *)
Definition str_truthy (s : jsstring) : bool :=
  match s with [] => false | _ :: _ => true end.

(* ================================================================== *)
(** ** JavaScript values *)
(* ================================================================== *)

(** A JavaScript number is an IEEE 754 double: sign, mantissa, exponent,
    with the value [(-1)^s * m * 2^e]. *)
Definition number := spec_float.

Definition number_of_Z (z : Z) : number :=
  match z with
  | Z0 => S754_zero false
  | Zpos p => S754_finite false p 0
  | Zneg p => S754_finite true p 0
  end.

(** [Number.isInteger(x)] *)
Definition Number_isInteger (x : number) : bool :=
  match x with
  | S754_zero _ => true
  | S754_finite _ m e => (0 <=? e) || (Z.pos m mod 2 ^ (- e) =? 0)
  | S754_infinity _ | S754_nan => false
  end.

(** The mathematical value of a number that is an integer. *)
Definition number_to_Z (x : number) : Z :=
  match x with
  | S754_finite s m e =>
    let v := if 0 <=? e then Z.pos m * 2 ^ e else Z.pos m / 2 ^ (- e) in
    if s then - v else v
  | _ => 0
  end.

(** Truthiness of a number: neither zero nor NaN. *)
Definition num_truthy (x : number) : bool :=
  match x with
  | S754_zero _ | S754_nan => false
  | S754_infinity _ | S754_finite _ _ _ => true
  end.

(** What the specification calls a non-negative integer. *)
Definition is_nonneg_integer (x : number) : bool :=
  Number_isInteger x && (0 <=? number_to_Z x).

(** Values of type [unknown]: what [JSON.parse] and the inference binding
    hand to the pipeline.  An object is its property table in insertion
    order. *)
#[warnings="-register-all"] Inductive JSValue : Type :=
| JSUndefined
| JSNull
| JSBool (b : bool)
| JSNumber (n : number)
| JSString (s : jsstring)
| JSArray (items : list JSValue)
| JSObject (props : list (jsstring * JSValue)).

Inductive js_type := TyUndefined | TyObject | TyBoolean | TyNumber | TyString.

Definition typeof (v : JSValue) : js_type :=
  match v with
  | JSUndefined => TyUndefined
  | JSNull | JSArray _ | JSObject _ => TyObject
  | JSBool _ => TyBoolean
  | JSNumber _ => TyNumber
  | JSString _ => TyString
  end.

Definition js_type_eqb (a b : js_type) : bool :=
  match a, b with
  | TyUndefined, TyUndefined | TyObject, TyObject | TyBoolean, TyBoolean
  | TyNumber, TyNumber | TyString, TyString => true
  | _, _ => false
  end.

Definition is_null (v : JSValue) : bool :=
  match v with JSNull => true | _ => false end.

(** [typeof v !== "object" || v === null] *)
Definition not_an_object (v : JSValue) : bool :=
  negb (js_type_eqb (typeof v) TyObject) || is_null v.

Fixpoint assoc (k : jsstring) (props : list (jsstring * JSValue)) : option JSValue :=
  match props with
  | [] => None
  | (k', v) :: rest => if jsstring_eqb k' k then Some v else assoc k rest
  end.

(** [k in obj] for a value already known to be a non-null object.  The keys
    the pipeline asks for are never array indices or [length]. *)
Definition has_prop (obj : JSValue) (k : jsstring) : bool :=
  match obj with
  | JSObject props => match assoc k props with Some _ => true | None => false end
  | _ => false
  end.

(** [obj.k] for a value already known to be a non-null object (the same
    restriction on keys applies): a missing property reads as [undefined]. *)
Definition get (obj : JSValue) (k : jsstring) : JSValue :=
  match obj with
  | JSObject props => match assoc k props with Some v => v | None => JSUndefined end
  | _ => JSUndefined
  end.

(** [typeof v === "string"], yielding the string. *)
Definition as_string (v : JSValue) : option jsstring :=
  match v with JSString s => Some s | _ => None end.

(** [typeof v === "number"], yielding the number. *)
Definition as_number (v : JSValue) : option number :=
  match v with JSNumber n => Some n | _ => None end.

(** [Array.isArray(v)], yielding the elements. *)
Definition as_array (v : JSValue) : option (list JSValue) :=
  match v with JSArray items => Some items | _ => None end.

(** [xs.includes(s)] on an array of strings. *)
Definition includes (xs : list jsstring) (s : jsstring) : bool :=
  existsb (jsstring_eqb s) xs.

(* ================================================================== *)
(** ** Exceptions *)
(* ================================================================== *)

Inductive ErrorName := EError | ESyntaxError | ETypeError.

(** What a [catch] clause can receive: an [Error] instance (with its class
    and message) or any other thrown value. *)
Inductive exn :=
| JsError (name : ErrorName) (message : jsstring)
| JsThrown (v : JSValue).

Inductive result (A : Type) :=
| Ok (a : A)
| Throw (e : exn).

Arguments Ok {A} a.
Arguments Throw {A} e.

(** [err instanceof Error ? err.message : fallback] *)
Definition message_or (e : exn) (fallback : jsstring) : jsstring :=
  match e with
  | JsError _ m => m
  | JsThrown _ => fallback
  end.

(** The two request-independent failures of the extractor, as the
    specification names them. *)
Definition NoJsonFound : exn :=
  JsError EError (js "No JSON object found in response").

Definition MalformedJson (msg : jsstring) : exn := JsError ESyntaxError msg.

(* ================================================================== *)
(** ** The data model *)
(* ================================================================== *)

Inductive Severity := high | medium | low | nit.

Definition severity_eqb (a b : Severity) : bool :=
  match a, b with
  | high, high | medium, medium | low, low | nit, nit => true
  | _, _ => false
  end.

Definition severity_name (s : Severity) : jsstring :=
  match s with
  | high => js "high"
  | medium => js "medium"
  | low => js "low"
  | nit => js "nit"
  end.

Definition validSeverities : list jsstring :=
  [js "high"; js "medium"; js "low"; js "nit"].

(** The cast [obj.severity as Finding["severity"]] of a string already
    found in [validSeverities]. *)
Definition severity_of_string (s : jsstring) : option Severity :=
  if jsstring_eqb s (js "high") then Some high
  else if jsstring_eqb s (js "medium") then Some medium
  else if jsstring_eqb s (js "low") then Some low
  else if jsstring_eqb s (js "nit") then Some nit
  else None.

Record Finding := mkFinding {
  severity : Severity;
  title : jsstring;
  rationale : jsstring;
  suggestion : option jsstring;
  file : option jsstring;
  line : option number
}.

Inductive Recommendation := approve | approve_with_changes | request_changes.

Record InlineComment := mkInlineComment {
  path : jsstring;
  comment_line : number;
  body : jsstring
}.

Inductive Mode := summary_mode | inline_mode.

Record ReviewRequest := mkReviewRequest {
  diff : jsstring;
  provider : option jsstring;
  repo : option jsstring;
  prNumber : option number;
  mrIid : option number;
  sha : option jsstring;
  req_title : option jsstring;
  description : option jsstring;
  mode : option Mode;
  rulesMd : option jsstring
}.

Record Meta := mkMeta {
  meta_provider : option jsstring;
  meta_repo : option jsstring;
  meta_sha : option jsstring;
  meta_mode : Mode;
  truncatedDiff : bool
}.

Record ErrorResponse := mkErrorResponse { error : jsstring }.

Record ValidatedResponse := mkValidated {
  v_summary : jsstring;
  v_findings : list Finding;
  v_testingNotes : list jsstring
}.

(** JavaScript regular expressions are kept as their source and flags. *)
Record RegExp := mkRegExp { re_source : jsstring; re_flags : jsstring }.

(* ================================================================== *)
(** ** The JavaScript runtime the Worker runs on *)
(* ================================================================== *)

(** Built-ins the code calls and does not define.  [JSON.parse] either
    returns a value or throws a [SyntaxError] carrying a message. *)
Class JSRuntime := {
  JSON_parse : jsstring -> jsstring + JSValue;
  Number_toString : number -> jsstring;
  String_toLowerCase : jsstring -> jsstring;
  RegExp_test : RegExp -> jsstring -> bool;
  (** [JSON.stringify(Object.keys(obj))], used in one error message *)
  stringify_keys : JSValue -> jsstring;
  (** the message of the [TypeError] raised by reading property [k] of
      [null] or [undefined] *)
  nullish_read_message : JSValue -> jsstring -> jsstring;
  (** the identifier drawn by the [n]-th call of [crypto.randomUUID] *)
  crypto_randomUUID : nat -> jsstring
}.

(** The results of a list of steps, or the first failure among them. *)
Fixpoint all_ok {A : Type} (rs : list (result A)) : result (list A) :=
  match rs with
  | [] => Ok []
  | Ok a :: rest =>
    match all_ok rest with
    | Ok more => Ok (a :: more)
    | Throw e => Throw e
    end
  | Throw e :: _ => Throw e
  end.

(** What [String] throws for an object that has no usable [toString]. *)
Definition cannotConvert : exn :=
  JsError ETypeError (js "Cannot convert object to primitive value").

(** [String(v)].  An object is converted by its [toString] method and then
    by its [valueOf].  A plain object finds [Object.prototype.toString],
    which answers [[object Object]], unless it has a property [toString] of
    its own: the values here hold no function, so that property is not
    callable and is passed over, [valueOf] (its own, not callable, or the
    inherited one, which returns the object) gives no primitive either, and
    the conversion throws a [TypeError].  An array is converted by [join],
    which converts its elements and so throws when one of them does. *)
Fixpoint ToString `{JSRuntime} (v : JSValue) : result jsstring :=
  match v with
  | JSUndefined => Ok (js "undefined")
  | JSNull => Ok (js "null")
  | JSBool true => Ok (js "true")
  | JSBool false => Ok (js "false")
  | JSNumber n => Ok (Number_toString n)
  | JSString s => Ok s
  | JSArray items =>
    match all_ok (map (fun x => match x with
                                | JSUndefined | JSNull => Ok []
                                | _ => ToString x
                                end) items) with
    | Ok pieces => Ok (join (js ",") pieces)
    | Throw e => Throw e
    end
  | JSObject props =>
    match assoc (js "toString") props with
    | Some _ => Throw cannotConvert
    | None => Ok (js "[object Object]")
    end
  end.

(** [arr.push(x)] on an array held in a local variable. *)
Definition push {A : Type} (arr : list A) (x : A) : list A := arr ++ [x].

(** A present, non-empty string: the test [if (s)] on an optional string. *)
Definition truthy_string (o : option jsstring) : option jsstring :=
  match o with
  | Some (c :: r) => Some (c :: r)
  | _ => None
  end.

(** A present number that is neither zero nor NaN: [if (n)] on an optional
    number. *)
Definition truthy_number (o : option number) : option number :=
  match o with
  | Some n => if num_truthy n then Some n else None
  | None => None
  end.

(* ================================================================== *)
(** ** Functions shared by the revisions *)
(* ================================================================== *)

Definition MAX_DIFF_LENGTH : Z := 60000.

Section Shared.
Context `{JSRuntime}.

(** [extractJson], identical in [V1], [V2] and [V3]. *)
Definition extractJson (text : jsstring) : result JSValue :=
  let firstBrace := indexOf text LBRACE in
  let lastBrace := lastIndexOf text RBRACE in
  if (firstBrace =? -1) || (lastBrace =? -1) || (lastBrace <? firstBrace) then
    Throw (JsError EError (js "No JSON object found in response"))
  else
    let jsonStr := slice text firstBrace (lastBrace + 1) in
    match JSON_parse jsonStr with
    | inl msg => Throw (JsError ESyntaxError msg)
    | inr parsed => Ok parsed
    end.

(** [validateFinding], identical in [V1], [V2] and [V3]; [None] is the
    source's [null]. *)
Definition validateFinding (f : JSValue) : option Finding :=
  if not_an_object f then None
  else
    let obj := f in
    match as_string (get obj (js "severity")) with
    | None => None
    | Some sev =>
      if negb (includes validSeverities sev) then None
      else
        match severity_of_string sev with
        | None => None
        | Some sev' =>
          match as_string (get obj (js "title")) with
          | None => None
          | Some t =>
            if negb (str_truthy t) then None
            else
              match as_string (get obj (js "rationale")) with
              | None => None
              | Some r =>
                if negb (str_truthy r) then None
                else
                  let finding := mkFinding sev' t r None None None in
                  let finding :=
                    match truthy_string (as_string (get obj (js "suggestion"))) with
                    | Some sg =>
                      mkFinding (severity finding) (title finding) (rationale finding)
                                (Some sg) (file finding) (line finding)
                    | None => finding
                    end in
                  let finding :=
                    match truthy_string (as_string (get obj (js "file"))) with
                    | Some fl =>
                      mkFinding (severity finding) (title finding) (rationale finding)
                                (suggestion finding) (Some fl) (line finding)
                    | None => finding
                    end in
                  let finding :=
                    match as_number (get obj (js "line")) with
                    | Some n =>
                      if Number_isInteger n
                      then mkFinding (severity finding) (title finding)
                                     (rationale finding) (suggestion finding)
                                     (file finding) (Some n)
                      else finding
                    | None => finding
                    end in
                  Some finding
              end
          end
        end
    end.

(** The loop [for (const f of obj.findings)] with its conditional push. *)
Definition collectFindings (items : list JSValue) : list Finding :=
  fold_left (fun findings f =>
               match validateFinding f with
               | Some validated => push findings validated
               | None => findings
               end) items [].

(** The loop [for (const note of obj.testingNotes)]. *)
Definition collectTestingNotes (items : list JSValue) : list jsstring :=
  fold_left (fun testingNotes note =>
               match as_string note with
               | Some n => if str_truthy (trim n) then push testingNotes (trim n)
                           else testingNotes
               | None => testingNotes
               end) items [].

(** [validateAiResponse] of [V2] and [V3]. *)
Definition validateAiResponse (parsed : JSValue) : result ValidatedResponse :=
  if not_an_object parsed then
    Throw (JsError EError (js "AI response is not an object"))
  else
    let obj := parsed in
    match as_string (get obj (js "summary")) with
    | None => Throw (JsError EError (js "AI response missing summary"))
    | Some summary =>
      let findings :=
        match as_array (get obj (js "findings")) with
        | Some items => collectFindings items
        | None => []
        end in
      let testingNotes :=
        match as_array (get obj (js "testingNotes")) with
        | Some items => collectTestingNotes items
        | None => []
        end in
      Ok (mkValidated summary findings testingNotes)
    end.

(** [deriveRecommendation], identical in [V2] and [V3]. *)
Definition deriveRecommendation (findings : list Finding) : Recommendation :=
  let hasHigh := existsb (fun f => severity_eqb (severity f) high) findings in
  let hasMedium := existsb (fun f => severity_eqb (severity f) medium) findings in
  if hasHigh then request_changes
  else if hasMedium then approve_with_changes
  else approve.

Definition mode_name (m : Mode) : jsstring :=
  match m with
  | summary_mode => js "summary"
  | inline_mode => js "inline"
  end.

(** [req.mode || "summary"] *)
Definition mode_or_summary (m : option Mode) : Mode :=
  match m with Some m' => m' | None => summary_mode end.

(** [buildUserPrompt], identical in [V1], [V2] and [V3]. *)
Definition buildUserPrompt (req : ReviewRequest) (truncated : bool) : jsstring :=
  let parts : list jsstring := [] in
  let parts :=
    match truthy_string (req_title req) with
    | Some t => push parts (js "PR Title: " ++ t)
    | None => parts
    end in
  let parts :=
    match truthy_string (description req) with
    | Some d => push parts (js "PR Description: " ++ d)
    | None => parts
    end in
  let parts :=
    match truthy_string (rulesMd req) with
    | Some r => push parts (js "Additional Review Rules:" ++ [LF] ++ r)
    | None => parts
    end in
  let parts := push parts (js "Review Mode: " ++ mode_name (mode_or_summary (mode req))) in
  let parts :=
    if truncated
    then push parts (js "Note: The diff was truncated due to length limits.")
    else parts in
  let parts :=
    push parts ([LF] ++ js "Diff to review:" ++ [LF] ++ js "```diff" ++ [LF]
                ++ diff req ++ [LF] ++ js "```") in
  join [LF; LF] parts.

(** The truncation block of [handleReview], identical in [V1], [V2] and
    [V3]:
    [let truncatedDiff = false;
     if (reviewReq.diff.length > MAX_DIFF_LENGTH) {
       reviewReq.diff = reviewReq.diff.slice(0, MAX_DIFF_LENGTH);
       truncatedDiff = true; }]
    It yields the request as updated and the flag. *)
Definition set_diff (req : ReviewRequest) (d : jsstring) : ReviewRequest :=
  mkReviewRequest d (provider req) (repo req) (prNumber req) (mrIid req)
                  (sha req) (req_title req) (description req) (mode req)
                  (rulesMd req).

Definition truncateDiff (reviewReq : ReviewRequest) : ReviewRequest * bool :=
  let truncatedDiff := false in
  if jslength (diff reviewReq) >? MAX_DIFF_LENGTH
  then (set_diff reviewReq (slice (diff reviewReq) 0 MAX_DIFF_LENGTH), true)
  else (reviewReq, truncatedDiff).

End Shared.

(** [arr.length] *)
Definition arr_length {A : Type} (arr : list A) : Z := Z.of_nat (length arr).

(** The three filters of [renderReviewMarkdown], identical in [V2] and
    [V3]. *)
Definition is_high (f : Finding) : bool := severity_eqb (severity f) high.
Definition is_medium (f : Finding) : bool := severity_eqb (severity f) medium.
Definition is_lowOrNit (f : Finding) : bool :=
  severity_eqb (severity f) low || severity_eqb (severity f) nit.

(** The block
    [if (bucket.length > 0) { lines.push(header);
       for (const f of bucket) lines.push(bullet(f)); lines.push(""); }]
    that both renderers repeat for every bucket. *)
Definition pushSection {A : Type} (lines : list jsstring) (header : jsstring)
           (bullet : A -> jsstring) (bucket : list A) : list jsstring :=
  if arr_length bucket >? 0 then
    let lines := push lines header in
    let lines := fold_left (fun lines f => push lines (bullet f)) bucket lines in
    push lines []
  else lines.

(* ================================================================== *)
(** ** Effects: the inference binding, identifiers, exceptions *)
(* ================================================================== *)

Record ChatMessage := mkMessage { role : jsstring; content : jsstring }.

(** The second argument of [env.AI.run]: [{ messages }] in [V1] and [V2],
    [{ input, response_format: { type } }] in [V3]. *)
Inductive AiInput :=
| MessagesInput (messages : list ChatMessage)
| ResponsesInput (input : list ChatMessage) (response_format_type : jsstring).

Record AiCall := mkAiCall { call_model : jsstring; call_input : AiInput }.

(** The bindings of the Worker.  The inference backend answers a call from
    the number of calls made before it, the model and the input; it may
    reject. *)
Record Env := mkEnv {
  AUTH_TOKEN : jsstring;
  AI_backend : nat -> jsstring -> AiInput -> result JSValue
}.

(** What a run of the handler changes outside itself. *)
Record World := mkWorld {
  ai_calls : list AiCall;
  uuids_drawn : nat
}.

Definition initial_world : World := mkWorld [] 0.

Definition M (A : Type) : Type := World -> result A * World.

Definition ret {A : Type} (a : A) : M A := fun w => (Ok a, w).

Definition bind {A B : Type} (m : M A) (k : A -> M B) : M B :=
  fun w =>
    match m w with
    | (Ok a, w') => k a w'
    | (Throw e, w') => (Throw e, w')
    end.

(** A pure computation that may throw. *)
Definition lift {A : Type} (r : result A) : M A := fun w => (r, w).

(** [try { m } catch (err) { handler err }] *)
Definition try_catch {A : Type} (m : M A) (handler : exn -> M A) : M A :=
  fun w =>
    match m w with
    | (Ok a, w') => (Ok a, w')
    | (Throw e, w') => handler e w'
    end.

Notation "x <- m ;; k" := (bind m (fun x => k))
  (at level 61, m at next level, right associativity).

(** [await env.AI.run(model, input)] *)
Definition AI_run (env : Env) (model : jsstring) (input : AiInput) : M JSValue :=
  fun w =>
    (AI_backend env (length (ai_calls w)) model input,
     mkWorld (push (ai_calls w) (mkAiCall model input)) (uuids_drawn w)).

(** [crypto.randomUUID()] *)
Definition randomUUID `{JSRuntime} : M jsstring :=
  fun w =>
    (Ok (crypto_randomUUID (uuids_drawn w)),
     mkWorld (ai_calls w) (S (uuids_drawn w))).

(** The request as the handler reads it: the [Authorization] header and the
    outcome of [await request.json()]. *)
Record Request := mkRequest {
  authorization : option jsstring;
  json : result JSValue
}.

Record Response (D : Type) := mkResponse {
  resp_data : D;   (** the value given to [JSON.stringify] for the body *)
  status : Z;
  content_type : jsstring
}.

Arguments mkResponse {D} _ _ _.
Arguments resp_data {D} _.
Arguments status {D} _.
Arguments content_type {D} _.

(** [jsonResponse(data, status)] *)
Definition jsonResponse {D : Type} (data : D) (status : Z) : Response D :=
  mkResponse data status (js "application/json").

(** [errorResponse(error, status)] *)
Definition errorResponse {R : Type} (error : jsstring) (status : Z)
  : Response (ErrorResponse + R) :=
  let body := mkErrorResponse error in
  jsonResponse (inl body) status.

(** The part of [handleReview] from the [Authorization] check to the
    construction of [reviewReq], identical in [V1], [V2] and [V3].  [inl]
    is an early [return errorResponse(...)]. *)
Definition readReviewRequest {R : Type} (request : Request) (env : Env)
  : Response (ErrorResponse + R) + ReviewRequest :=
  match authorization request with
  | None =>
    inl (errorResponse (js "Unauthorized: Missing or invalid Authorization header") 401)
  | Some authHeader =>
    if negb (str_truthy authHeader) || negb (startsWith authHeader (js "Bearer "))
    then inl (errorResponse (js "Unauthorized: Missing or invalid Authorization header") 401)
    else
      let token := slice_from authHeader 7 in
      if negb (jsstring_eqb token (AUTH_TOKEN env))
      then inl (errorResponse (js "Unauthorized: Invalid token") 401)
      else
        match json request with
        | Throw _ => inl (errorResponse (js "Invalid JSON body") 400)
        | Ok body =>
          if not_an_object body
          then inl (errorResponse (js "Request body must be a JSON object") 400)
          else
            let reqBody := body in
            match as_string (get reqBody (js "diff")) with
            | None => inl (errorResponse (js "Missing or empty 'diff' field") 400)
            | Some d =>
              if negb (str_truthy (trim d))
              then inl (errorResponse (js "Missing or empty 'diff' field") 400)
              else
                inr (mkReviewRequest
                       d
                       (as_string (get reqBody (js "provider")))
                       (as_string (get reqBody (js "repo")))
                       (as_number (get reqBody (js "prNumber")))
                       (as_number (get reqBody (js "mrIid")))
                       (as_string (get reqBody (js "sha")))
                       (as_string (get reqBody (js "title")))
                       (as_string (get reqBody (js "description")))
                       (Some (match as_string (get reqBody (js "mode")) with
                              | Some m => if jsstring_eqb m (js "inline")
                                          then inline_mode else summary_mode
                              | None => summary_mode
                              end))
                       (as_string (get reqBody (js "rulesMd"))))
            end
        end
  end.

(** The two system/user messages every inference call carries. *)
Definition chat (system user : jsstring) : list ChatMessage :=
  [mkMessage (js "system") system; mkMessage (js "user") user].

(* ================================================================== *)
(** ** Revision V1: one inference call, no report *)
(* ================================================================== *)

Module V1.
Section Defs.
Context `{JSRuntime}.
Variable SYSTEM_PROMPT : jsstring.

Definition AI_MODEL : jsstring := js "@cf/meta/llama-3.1-8b-instruct-fp8".

Record Validated := mkValidated {
  v_summary : jsstring;
  v_findings : list Finding
}.

Definition validateAiResponse (parsed : JSValue) : result Validated :=
  if not_an_object parsed then
    Throw (JsError EError (js "AI response is not an object"))
  else
    let obj := parsed in
    match as_string (get obj (js "summary")) with
    | None => Throw (JsError EError (js "AI response missing summary"))
    | Some summary =>
      let findings :=
        match as_array (get obj (js "findings")) with
        | Some items => collectFindings items
        | None => []
        end in
      Ok (mkValidated summary findings)
    end.

Record ReviewResponse := mkReviewResponse {
  reviewId : jsstring;
  summary : jsstring;
  findings : list Finding;
  meta : Meta
}.

Definition Payload : Type := ErrorResponse + ReviewResponse.

Definition handleReview (request : Request) (env : Env) : M (Response Payload) :=
  match readReviewRequest request env with
  | inl rejected => ret rejected
  | inr reviewReq =>
    let truncation := truncateDiff reviewReq in
    let reviewReq := fst truncation in
    let truncatedDiff := snd truncation in
    let userPrompt := buildUserPrompt reviewReq truncatedDiff in
    answered <-
      try_catch
        (aiResponse <- AI_run env AI_MODEL (MessagesInput (chat SYSTEM_PROMPT userPrompt)) ;;
         if negb (not_an_object aiResponse) && has_prop aiResponse (js "response")
         then
           aiResponseText <- lift (ToString (get aiResponse (js "response"))) ;;
           ret (inr aiResponseText)
         else lift (Throw (JsError EError (js "Unexpected AI response format"))))
        (fun err =>
           let message := message_or err (js "Unknown AI error") in
           ret (inl (errorResponse (js "AI failure: " ++ message) 500))) ;;
    match answered with
    | inl failed => ret failed
    | inr aiResponseText =>
      checked <-
        try_catch
          (parsed <- lift (extractJson aiResponseText) ;;
           validated <- lift (validateAiResponse parsed) ;;
           ret (inr validated))
          (fun err =>
             let message := message_or err (js "Failed to parse AI response") in
             ret (inl (errorResponse (js "AI response parsing failed: " ++ message) 500))) ;;
      match checked with
      | inl failed => ret failed
      | inr validated =>
        id <- randomUUID ;;
        let response :=
          mkReviewResponse id (v_summary validated) (v_findings validated)
            (mkMeta (provider reviewReq) (repo reviewReq) (sha reviewReq)
                    (mode_or_summary (mode reviewReq)) truncatedDiff) in
        ret (jsonResponse (inr response) 200)
      end
    end
  end.

End Defs.
End V1.

(* ================================================================== *)
(** ** Revision V2: recommendation emoji and inline comments *)
(* ================================================================== *)

Module V2.
Section Defs.
Context `{JSRuntime}.
Variable SYSTEM_PROMPT : jsstring.

Definition AI_MODEL : jsstring := js "@cf/qwen/qwen3-30b-a3b-fp8".

Definition recEmoji (recommendation : Recommendation) : jsstring :=
  match recommendation with
  | approve => js "✅"
  | approve_with_changes => js "⚠️"
  | request_changes => js "❌"
  end.

Definition formatFindingBullet (f : Finding) : jsstring :=
  let loc : jsstring :=
    match truthy_string (file f) with
    | Some fl =>
      match truthy_number (line f) with
      | Some ln => js "`" ++ fl ++ js ":" ++ Number_toString ln ++ js "`"
      | None => js "`" ++ fl ++ js "`"
      end
    | None => []
    end in
  let bullet := js "- **" ++ title f ++ js "**" in
  let bullet := if str_truthy loc then bullet ++ js " " ++ loc else bullet in
  let bullet := bullet ++ js ": " ++ rationale f in
  match truthy_string (suggestion f) with
  | Some sg => bullet ++ js " → " ++ sg
  | None => bullet
  end.

Definition HIGH_HEADER : jsstring := js "**🚨 Blocking**".
Definition MEDIUM_HEADER : jsstring := js "**⚠️ Should Fix**".
Definition LOW_HEADER : jsstring := js "**💡 Optional**".
Definition TEST_HEADER : jsstring := js "**🧪 Test**".

(** The array [lines] of [renderReviewMarkdown] just before the final
    [join]. *)
Definition renderReviewLines (summary : jsstring) (findings : list Finding)
           (testingNotes : list jsstring) (recommendation : Recommendation)
           (sha : option jsstring) : list jsstring :=
  let lines : list jsstring := [] in
  let lines := push lines (js "<!-- diff-sheriff -->") in
  let lines := push lines (js "## " ++ recEmoji recommendation ++ js " Diff-Sheriff") in
  let lines := push lines [] in
  let lines := push lines summary in
  let lines := push lines [] in
  let high := filter is_high findings in
  let medium := filter is_medium findings in
  let lowAndNit := filter is_lowOrNit findings in
  let lines := pushSection lines HIGH_HEADER formatFindingBullet high in
  let lines := pushSection lines MEDIUM_HEADER formatFindingBullet medium in
  let lines := pushSection lines LOW_HEADER formatFindingBullet lowAndNit in
  let lines := pushSection lines TEST_HEADER (fun note => js "- " ++ note) testingNotes in
  let commitRef :=
    match truthy_string sha with
    | Some s => slice s 0 7
    | None => []
    end in
  push lines (js "<sub>" ++ commitRef ++ js "</sub>").

Definition renderReviewMarkdown (summary : jsstring) (findings : list Finding)
           (testingNotes : list jsstring) (recommendation : Recommendation)
           (sha : option jsstring) : jsstring :=
  join [LF] (renderReviewLines summary findings testingNotes recommendation sha).

Definition severityEmoji (s : Severity) : jsstring :=
  match s with
  | high => js "🚨"
  | medium => js "⚠️"
  | low | nit => js "💡"
  end.

(** The body of the loop of [buildInlineComments]: [None] is [continue]. *)
Definition inlineCommentFor (f : Finding) : option InlineComment :=
  match truthy_string (file f), truthy_number (line f) with
  | Some fl, Some ln =>
    let body := severityEmoji (severity f) ++ js " **" ++ title f ++ js "**"
                ++ [LF; LF] ++ rationale f in
    let body :=
      match truthy_string (suggestion f) with
      | Some sg => body ++ [LF; LF] ++ js "**Suggestion:**" ++ [LF]
                   ++ js "```suggestion" ++ [LF] ++ sg ++ [LF] ++ js "```"
      | None => body
      end in
    Some (mkInlineComment fl ln body)
  | _, _ => None
  end.

Definition buildInlineComments (findings : list Finding) : list InlineComment :=
  fold_left (fun comments f =>
               match inlineCommentFor f with
               | Some c => push comments c
               | None => comments
               end) findings [].

Record ReviewResponse := mkReviewResponse {
  reviewId : jsstring;
  summary : jsstring;
  findings : list Finding;
  commentMd : jsstring;
  inlineComments : list InlineComment;
  recommendation : Recommendation;
  meta : Meta
}.

Definition Payload : Type := ErrorResponse + ReviewResponse.

(** Truthiness of an arbitrary value: the test [message && ...]. *)
Definition truthy (v : JSValue) : bool :=
  match v with
  | JSUndefined | JSNull => false
  | JSBool b => b
  | JSNumber n => num_truthy n
  | JSString s => str_truthy s
  | JSArray _ | JSObject _ => true
  end.

(** The reply envelope of [V2]: [choices[0].message.content]. *)
Definition choiceContent (aiResponse : JSValue) : result jsstring :=
  if negb (not_an_object aiResponse) then
    let obj := aiResponse in
    match (if has_prop obj (js "choices") then as_array (get obj (js "choices"))
           else None) with
    | Some (choice :: _) =>
      match choice with
      | JSNull | JSUndefined =>
        Throw (JsError ETypeError (nullish_read_message choice (js "message")))
      | _ =>
        let message := get choice (js "message") in
        match (if truthy message then as_string (get message (js "content"))
               else None) with
        | Some text => Ok text
        | None => Throw (JsError EError (js "No content in choices[0].message"))
        end
      end
    | _ =>
      Throw (JsError EError (js "Unexpected AI response format: " ++ stringify_keys obj))
    end
  else Throw (JsError EError (js "Unexpected AI response format")).

Definition handleReview (request : Request) (env : Env) : M (Response Payload) :=
  match readReviewRequest request env with
  | inl rejected => ret rejected
  | inr reviewReq =>
    let truncation := truncateDiff reviewReq in
    let reviewReq := fst truncation in
    let truncatedDiff := snd truncation in
    let userPrompt := buildUserPrompt reviewReq truncatedDiff in
    answered <-
      try_catch
        (aiResponse <- AI_run env AI_MODEL (MessagesInput (chat SYSTEM_PROMPT userPrompt)) ;;
         text <- lift (choiceContent aiResponse) ;;
         ret (inr text))
        (fun err =>
           let message := message_or err (js "Unknown AI error") in
           ret (inl (errorResponse (js "AI failure: " ++ message) 500))) ;;
    match answered with
    | inl failed => ret failed
    | inr aiResponseText =>
      checked <-
        try_catch
          (parsed <- lift (extractJson aiResponseText) ;;
           validated <- lift (validateAiResponse parsed) ;;
           ret (inr validated))
          (fun err =>
             let message := message_or err (js "Failed to parse AI response") in
             ret (inl (errorResponse (js "AI response parsing failed: " ++ message) 500))) ;;
      match checked with
      | inl failed => ret failed
      | inr validated =>
        let recommendation := deriveRecommendation (v_findings validated) in
        let commentMd :=
          renderReviewMarkdown (v_summary validated) (v_findings validated)
                               (v_testingNotes validated) recommendation
                               (sha reviewReq) in
        let inlineComments := buildInlineComments (v_findings validated) in
        id <- randomUUID ;;
        let response :=
          mkReviewResponse id (v_summary validated) (v_findings validated)
            commentMd inlineComments recommendation
            (mkMeta (provider reviewReq) (repo reviewReq) (sha reviewReq)
                    (mode_or_summary (mode reviewReq)) truncatedDiff) in
        ret (jsonResponse (inr response) 200)
      end
    end
  end.

End Defs.
End V2.

(* ================================================================== *)
(** ** Revision V3: triviality, noise filter, retry *)
(* ================================================================== *)

Module V3.
Section Defs.
Context `{JSRuntime}.
Variable SYSTEM_PROMPT : jsstring.

Definition AI_MODEL : jsstring := js "@cf/openai/gpt-oss-120b".

Definition formatFindingBullet (f : Finding) : jsstring :=
  let bullet := js "- **" ++ title f ++ js "**" in
  let bullet :=
    match truthy_string (file f) with
    | Some fl =>
      let bullet := bullet ++ js " (`" ++ fl ++ js "`" in
      let bullet :=
        match truthy_number (line f) with
        | Some ln => bullet ++ js ":" ++ Number_toString ln
        | None => bullet
        end in
      bullet ++ js ")"
    | None => bullet
    end in
  let bullet := bullet ++ js " â€” " ++ rationale f in
  match truthy_string (suggestion f) with
  | Some sg => bullet ++ js " *Suggestion:* " ++ sg
  | None => bullet
  end.

Definition HEADING : jsstring := js "## âœ… Diff-Sheriff Review".
Definition HIGH_HEADER : jsstring := js "### ðŸš¨ Must Fix (Blocking)".
Definition MEDIUM_HEADER : jsstring := js "### âš ï¸ Should Fix (Recommended)".
Definition LOW_HEADER : jsstring := js "### ðŸ’¡ Nice to Have (Optional)".
Definition TEST_HEADER : jsstring := js "### ðŸ§ª Testing Notes".

Definition recText (recommendation : Recommendation) : jsstring :=
  match recommendation with
  | approve => js "**Approve** â€” No blocking issues found."
  | approve_with_changes =>
    js "**Approve with changes** â€” Address the recommended items before or shortly after merge."
  | request_changes =>
    js "**Request changes** â€” Blocking issues must be resolved before merge."
  end.

(** The array [lines] of [renderReviewMarkdown] just before the final
    [join]. *)
Definition renderReviewLines (summary : jsstring) (findings : list Finding)
           (testingNotes : list jsstring) (recommendation : Recommendation)
           (sha : option jsstring) : list jsstring :=
  let lines : list jsstring := [] in
  let lines := push lines (js "<!-- diff-sheriff -->") in
  let lines := push lines HEADING in
  let lines := push lines [] in
  let lines := push lines (js "### ðŸ”Ž Summary") in
  let lines := push lines (js "> " ++ summary) in
  let lines := push lines [] in
  let high := filter is_high findings in
  let medium := filter is_medium findings in
  let lowAndNit := filter is_lowOrNit findings in
  let lines := pushSection lines HIGH_HEADER formatFindingBullet high in
  let lines := pushSection lines MEDIUM_HEADER formatFindingBullet medium in
  let lines := pushSection lines LOW_HEADER formatFindingBullet lowAndNit in
  let lines := pushSection lines TEST_HEADER (fun note => js "- " ++ note) testingNotes in
  let lines := push lines (js "### ðŸ§­ Overall Recommendation") in
  let lines := push lines (js "- " ++ recText recommendation) in
  let lines := push lines [] in
  let commitRef :=
    match truthy_string sha with
    | Some s => js "`" ++ slice s 0 7 ++ js "`"
    | None => js "N/A"
    end in
  push lines (js "<sub>Reviewed by Diff-Sheriff â€¢ AI-assisted, human-aligned â€¢ Commit: "
              ++ commitRef ++ js "</sub>").

Definition renderReviewMarkdown (summary : jsstring) (findings : list Finding)
           (testingNotes : list jsstring) (recommendation : Recommendation)
           (sha : option jsstring) : jsstring :=
  join [LF] (renderReviewLines summary findings testingNotes recommendation sha).

Definition METADATA_NOISE_PATTERNS : list RegExp :=
  [ mkRegExp (js "\bpr\s+title\b") (js "i");
    mkRegExp (js "\bpr\s+description\b") (js "i");
    mkRegExp (js "\bmissing\s+(title|description|context)\b") (js "i");
    mkRegExp (js "\black\s+of\s+(context|description)\b") (js "i");
    mkRegExp (js "\bempty\s+(title|description)\b") (js "i");
    mkRegExp (js "\bno\s+(title|description|context)\b") (js "i");
    mkRegExp (js "\bprovide\s+(a\s+)?(clear\s+)?(title|description)\b") (js "i") ].

Definition isMetadataNoiseFinding (finding : Finding) : bool :=
  let text :=
    String_toLowerCase
      (title finding ++ js " " ++ rationale finding ++ js " "
       ++ match truthy_string (suggestion finding) with
          | Some sg => sg
          | None => []
          end) in
  existsb (fun pattern => RegExp_test pattern text) METADATA_NOISE_PATTERNS.

Definition filterNonsensicalFindings (findings : list Finding) : list Finding :=
  filter (fun f => negb (isMetadataNoiseFinding f)) findings.

(** One iteration of the loop of [isTrivialDiff]: [true] when the body
    reaches [hasSubstantiveChange = true; break], [false] when it reaches a
    [continue]. *)
Definition lineIsSubstantive (line : jsstring) : bool :=
  if negb (startsWith line (js "+")) && negb (startsWith line (js "-")) then false
  else if startsWith line (js "+++") || startsWith line (js "---") then false
  else
    let content := trim (slice_from line 1) in
    if negb (str_truthy content) then false
    else if startsWith content (js "//") || startsWith content (js "#")
            || startsWith content (js "*") || startsWith content (js "/*")
            || startsWith content (js "*/") then false
    else if forallb isWhiteSpace content then false
    else true.

(** The loop itself: the final [hasSubstantiveChange] and the number of
    iterations run before falling off the array or breaking. *)
Fixpoint scanLines (lines : list jsstring) (iterations : nat) : bool * nat :=
  match lines with
  | [] => (false, iterations)
  | line :: rest =>
    if lineIsSubstantive line then (true, S iterations)
    else scanLines rest (S iterations)
  end.

Definition isTrivialDiff (diff : jsstring) : bool :=
  let lines := split LF diff in
  let hasSubstantiveChange := fst (scanLines lines 0) in
  negb hasSubstantiveChange.

Definition unexpectedFormat : exn :=
  JsError EError (js "Unexpected AI response format").

Definition getAiResponseText (aiResponse : JSValue) : result jsstring :=
  match as_string aiResponse with
  | Some s => Ok s
  | None =>
    if not_an_object aiResponse then Throw unexpectedFormat
    else
      let obj := aiResponse in
      if has_prop obj (js "response") then ToString (get obj (js "response"))
      else if has_prop obj (js "output_text") then
        ToString (get obj (js "output_text"))
      else
        match (if has_prop obj (js "output") then as_array (get obj (js "output"))
               else None) with
        | Some output =>
          let chunks :=
            fold_left
              (fun chunks item =>
                 if not_an_object item then chunks
                 else
                   match as_array (get item (js "content")) with
                   | Some content =>
                     fold_left
                       (fun chunks c =>
                          if not_an_object c then chunks
                          else match as_string (get c (js "text")) with
                               | Some t => push chunks t
                               | None => chunks
                               end) content chunks
                   | None => chunks
                   end) output [] in
          if arr_length chunks >? 0 then Ok (join [LF] chunks)
          else Throw unexpectedFormat
        | None => Throw unexpectedFormat
        end
  end.

Record ReviewResponse := mkReviewResponse {
  reviewId : jsstring;
  summary : jsstring;
  findings : list Finding;
  commentMd : jsstring;
  recommendation : Recommendation;
  meta : Meta
}.

Definition Payload : Type := ErrorResponse + ReviewResponse.

Definition trivialSummary : jsstring :=
  js "Trivial change (comments, whitespace, or non-functional). No issues found.".

(** The text appended to [userPrompt] to make [strictUserPrompt]. *)
Definition STRICT_SUFFIX : jsstring :=
  [LF; LF] ++ js "IMPORTANT: Return ONLY a single valid JSON object (double quotes for keys/strings). No markdown, no code fences, no commentary.".

(** The text appended to [strictUserPrompt] for the retry. *)
Definition RETRY_SUFFIX : jsstring :=
  [LF; LF] ++ js "Your previous response was not valid JSON. Try again and output ONLY valid JSON.".

Definition handleReview (request : Request) (env : Env) : M (Response Payload) :=
  match readReviewRequest request env with
  | inl rejected => ret rejected
  | inr reviewReq =>
    let truncation := truncateDiff reviewReq in
    let reviewReq := fst truncation in
    let truncatedDiff := snd truncation in
    let meta :=
      mkMeta (provider reviewReq) (repo reviewReq) (sha reviewReq)
             (mode_or_summary (mode reviewReq)) truncatedDiff in
    if isTrivialDiff (diff reviewReq) then
      let trivialCommentMd :=
        renderReviewMarkdown trivialSummary [] [] approve (sha reviewReq) in
      id <- randomUUID ;;
      ret (jsonResponse
             (inr (mkReviewResponse id trivialSummary [] trivialCommentMd approve meta))
             200)
    else
      let userPrompt := buildUserPrompt reviewReq truncatedDiff in
      let strictUserPrompt := userPrompt ++ STRICT_SUFFIX in
      answered <-
        try_catch
          (let aiInput :=
             ResponsesInput (chat SYSTEM_PROMPT strictUserPrompt) (js "json_object") in
           aiResponse <- AI_run env AI_MODEL aiInput ;;
           text <- lift (getAiResponseText aiResponse) ;;
           ret (inr text))
          (fun err =>
             let message := message_or err (js "Unknown AI error") in
             ret (inl (errorResponse (js "AI failure: " ++ message) 500))) ;;
      match answered with
      | inl failed => ret failed
      | inr aiResponseText =>
        checked <-
          try_catch
            (parsed <- lift (extractJson aiResponseText) ;;
             validated <- lift (validateAiResponse parsed) ;;
             ret (inr validated))
            (fun err =>
               try_catch
                 (let retryInput :=
                    ResponsesInput
                      (chat SYSTEM_PROMPT (strictUserPrompt ++ RETRY_SUFFIX))
                      (js "json_object") in
                  retryResp <- AI_run env AI_MODEL retryInput ;;
                  retryText <- lift (getAiResponseText retryResp) ;;
                  parsed <- lift (extractJson retryText) ;;
                  validated <- lift (validateAiResponse parsed) ;;
                  ret (inr validated))
                 (fun retryErr =>
                    let message := message_or retryErr (js "Failed to parse AI response") in
                    ret (inl (errorResponse
                                (js "AI response parsing failed: " ++ message) 500)))) ;;
        match checked with
        | inl failed => ret failed
        | inr validated =>
          let filteredFindings := filterNonsensicalFindings (v_findings validated) in
          let recommendation := deriveRecommendation filteredFindings in
          let commentMd :=
            renderReviewMarkdown (v_summary validated) filteredFindings
                                 (v_testingNotes validated) recommendation
                                 (sha reviewReq) in
          id <- randomUUID ;;
          let response :=
            mkReviewResponse id (v_summary validated) filteredFindings commentMd
                             recommendation meta in
          ret (jsonResponse (inr response) 200)
        end
      end
  end.

End Defs.
End V3.

(* ================================================================== *)
(** ** A runtime to run the model on examples *)
(* ================================================================== *)

Definition decimal (z : Z) : jsstring :=
  js (DecimalString.NilZero.string_of_int (Z.to_int z)).

Definition ascii_lower (c : code_unit) : code_unit :=
  if ((65 <=? c) && (c <=? 90))%N then (c + 32)%N else c.

(** [JSON.parse] is given by a table of the texts the examples parse; any
    other text is a syntax error.  Numbers print in decimal, lower-casing
    covers ASCII, and no regular expression matches. *)
Definition example_runtime (parses : list (jsstring * JSValue)) : JSRuntime :=
  {| JSON_parse := fun text =>
       match assoc text parses with
       | Some v => inr v
       | None => inl (js "Unexpected token")
       end;
     Number_toString := fun n => decimal (number_to_Z n);
     String_toLowerCase := map ascii_lower;
     RegExp_test := fun _ _ => false;
     stringify_keys := fun _ => js "[]";
     nullish_read_message := fun _ k =>
       js "Cannot read properties of null (reading '" ++ k ++ js "')";
     crypto_randomUUID := fun n => js "review-" ++ decimal (Z.of_nat n) |}.

(** [{ k1: v1, ... }] with string keys written as literals. *)
Definition obj (props : list (String.string * JSValue)) : JSValue :=
  JSObject (map (fun kv => (js (fst kv), snd kv)) props).

Definition str (s : String.string) : JSValue := JSString (js s).
Arguments str s%_string.

Definition num (z : Z) : JSValue := JSNumber (number_of_Z z).

(* ================================================================== *)
(** * The specification's vocabulary *)
(* ================================================================== *)

(** The predicates and shapes the properties are stated with.  Those named
    [spec_...] are written from the words of the specification, not from
    the code. *)

Unset Implicit Arguments.

Section Vocabulary.
Context `{JSRuntime}.
Variable SYSTEM_PROMPT : jsstring.

(** *** Extraction *)

(** The extractor as the specification words it: the outcome for a text,
    by the position of its first opening and last closing brace. *)
Inductive extractJson_spec : jsstring -> result JSValue -> Prop :=
| spec_no_opening text :
    ~ In LBRACE text ->
    extractJson_spec text (Throw NoJsonFound)
| spec_no_closing text :
    ~ In RBRACE text ->
    extractJson_spec text (Throw NoJsonFound)
| spec_closing_first a b c :
    ~ In LBRACE (a ++ RBRACE :: b) ->
    ~ In RBRACE (b ++ LBRACE :: c) ->
    extractJson_spec (a ++ RBRACE :: b ++ LBRACE :: c) (Throw NoJsonFound)
| spec_malformed pre mid post msg :
    ~ In LBRACE pre ->
    ~ In RBRACE post ->
    JSON_parse (LBRACE :: mid ++ [RBRACE]) = inl msg ->
    extractJson_spec (pre ++ LBRACE :: mid ++ RBRACE :: post)
                     (Throw (MalformedJson msg))
| spec_parsed pre mid post parsed :
    ~ In LBRACE pre ->
    ~ In RBRACE post ->
    JSON_parse (LBRACE :: mid ++ [RBRACE]) = inr parsed ->
    extractJson_spec (pre ++ LBRACE :: mid ++ RBRACE :: post) (Ok parsed).

(** Extraction followed by validation. *)
Definition extractAndValidate (text : jsstring) : result ValidatedResponse :=
  match extractJson text with
  | Ok parsed => validateAiResponse parsed
  | Throw e => Throw e
  end.

(** *** Validation *)

(** What one element contributes to an array filled by a conditional
    [push]. *)
Definition kept {A B : Type} (g : A -> option B) (x : A) : list B :=
  match g x with
  | Some y => [y]
  | None => []
  end.

(** A well-formed finding as the data model words it: an object whose
    [severity] is one of the four names and whose [title] and [rationale]
    are non-empty text. *)
Definition spec_validFinding (v : JSValue) : bool :=
  match v with
  | JSObject props =>
    match assoc (js "severity") props, assoc (js "title") props,
          assoc (js "rationale") props with
    | Some (JSString s), Some (JSString t), Some (JSString r) =>
      includes validSeverities s && str_truthy t && str_truthy r
    | _, _, _ => false
    end
  | _ => false
  end.

(** A finding [f] is the element [v] after validation: same severity,
    title and rationale. *)
Definition survives (v : JSValue) (f : Finding) : Prop :=
  validateFinding v = Some f
  /\ get v (js "severity") = JSString (severity_name (severity f))
  /\ get v (js "title") = JSString (title f)
  /\ get v (js "rationale") = JSString (rationale f).

(** *** Triviality *)

Definition COMMENT_MARKERS : list jsstring :=
  [js "//"; js "#"; js "*"; js "/*"; js "*/"].

(** A file-header line of a unified diff, [--- a/path] or [+++ b/path]:
    the marker, a space, and the name of the file.  The line is taken by
    itself, without its place in the diff. *)
Definition spec_fileHeader (line : jsstring) : bool :=
  startsWith line (js "+++ ") || startsWith line (js "--- ").

(** An added or removed content line, in the words of the specification:
    the prefix [+] or [-], the file-header lines left out. *)
Definition spec_changedLine (line : jsstring) : bool :=
  (startsWith line (js "+") || startsWith line (js "-"))
  && negb (spec_fileHeader line).

(** The lines the loop of [isTrivialDiff] looks into, by the tests it
    makes: the prefix [+] or [-], and neither [+++] nor [---] at the start,
    whatever follows them. *)
Definition scannedLine (line : jsstring) : bool :=
  (startsWith line (js "+") || startsWith line (js "-"))
  && negb (startsWith line (js "+++") || startsWith line (js "---")).

(** Its content, prefix removed and trimmed, is empty or begins with a
    comment marker. *)
Definition spec_blankOrComment (line : jsstring) : bool :=
  let content := trim (slice_from line 1) in
  match content with
  | [] => true
  | _ :: _ => existsb (startsWith content) COMMENT_MARKERS
  end.

(** *** The report *)

(** A bucket as the specification words it: nothing at all for an empty
    bucket; otherwise its header, one bullet per entry in order, and a
    closing blank line. *)
Definition spec_section {A : Type} (header : jsstring) (bullet : A -> jsstring)
           (bucket : list A) : list jsstring :=
  match bucket with
  | [] => []
  | _ :: _ => header :: map bullet bucket ++ [[]]
  end.

(** The lines before the buckets, in [V2] and in [V3]. *)
Definition V2_head (summary : jsstring) (recommendation : Recommendation)
  : list jsstring :=
  [js "<!-- diff-sheriff -->";
   js "## " ++ V2.recEmoji recommendation ++ js " Diff-Sheriff";
   []; summary; []].

Definition V3_head (summary : jsstring) : list jsstring :=
  [js "<!-- diff-sheriff -->"; V3.HEADING; [];
   js "### ðŸ”Ž Summary"; js "> " ++ summary; []].

Definition noteBullet (note : jsstring) : jsstring := js "- " ++ note.

(** *** Inline comments *)

(** A finding carries a file and a line. *)
Definition carries_file_and_line (f : Finding) : bool :=
  match file f, line f with
  | Some _, Some _ => true
  | _, _ => false
  end.

(** A finding carries a non-empty file and a line that is neither zero nor
    NaN: the findings [buildInlineComments] anchors. *)
Definition spec_anchored (f : Finding) : bool :=
  match file f, line f with
  | Some (_ :: _), Some n => num_truthy n
  | _, _ => false
  end.

(** The comment [c] is anchored where the finding [f] points. *)
Definition anchors (f : Finding) (c : InlineComment) : Prop :=
  file f = Some (path c) /\ line f = Some (comment_line c).

(** *** The handlers *)

(** The transport-level check passes: the header reads [Bearer <token>]
    with the configured token. *)
Definition authorized (request : Request) (env : Env) : bool :=
  match authorization request with
  | Some authHeader =>
    startsWith authHeader (js "Bearer ")
    && jsstring_eqb (slice_from authHeader 7) (AUTH_TOKEN env)
  | None => false
  end.

Definition MISSING_DIFF : jsstring := js "Missing or empty 'diff' field".

(** The request after the truncation block, and its flag. *)
Definition prepared (accepted : ReviewRequest) : ReviewRequest :=
  fst (truncateDiff accepted).

Definition flagged (accepted : ReviewRequest) : bool :=
  snd (truncateDiff accepted).

(** [strictUserPrompt] of [V3] for an accepted request. *)
Definition strictUserPrompt (accepted : ReviewRequest) : jsstring :=
  buildUserPrompt (prepared accepted) (flagged accepted) ++ V3.STRICT_SUFFIX.

(** The first inference call of [V3]. *)
Definition firstCall (accepted : ReviewRequest) : AiCall :=
  mkAiCall V3.AI_MODEL
           (ResponsesInput (chat SYSTEM_PROMPT (strictUserPrompt accepted))
                           (js "json_object")).

(** The instruction the specification asks the retry to carry. *)
Definition RETRY_INSTRUCTION : jsstring :=
  js "Your previous response was not valid JSON. Try again and output ONLY valid JSON.".

(** The retry, in the words of the specification: the first call with the
    instruction appended, after a blank line, to its user message. *)
Definition retryCall (accepted : ReviewRequest) : AiCall :=
  mkAiCall V3.AI_MODEL
           (ResponsesInput
              (chat SYSTEM_PROMPT
                    (strictUserPrompt accepted ++ [LF; LF] ++ RETRY_INSTRUCTION))
              (js "json_object")).

(** Everything the retry does with the backend's second answer. *)
Definition retryOutcome (second : result JSValue) : result ValidatedResponse :=
  match second with
  | Ok retryResp =>
    match V3.getAiResponseText retryResp with
    | Ok retryText => extractAndValidate retryText
    | Throw e => Throw e
    end
  | Throw e => Throw e
  end.

Definition V3_meta (accepted : ReviewRequest) : Meta :=
  mkMeta (provider (prepared accepted)) (repo (prepared accepted))
         (sha (prepared accepted)) (mode_or_summary (mode (prepared accepted)))
         (flagged accepted).

(** The [ReviewResponse] of [V3] built from a validated reply. *)
Definition reviewOf (accepted : ReviewRequest) (validated : ValidatedResponse)
           (id : jsstring) : V3.ReviewResponse :=
  let filteredFindings := V3.filterNonsensicalFindings (v_findings validated) in
  let recommendation := deriveRecommendation filteredFindings in
  V3.mkReviewResponse
    id (v_summary validated) filteredFindings
    (V3.renderReviewMarkdown (v_summary validated) filteredFindings
                             (v_testingNotes validated) recommendation
                             (sha (prepared accepted)))
    recommendation (V3_meta accepted).

(** The terminal error of the retry controller. *)
Definition parsingFailed (e : exn) : Response V3.Payload :=
  errorResponse (js "AI response parsing failed: "
                 ++ message_or e (js "Failed to parse AI response")) 500.

End Vocabulary.

(* ------------------------------------------------------------------ *)
(** ** Data of the worked examples *)
(* ------------------------------------------------------------------ *)

(** A quoted JSON string. *)
Definition quoted (s : String.string) : jsstring := [DQUOTE] ++ js s ++ [DQUOTE].
Arguments quoted s%_string.

(** *** Replies: a JSON object inside a fenced block inside prose *)

Definition fenced_prefix : jsstring :=
  js "here is the result:" ++ [LF] ++ js "```json" ++ [LF].

Definition fenced_inner : jsstring := quoted "a" ++ js ":1".

Definition fenced_suffix : jsstring := [LF] ++ js "```" ++ [LF] ++ js "thanks".

Definition fenced_reply : jsstring :=
  fenced_prefix ++ LBRACE :: fenced_inner ++ RBRACE :: fenced_suffix.

Definition a_is_1 : JSValue := obj [("a", num 1)]%string.

Definition fenced_runtime : JSRuntime :=
  example_runtime [(js "{" ++ quoted "a" ++ js ":1}", a_is_1)].

(** *** Elements of a findings array *)

Definition finding_a : JSValue :=
  obj [("severity", str "high"); ("title", str "Use of eval");
       ("rationale", str "Runs attacker-controlled code.");
       ("file", str "src/app.ts"); ("line", num 12)]%string.

Definition finding_without_rationale : JSValue :=
  obj [("severity", str "low"); ("title", str "Naming")]%string.

Definition finding_critical : JSValue :=
  obj [("severity", str "critical"); ("title", str "Crash");
       ("rationale", str "Null dereference.")]%string.

(** Its line is [1.5]. *)
Definition finding_b : JSValue :=
  obj [("severity", str "nit"); ("title", str "Typo");
       ("rationale", str "Spelling in a comment.");
       ("line", JSNumber (S754_finite false 3 (-1)))]%string.

Definition mixed_findings : list JSValue :=
  [finding_a; finding_without_rationale; finding_critical; finding_b].

Definition mixed_reply : JSValue :=
  obj [("summary", str "Two real issues."); ("findings", JSArray mixed_findings)]%string.

(** Every required field is in order and [line] is the integer [-5]. *)
Definition negative_line_element : JSValue :=
  obj [("severity", str "low"); ("title", str "Off by one");
       ("rationale", str "The loop skips the last row."); ("line", num (-5))]%string.

(** Every required field is in order, with a file and the line [0]. *)
Definition line_zero_element : JSValue :=
  obj [("severity", str "medium"); ("title", str "Header comment is stale");
       ("rationale", str "It still names the old module.");
       ("file", str "src/app.ts"); ("line", num 0)]%string.

(** *** Findings *)

Definition line_zero_finding : Finding :=
  mkFinding medium (js "Header comment is stale")
            (js "It still names the old module.")
            None (Some (js "src/app.ts")) (Some (number_of_Z 0)).


Definition anchored_finding : Finding :=
  mkFinding high (js "Use of eval") (js "Runs attacker-controlled code.")
            (Some (js "Validate first.")) (Some (js "src/app.ts"))
            (Some (number_of_Z 12)).

Definition unanchored_finding : Finding :=
  mkFinding low (js "Naming") (js "The name hides the unit.") None None
            (Some (number_of_Z 3)).

Definition some_finding (sev : Severity) : Finding :=
  mkFinding sev (js "t") (js "r") None None None.

(** *** Diffs *)

Definition request_with_diff (d : jsstring) : ReviewRequest :=
  mkReviewRequest d None None None None None None None (Some summary_mode) None.

(** 60,001 code units. *)
Definition long_diff : jsstring := repeat 43%N (Z.to_nat 60001).

Definition comment_only_diff : jsstring :=
  js "--- a/app.ts" ++ [LF] ++ js "+++ b/app.ts" ++ [LF]
  ++ js "+ // note" ++ [LF] ++ js "   context".

(** A hunk that adds the statement [++x;]: the added line reads [+++x;]. *)
Definition increment_diff : jsstring :=
  js "--- a/counter.js" ++ [LF] ++ js "+++ b/counter.js" ++ [LF]
  ++ js "@@ -1,2 +1,3 @@" ++ [LF] ++ js " function tick() {" ++ [LF]
  ++ js "+++x;" ++ [LF] ++ js " }".

Definition substantive_diff : jsstring :=
  js "+ // note" ++ [LF] ++ js "+ x = 1" ++ [LF] ++ js "+ y = 2".

(** *** Requests, bindings and backend replies *)

(** The backend answers its [n]-th call with the [n]-th reply of a script
    and rejects once the script is exhausted. *)
Definition example_env (replies : list (result JSValue)) : Env :=
  mkEnv (js "s3cret")
        (fun n _ _ => nth n replies (Throw (JsThrown (JSString (js "backend down"))))).

Definition bearer (body : JSValue) : Request :=
  mkRequest (Some (js "Bearer s3cret")) (Ok body).

(** A diff of a space, a tab, a line feed, a no-break space and a space. *)
Definition blank_body : JSValue :=
  JSObject [(js "diff", JSString ([0x20; 0x09; 0x0A; 0xA0; 0x20])%N)].

Definition review_json : jsstring :=
  js "{" ++ quoted "summary" ++ js ":" ++ quoted "Adds eval." ++ js ","
  ++ quoted "findings" ++ js ":[{" ++ quoted "severity" ++ js ":" ++ quoted "high"
  ++ js "," ++ quoted "title" ++ js ":" ++ quoted "Use of eval" ++ js ","
  ++ quoted "rationale" ++ js ":" ++ quoted "Runs attacker-controlled code."
  ++ js "}]}".

Definition review_value : JSValue :=
  obj [("summary", str "Adds eval.");
       ("findings",
        JSArray [obj [("severity", str "high"); ("title", str "Use of eval");
                      ("rationale", str "Runs attacker-controlled code.")]])]%string.

Definition review_runtime : JSRuntime := example_runtime [(review_json, review_value)].

(** A reply that is prose only, and one that wraps the JSON object in
    prose. *)
Definition prose_reply : JSValue :=
  obj [("response", str "I could not produce a review.")]%string.

Definition wrapped_reply : JSValue :=
  JSObject [(js "response", JSString (js "Here it is: " ++ review_json ++ js " Done."))].

Definition eval_request : Request :=
  bearer (obj [("diff", str "+  eval(data.code);"); ("sha", str "abc123def456")]%string).

(** [eval_request] as [handleReview] reads it. *)
Definition eval_accepted : ReviewRequest :=
  mkReviewRequest (js "+  eval(data.code);") None None None None
                  (Some (js "abc123def456")) None None (Some summary_mode) None.

(* ================================================================== *)
(** * The router, and the vocabulary of the further properties *)
(* ================================================================== *)

(** ** [handleHealth] and [fetch], identical in [V1], [V2] and [V3] *)

(** The request as [fetch] reads it: [new URL(request.url).pathname],
    [request.method], and what [handleReview] reads of it. *)
Record HttpRequest := mkHttpRequest {
  url_pathname : jsstring;
  http_method : jsstring;
  http_request : Request
}.

(** The body of the health answer, [{ ok: true, name, ts }]. *)
Record HealthBody := mkHealthBody {
  health_name : jsstring;
  health_ts : jsstring
}.

(** What [fetch] resolves to: the answer of [handleHealth] or an answer of
    the shape [handleReview] gives. *)
Inductive Reply (R : Type) : Type :=
| HealthReply (r : Response HealthBody)
| ReviewReply (r : Response (ErrorResponse + R)).

Arguments HealthReply {R} r.
Arguments ReviewReply {R} r.

(** [handleHealth()]; [now] is [new Date().toISOString()]. *)
Definition handleHealth (now : jsstring) : Response HealthBody :=
  jsonResponse (mkHealthBody (js "diff-sheriff") now) 200.

(** [fetch(request, env)], over the [handleReview] of the revision. *)
Definition fetch {R : Type}
           (handleReview : Request -> Env -> M (Response (ErrorResponse + R)))
           (now : jsstring) (request : HttpRequest) (env : Env) : M (Reply R) :=
  let path := url_pathname request in
  let method := http_method request in
  if jsstring_eqb path (js "/health") && jsstring_eqb method (js "GET") then
    ret (HealthReply (handleHealth now))
  else if jsstring_eqb path (js "/review") && jsstring_eqb method (js "POST") then
    r <- handleReview (http_request request) env ;;
    ret (ReviewReply r)
  else
    ret (ReviewReply (errorResponse (js "Not found") 404)).

(** ** Vocabulary *)

(** How strict a recommendation is. *)
Definition strictness (r : Recommendation) : nat :=
  match r with
  | approve => 0
  | approve_with_changes => 1
  | request_changes => 2
  end.

Definition stricter (a b : Recommendation) : Recommendation :=
  if (strictness a <=? strictness b)%nat then b else a.

(** [xs] is [ys] with some elements left out, the others in place. *)
Inductive subsequence {A : Type} : list A -> list A -> Prop :=
| subsequence_nil : subsequence [] []
| subsequence_skip x xs ys : subsequence xs ys -> subsequence xs (x :: ys)
| subsequence_keep x xs ys : subsequence xs ys -> subsequence (x :: xs) (x :: ys).

(** What an entry of [testingNotes] becomes: a string that is not blank is
    kept trimmed, anything else is dropped. *)
Definition noteOf (v : JSValue) : option jsstring :=
  match v with
  | JSString s => if forallb isWhiteSpace s then None else Some (trim s)
  | _ => None
  end.

(** The [text] strings under the [content] arrays of the items of an
    [output] array, in order. *)
Definition textsOf (c : JSValue) : option jsstring :=
  if not_an_object c then None else as_string (get c (js "text")).

Definition leavesOf (item : JSValue) : list jsstring :=
  if not_an_object item then []
  else match as_array (get item (js "content")) with
       | Some content => flat_map (kept textsOf) content
       | None => []
       end.

(** The two lines a non-empty section adds around its bullets. *)
Definition frame {A : Type} (bucket : list A) : nat :=
  match bucket with [] => 0 | _ :: _ => 2 end.

(** The number of line feeds in a string. *)
Definition lineFeeds (s : jsstring) : nat :=
  length (filter (fun c => N.eqb c LF) s).

(** The fenced block that closes the user prompt. *)
Definition diffBlock (d : jsstring) : jsstring :=
  [LF] ++ js "Diff to review:" ++ [LF] ++ js "```diff" ++ [LF] ++ d ++ [LF] ++ js "```".

(** A finding with its line removed. *)
Definition without_line (f : Finding) : Finding :=
  mkFinding (severity f) (title f) (rationale f) (suggestion f) (file f) None.

(** The canned review of [V3] for a trivial diff. *)
Definition trivialReview `{JSRuntime} (accepted : ReviewRequest) (id : jsstring)
  : V3.ReviewResponse :=
  V3.mkReviewResponse
    id V3.trivialSummary []
    (V3.renderReviewMarkdown V3.trivialSummary [] [] approve (sha (prepared accepted)))
    approve (V3_meta accepted).

(** The error of [V3] for a failure of the first inference step. *)
Definition aiFailed {R : Type} (e : exn) : Response (ErrorResponse + R) :=
  errorResponse (js "AI failure: " ++ message_or e (js "Unknown AI error")) 500.

(** The one inference call of [V1] and of [V2]. *)
Definition V1_call (SYSTEM_PROMPT : jsstring) (accepted : ReviewRequest) : AiCall :=
  mkAiCall V1.AI_MODEL
           (MessagesInput
              (chat SYSTEM_PROMPT (buildUserPrompt (prepared accepted) (flagged accepted)))).

Definition V2_call (SYSTEM_PROMPT : jsstring) (accepted : ReviewRequest) : AiCall :=
  mkAiCall V2.AI_MODEL
           (MessagesInput
              (chat SYSTEM_PROMPT (buildUserPrompt (prepared accepted) (flagged accepted)))).

(** The statuses a handler answers with. *)
Definition handler_status (code : Z) : Prop :=
  code = 200 \/ code = 400 \/ code = 401 \/ code = 500.

(** ** Vocabulary of the handlers *)

Section HandlerVocabulary.
Context `{JSRuntime}.
Variable SYSTEM_PROMPT : jsstring.

(** The message of the 401 a request gets when the bearer check fails. *)
Definition unauthorizedMessage (request : Request) : jsstring :=
  match authorization request with
  | Some authHeader =>
    if startsWith authHeader (js "Bearer ")
    then js "Unauthorized: Invalid token"
    else js "Unauthorized: Missing or invalid Authorization header"
  | None => js "Unauthorized: Missing or invalid Authorization header"
  end.

(** The three revisions answer a request with the same error and leave the
    world as it was. *)
Definition all_reject (request : Request) (env : Env) (w : World)
           (msg : jsstring) (code : Z) : Prop :=
  V1.handleReview SYSTEM_PROMPT request env w = (Ok (errorResponse msg code), w)
  /\ V2.handleReview SYSTEM_PROMPT request env w = (Ok (errorResponse msg code), w)
  /\ V3.handleReview SYSTEM_PROMPT request env w = (Ok (errorResponse msg code), w).

(** What the first inference step of [V3] yields: the text of the reply, or
    the failure of the call or of the envelope reader. *)
Definition firstAnswer (env : Env) (w : World) (accepted : ReviewRequest)
  : result jsstring :=
  match AI_backend env (length (ai_calls w)) V3.AI_MODEL
                   (call_input (firstCall SYSTEM_PROMPT accepted)) with
  | Ok aiResponse => V3.getAiResponseText aiResponse
  | Throw e => Throw e
  end.

(** The envelope test of [V1]: an object with a [response] property. *)
Definition V1_envelope (aiResponse : JSValue) : result jsstring :=
  if negb (not_an_object aiResponse) && has_prop aiResponse (js "response")
  then ToString (get aiResponse (js "response"))
  else Throw (JsError EError (js "Unexpected AI response format")).

Definition V1_answer (env : Env) (w : World) (accepted : ReviewRequest)
  : result jsstring :=
  match AI_backend env (length (ai_calls w)) V1.AI_MODEL
                   (call_input (V1_call SYSTEM_PROMPT accepted)) with
  | Ok aiResponse => V1_envelope aiResponse
  | Throw e => Throw e
  end.

Definition V2_answer (env : Env) (w : World) (accepted : ReviewRequest)
  : result jsstring :=
  match AI_backend env (length (ai_calls w)) V2.AI_MODEL
                   (call_input (V2_call SYSTEM_PROMPT accepted)) with
  | Ok aiResponse => V2.choiceContent aiResponse
  | Throw e => Throw e
  end.

(** Extraction followed by the validation of [V1]. *)
Definition V1_extractAndValidate (text : jsstring) : result V1.Validated :=
  match extractJson text with
  | Ok parsed => V1.validateAiResponse parsed
  | Throw e => Throw e
  end.

(** The reviews of [V1] and [V2] built from a validated reply. *)
Definition V1_reviewOf (accepted : ReviewRequest) (validated : V1.Validated)
           (id : jsstring) : V1.ReviewResponse :=
  V1.mkReviewResponse id (V1.v_summary validated) (V1.v_findings validated)
                      (V3_meta accepted).

Definition V2_reviewOf (accepted : ReviewRequest) (validated : ValidatedResponse)
           (id : jsstring) : V2.ReviewResponse :=
  let recommendation := deriveRecommendation (v_findings validated) in
  V2.mkReviewResponse
    id (v_summary validated) (v_findings validated)
    (V2.renderReviewMarkdown (v_summary validated) (v_findings validated)
                             (v_testingNotes validated) recommendation
                             (sha (prepared accepted)))
    (V2.buildInlineComments (v_findings validated))
    recommendation (V3_meta accepted).

(** The error of a failed extraction or validation, in any revision. *)
Definition parseError {R : Type} (e : exn) : Response (ErrorResponse + R) :=
  errorResponse (js "AI response parsing failed: "
                 ++ message_or e (js "Failed to parse AI response")) 500.

(** The world after [calls] more inference calls and [drawn] more
    identifiers. *)
Definition after (w : World) (calls : list AiCall) (drawn : nat) : World :=
  mkWorld (ai_calls w ++ calls) (drawn + uuids_drawn w).

(** What [V3.handleReview] does, case by case. *)
Definition V3_outcome (request : Request) (env : Env) (w : World)
  : Response V3.Payload * World :=
  match readReviewRequest request env with
  | inl rejected => (rejected, w)
  | inr accepted =>
    let id := crypto_randomUUID (uuids_drawn w) in
    let first := firstCall SYSTEM_PROMPT accepted in
    let retry := retryCall SYSTEM_PROMPT accepted in
    if V3.isTrivialDiff (diff (prepared accepted)) then
      (jsonResponse (inr (trivialReview accepted id)) 200, after w [] 1)
    else
      match firstAnswer env w accepted with
      | Throw e => (aiFailed e, after w [first] 0)
      | Ok text =>
        match extractAndValidate text with
        | Ok validated =>
          (jsonResponse (inr (reviewOf accepted validated id)) 200, after w [first] 1)
        | Throw _ =>
          match retryOutcome
                  (AI_backend env (length (ai_calls w ++ [first])) V3.AI_MODEL
                              (call_input retry)) with
          | Ok validated =>
            (jsonResponse (inr (reviewOf accepted validated id)) 200,
             after w [first; retry] 1)
          | Throw e => (parseError e, after w [first; retry] 0)
          end
        end
      end
  end.

(** What [V1.handleReview] and [V2.handleReview] do, case by case. *)
Definition V1_outcome (request : Request) (env : Env) (w : World)
  : Response V1.Payload * World :=
  match readReviewRequest request env with
  | inl rejected => (rejected, w)
  | inr accepted =>
    let call := V1_call SYSTEM_PROMPT accepted in
    match V1_answer env w accepted with
    | Throw e => (aiFailed e, after w [call] 0)
    | Ok text =>
      match V1_extractAndValidate text with
      | Ok validated =>
        (jsonResponse
           (inr (V1_reviewOf accepted validated (crypto_randomUUID (uuids_drawn w))))
           200,
         after w [call] 1)
      | Throw e => (parseError e, after w [call] 0)
      end
    end
  end.

Definition V2_outcome (request : Request) (env : Env) (w : World)
  : Response V2.Payload * World :=
  match readReviewRequest request env with
  | inl rejected => (rejected, w)
  | inr accepted =>
    let call := V2_call SYSTEM_PROMPT accepted in
    match V2_answer env w accepted with
    | Throw e => (aiFailed e, after w [call] 0)
    | Ok text =>
      match extractAndValidate text with
      | Ok validated =>
        (jsonResponse
           (inr (V2_reviewOf accepted validated (crypto_randomUUID (uuids_drawn w))))
           200,
         after w [call] 1)
      | Throw e => (parseError e, after w [call] 0)
      end
    end
  end.

End HandlerVocabulary.

(** A run that started in [w] returned a response, made at most
    [max_calls] inference calls and drew at most one identifier: exactly
    one when the response is a 200, and a 200 is what carries a review. *)
Definition bounded_run {R : Type} (max_calls : nat) (w : World)
           (out : result (Response (ErrorResponse + R)) * World) : Prop :=
  exists resp calls drawn,
    out = (Ok resp, after w calls drawn)
    /\ (length calls <= max_calls)%nat
    /\ handler_status (status resp)
    /\ (status resp = 200 <-> drawn = 1%nat)
    /\ (status resp <> 200 <-> drawn = 0%nat)
    /\ (status resp = 200 <-> exists r, resp_data resp = inr r).

(** A run of the router returns a reply, and it has called the backend
    only for an authorized [POST /review]. *)
Definition guarded_route {R : Type}
           (handleReview : Request -> Env -> M (Response (ErrorResponse + R)))
           (now : jsstring) (request : HttpRequest) (env : Env) (w : World) : Prop :=
  (exists reply, fst (fetch handleReview now request env w) = Ok reply)
  /\ (ai_calls (snd (fetch handleReview now request env w)) <> ai_calls w ->
      url_pathname request = js "/review"
      /\ http_method request = js "POST"
      /\ authorized (http_request request) env = true).

(** ** Data of the further examples *)

Definition wrong_token_request : Request :=
  mkRequest (Some (js "Bearer guess")) (Throw (JsThrown JSNull)).

Definition finding_blank_suggestion : JSValue :=
  obj [("severity", str "low"); ("title", str "Naming");
       ("rationale", str "Unclear name."); ("suggestion", str "")]%string.

Definition naming_finding : Finding :=
  mkFinding low (js "Naming") (js "Unclear name.") None None None.

(** A reply whose [response] is an object with a [toString] of its own. *)
Definition unconvertible_reply : JSValue :=
  obj [("response", obj [("toString", JSNull)])]%string.

Definition notes_validated : ValidatedResponse :=
  mkValidated (js "Fine.") [] [js "run the unit tests"; js "check the logs"].

Definition trivial_request : Request :=
  bearer (obj [("diff", str "+ // only a comment")]%string).

Definition trivial_accepted : ReviewRequest :=
  request_with_diff (js "+ // only a comment").

Definition clean_reply : JSValue := JSObject [(js "response", JSString review_json)].

Definition choices_reply : JSValue :=
  obj [("choices",
        JSArray [obj [("message", obj [("content", JSString review_json)])];
                 obj [("message", obj [("content", str "second choice")])]])]%string.

Definition notes_reply : JSValue :=
  obj [("summary", str "Fine.");
       ("testingNotes",
        JSArray [str "  run the unit tests "; str "   "; num 3; str "check the logs"])]%string.

(* ================================================================== *)
(** * Properties *)
(* ================================================================== *)

Example js_check_mark : js "✅" = [0x2705%N].
Proof. reflexivity. Qed.

Example js_siren : js "🚨" = [0xD83D%N; 0xDEA8%N].
Proof. reflexivity. Qed.

(** The code units of the non-ASCII literals of [V3]. *)
Example V3_literals :
  V3.HEADING = js "## " ++ [0xE2; 0x153; 0x2026]%N ++ js " Diff-Sheriff Review"
  /\ V3.HIGH_HEADER
     = js "### " ++ [0xF0; 0x178; 0x161; 0xA8]%N ++ js " Must Fix (Blocking)"
  /\ V3.MEDIUM_HEADER
     = js "### " ++ [0xE2; 0x161; 0xA0; 0xEF; 0xB8]%N ++ js " Should Fix (Recommended)"
  /\ V3.LOW_HEADER
     = js "### " ++ [0xF0; 0x178; 0x2019; 0xA1]%N ++ js " Nice to Have (Optional)"
  /\ V3.TEST_HEADER = js "### " ++ [0xF0; 0x178; 0xA7; 0xAA]%N ++ js " Testing Notes"
  /\ V3.recText approve
     = js "**Approve** " ++ [0xE2; 0x20AC; 0x201D]%N ++ js " No blocking issues found.".
Proof. split; [|split; [|split; [|split; [|split]]]]; vm_compute; reflexivity. Qed.

Example slice_demo : slice (js "abcdef") 1 4 = js "bcd".
Proof. reflexivity. Qed.

Example split_demo : split LF (js "a
b") = [js "a"; js "b"].
Proof. reflexivity. Qed.

Example trim_demo : trim (js "  x y  ") = js "x y".
Proof. reflexivity. Qed.

(* ------------------------------------------------------------------ *)
(** ** Strings: searching, slicing, trimming *)
(* ------------------------------------------------------------------ *)

Lemma jsstring_eqb_eq (a b : jsstring) : jsstring_eqb a b = true <-> a = b.
Proof.
  revert b; induction a as [|x a IH]; intros [|y b]; simpl;
    try (split; (discriminate || reflexivity)).
  rewrite andb_true_iff, N.eqb_eq, IH.
  split; [intros [-> ->]; reflexivity | intros E; inversion E; auto].
Qed.

Lemma jsstring_eqb_refl (a : jsstring) : jsstring_eqb a a = true.
Proof. apply jsstring_eqb_eq; reflexivity. Qed.

Lemma jsstring_eqb_neq (a b : jsstring) : jsstring_eqb a b = false <-> a <> b.
Proof.
  rewrite <- jsstring_eqb_eq. destruct (jsstring_eqb a b); split; congruence.
Qed.

Lemma In_code_unit_dec (c : code_unit) (s : jsstring) : {In c s} + {~ In c s}.
Proof. apply in_dec, N.eq_dec. Qed.

Lemma indexOf_from_notin s c i : ~ In c s -> indexOf_from s c i = -1.
Proof.
  revert i; induction s as [|x r IH]; simpl; intros i Hn; [reflexivity|].
  destruct (N.eqb_spec x c) as [->|_]; [exfalso; auto|].
  apply IH; auto.
Qed.

Lemma indexOf_from_first pre c rest i :
  ~ In c pre ->
  indexOf_from (pre ++ c :: rest) c i = i + Z.of_nat (length pre).
Proof.
  revert i; induction pre as [|x pre IH]; simpl; intros i Hn.
  - rewrite N.eqb_refl; lia.
  - destruct (N.eqb_spec x c) as [->|_]; [exfalso; auto|].
    rewrite IH by auto. lia.
Qed.

Lemma lastIndexOf_from_notin s c i found :
  ~ In c s -> lastIndexOf_from s c i found = found.
Proof.
  revert i found; induction s as [|x r IH]; simpl; intros i found Hn; [reflexivity|].
  destruct (N.eqb_spec x c) as [->|_]; [exfalso; auto|].
  apply IH; auto.
Qed.

Lemma lastIndexOf_from_last pre c post i found :
  ~ In c post ->
  lastIndexOf_from (pre ++ c :: post) c i found = i + Z.of_nat (length pre).
Proof.
  revert i found; induction pre as [|x pre IH]; simpl; intros i found Hn.
  - rewrite N.eqb_refl, lastIndexOf_from_notin by assumption. lia.
  - rewrite IH by assumption. lia.
Qed.

Lemma first_occurrence (c : code_unit) s :
  In c s -> exists pre rest, s = pre ++ c :: rest /\ ~ In c pre.
Proof.
  induction s as [|x r IH]; simpl; [tauto|]; intros Hin.
  destruct (N.eq_dec x c) as [->|Hne].
  - exists [], r; auto.
  - destruct Hin as [?|Hin]; [contradiction|].
    destruct (IH Hin) as (pre & rest & -> & Hn).
    exists (x :: pre), rest; split; [reflexivity|].
    simpl; intros [?|?]; auto.
Qed.

Lemma last_occurrence (c : code_unit) s :
  In c s -> exists pre post, s = pre ++ c :: post /\ ~ In c post.
Proof.
  induction s as [|x r IH]; simpl; [tauto|]; intros Hin.
  destruct (In_code_unit_dec c r) as [Hr|Hr].
  - destruct (IH Hr) as (pre & post & -> & Hn).
    exists (x :: pre), post; auto.
  - destruct Hin as [->|?]; [|contradiction].
    exists [], r; auto.
Qed.

Lemma occurrences_ordered (x y : code_unit) p1 r1 p2 r2 :
  p1 ++ x :: r1 = p2 ++ y :: r2 ->
  (length p1 < length p2)%nat ->
  exists m, p2 = p1 ++ x :: m /\ r1 = m ++ y :: r2.
Proof.
  revert p2; induction p1 as [|a p1 IH]; intros [|b p2]; simpl; intros E L;
    try lia.
  - inversion E; subst. exists p2; auto.
  - inversion E; subst.
    destruct (IH p2 H1) as (m & -> & ->); [lia|].
    exists m; auto.
Qed.

Lemma slice_middle (pre mid post : jsstring) :
  slice (pre ++ mid ++ post) (Z.of_nat (length pre))
        (Z.of_nat (length pre) + Z.of_nat (length mid)) = mid.
Proof.
  unfold slice, clamp_index, jslength.
  rewrite !length_app.
  destruct (Z.ltb_spec (Z.of_nat (length pre)) 0); [lia|].
  destruct (Z.ltb_spec (Z.of_nat (length pre) + Z.of_nat (length mid)) 0); [lia|].
  rewrite !Nat2Z.inj_add.
  replace (Z.to_nat (Z.min (Z.of_nat (length pre)) _)) with (length pre) by lia.
  replace (Z.to_nat _) with (length mid) by lia.
  rewrite skipn_app, skipn_all, Nat.sub_diag; simpl.
  rewrite firstn_app, firstn_all, Nat.sub_diag; simpl.
  apply app_nil_r.
Qed.

Lemma slice_prefix (s : jsstring) (n : Z) :
  0 <= n -> slice s 0 n = firstn (Z.to_nat n) s.
Proof.
  intros Hn. unfold slice, clamp_index, jslength; simpl.
  destruct (Z.ltb_spec n 0); [lia|].
  rewrite (Z.min_l 0) by lia. rewrite Z.sub_0_r. simpl skipn.
  destruct (Z.le_ge_cases n (Z.of_nat (length s))).
  - rewrite Z.min_l, Z.max_l by lia. reflexivity.
  - rewrite Z.min_r, Z.max_l by lia.
    rewrite Nat2Z.id, !firstn_all2 by lia. reflexivity.
Qed.

(* ------------------------------------------------------------------ *)
(** ** The response extractor *)
(* ------------------------------------------------------------------ *)

Section Extractor.
Context `{JSRuntime}.

Lemma extractJson_no_opening text :
  ~ In LBRACE text -> extractJson text = Throw NoJsonFound.
Proof.
  intros Hn. unfold extractJson, indexOf.
  rewrite indexOf_from_notin by assumption. reflexivity.
Qed.

Lemma extractJson_no_closing text :
  ~ In RBRACE text -> extractJson text = Throw NoJsonFound.
Proof.
  intros Hn. unfold extractJson, lastIndexOf.
  rewrite lastIndexOf_from_notin by assumption.
  rewrite Z.eqb_refl, orb_true_r. reflexivity.
Qed.

Lemma extractJson_closing_first a b c :
  ~ In LBRACE (a ++ RBRACE :: b) ->
  ~ In RBRACE (b ++ LBRACE :: c) ->
  extractJson (a ++ RBRACE :: b ++ LBRACE :: c) = Throw NoJsonFound.
Proof.
  intros Ho Hc. unfold extractJson, indexOf, lastIndexOf.
  rewrite lastIndexOf_from_last by assumption.
  replace (a ++ RBRACE :: b ++ LBRACE :: c)
    with ((a ++ RBRACE :: b) ++ LBRACE :: c)
    by (rewrite <- app_assoc; reflexivity).
  rewrite indexOf_from_first by assumption.
  rewrite length_app; simpl length.
  destruct (Z.ltb_spec (0 + Z.of_nat (length a))
                       (0 + Z.of_nat (length a + S (length b)))); [|lia].
  rewrite orb_true_r. reflexivity.
Qed.

Lemma extractJson_span pre mid post :
  ~ In LBRACE pre ->
  ~ In RBRACE post ->
  extractJson (pre ++ LBRACE :: mid ++ RBRACE :: post) =
  match JSON_parse (LBRACE :: mid ++ [RBRACE]) with
  | inl msg => Throw (MalformedJson msg)
  | inr parsed => Ok parsed
  end.
Proof.
  intros Ho Hc. unfold extractJson, indexOf, lastIndexOf.
  rewrite indexOf_from_first by assumption.
  replace (pre ++ LBRACE :: mid ++ RBRACE :: post)
    with ((pre ++ LBRACE :: mid) ++ RBRACE :: post)
    by (rewrite <- app_assoc; reflexivity).
  rewrite lastIndexOf_from_last by assumption.
  rewrite length_app; simpl length.
  destruct (Z.eqb_spec (0 + Z.of_nat (length pre)) (-1)); [lia|].
  destruct (Z.eqb_spec (0 + Z.of_nat (length pre + S (length mid))) (-1)); [lia|].
  destruct (Z.ltb_spec (0 + Z.of_nat (length pre + S (length mid)))
                       (0 + Z.of_nat (length pre))); [lia|].
  simpl orb. cbv iota.
  replace ((pre ++ LBRACE :: mid) ++ RBRACE :: post)
    with (pre ++ (LBRACE :: mid ++ [RBRACE]) ++ post)
    by (simpl; rewrite <- !app_assoc; reflexivity).
  replace (0 + Z.of_nat (length pre + S (length mid)) + 1)
    with (Z.of_nat (length pre) + Z.of_nat (length (LBRACE :: mid ++ [RBRACE])))
    by (simpl length; rewrite length_app; simpl length; lia).
  rewrite Z.add_0_l, slice_middle. reflexivity.
Qed.

Lemma extractJson_meets_spec text : extractJson_spec text (extractJson text).
Proof.
  destruct (In_code_unit_dec LBRACE text) as [Ho|Ho];
    [|rewrite extractJson_no_opening by assumption; constructor; assumption].
  destruct (In_code_unit_dec RBRACE text) as [Hc|Hc];
    [|rewrite extractJson_no_closing by assumption; apply spec_no_closing; assumption].
  destruct (first_occurrence _ _ Ho) as (pre & rest & E1 & Hpre).
  destruct (last_occurrence _ _ Hc) as (pre' & post & E2 & Hpost).
  assert (E : pre ++ LBRACE :: rest = pre' ++ RBRACE :: post) by congruence.
  clear E2 Ho Hc; subst text.
  destruct (Nat.lt_trichotomy (length pre) (length pre')) as [L|[L|L]].
  - destruct (occurrences_ordered _ _ _ _ _ _ E L) as (mid & -> & ->).
    rewrite extractJson_span by assumption.
    destruct (JSON_parse _) eqn:P; constructor; assumption.
  - exfalso.
    assert (nth_error (pre ++ LBRACE :: rest) (length pre) = Some LBRACE)
      by (rewrite nth_error_app2, Nat.sub_diag by lia; reflexivity).
    assert (nth_error (pre' ++ RBRACE :: post) (length pre) = Some RBRACE)
      by (rewrite L, nth_error_app2, Nat.sub_diag by lia; reflexivity).
    rewrite E in *. assert (Some LBRACE = Some RBRACE) by congruence.
    discriminate.
  - symmetry in E.
    destruct (occurrences_ordered _ _ _ _ _ _ E L) as (b & -> & ->).
    rewrite <- app_assoc; simpl.
    rewrite extractJson_closing_first; [constructor| |]; assumption.
Qed.

(** C1.  [extractJson] returns the value parsed from the substring running
    from the first opening brace to the last closing brace, both included;
    it fails with "no JSON found" exactly when a brace is missing or the last
    closing brace comes before the first opening one, and with the parser's
    syntax error when that substring is not valid JSON.  The outcome of
    [extractJson] is the one the specification gives, and no other. *)
Theorem extractJson_correct :
  forall (text : jsstring) (r : result JSValue),
    extractJson text = r <-> extractJson_spec text r.
Proof.
  intros text r; split.
  - intros <-. apply extractJson_meets_spec.
  - intros S; destruct S.
    + apply extractJson_no_opening; assumption.
    + apply extractJson_no_closing; assumption.
    + apply extractJson_closing_first; assumption.
    + rewrite extractJson_span by assumption.
      match goal with P : JSON_parse _ = _ |- _ => rewrite P end. reflexivity.
    + rewrite extractJson_span by assumption.
      match goal with P : JSON_parse _ = _ |- _ => rewrite P end. reflexivity.
Qed.

End Extractor.

(* ------------------------------------------------------------------ *)
(** ** Loops that push conditionally *)
(* ------------------------------------------------------------------ *)

Lemma fold_left_push {A B : Type} (g : A -> option B) (items : list A) (acc : list B) :
  fold_left (fun acc x => match g x with
                          | Some y => push acc y
                          | None => acc
                          end) items acc
  = acc ++ flat_map (kept g) items.
Proof.
  revert acc; induction items as [|x items IH]; intros acc; simpl.
  - symmetry; apply app_nil_r.
  - rewrite IH. unfold kept at 2, push.
    destruct (g x); simpl; [rewrite <- app_assoc|]; reflexivity.
Qed.

Lemma fold_left_push_all {A B : Type} (g : A -> B) (items : list A) (acc : list B) :
  fold_left (fun acc x => push acc (g x)) items acc = acc ++ map g items.
Proof.
  revert acc; induction items as [|x items IH]; intros acc; simpl.
  - symmetry; apply app_nil_r.
  - rewrite IH. unfold push. rewrite <- app_assoc. reflexivity.
Qed.

Lemma flat_map_kept_filter {A B : Type} (g : A -> option B) (ok : A -> bool)
      (R : A -> B -> Prop) (items : list A) :
  (forall x, ok x = false -> g x = None) ->
  (forall x, ok x = true -> exists y, g x = Some y /\ R x y) ->
  Forall2 R (filter ok items) (flat_map (kept g) items).
Proof.
  intros Hbad Hgood. induction items as [|x items IH]; simpl; [constructor|].
  unfold kept at 1. destruct (ok x) eqn:E.
  - destruct (Hgood x E) as (y & -> & Hy). simpl. constructor; assumption.
  - rewrite (Hbad x E). assumption.
Qed.

(* ------------------------------------------------------------------ *)
(** ** The result validator *)
(* ------------------------------------------------------------------ *)

Lemma severity_of_string_name (s : jsstring) :
  includes validSeverities s = true ->
  exists sev, severity_of_string s = Some sev /\ severity_name sev = s.
Proof.
  unfold includes, validSeverities, severity_of_string; simpl existsb.
  destruct (jsstring_eqb s (js "high")) eqn:E1;
    [apply jsstring_eqb_eq in E1; exists high; auto|].
  destruct (jsstring_eqb s (js "medium")) eqn:E2;
    [apply jsstring_eqb_eq in E2; exists medium; auto|].
  destruct (jsstring_eqb s (js "low")) eqn:E3;
    [apply jsstring_eqb_eq in E3; exists low; auto|].
  destruct (jsstring_eqb s (js "nit")) eqn:E4;
    [apply jsstring_eqb_eq in E4; exists nit; auto|].
  discriminate.
Qed.

Lemma includes_In (xs : list jsstring) (s : jsstring) :
  includes xs s = true <-> In s xs.
Proof.
  unfold includes. rewrite existsb_exists. split.
  - intros (x & Hin & E). apply jsstring_eqb_eq in E. subst; assumption.
  - intros Hin. exists s; split; [assumption | apply jsstring_eqb_refl].
Qed.

(** Reduce the type tests of the source on a value of known shape. *)
Ltac js_step :=
  cbn [not_an_object typeof js_type_eqb negb orb andb is_null
       as_string as_number as_array].

Lemma validateFinding_invalid (v : JSValue) :
  spec_validFinding v = false -> validateFinding v = None.
Proof.
  destruct v as [| | | | |items|props]; try reflexivity.
  unfold spec_validFinding, validateFinding, get; js_step.
  destruct (assoc (js "severity") props) as [[| | | |s| |]|]; try reflexivity.
  js_step.
  destruct (includes validSeverities s) eqn:Es; [|reflexivity].
  destruct (severity_of_string_name s Es) as (sev & -> & _). js_step.
  destruct (assoc (js "title") props) as [[| | | |t| |]|]; try reflexivity.
  js_step.
  destruct (str_truthy t); [|reflexivity].
  destruct (assoc (js "rationale") props) as [[| | | |r| |]|]; try reflexivity.
  js_step.
  destruct (str_truthy r); [|reflexivity].
  discriminate.
Qed.

Lemma validateFinding_valid (v : JSValue) :
  spec_validFinding v = true -> exists f, survives v f.
Proof.
  destruct v as [| | | | |items|props]; try discriminate.
  unfold survives, spec_validFinding, validateFinding, get; js_step.
  destruct (assoc (js "severity") props) as [[| | | |s| |]|]; try discriminate.
  destruct (assoc (js "title") props) as [[| | | |t| |]|]; try discriminate.
  destruct (assoc (js "rationale") props) as [[| | | |r| |]|]; try discriminate.
  js_step.
  destruct (includes validSeverities s) eqn:Es; [|discriminate].
  destruct (severity_of_string_name s Es) as (sev & -> & Hname).
  destruct (str_truthy t); [|discriminate].
  destruct (str_truthy r); [|discriminate].
  intros _. js_step.
  eexists; split; [reflexivity|].
  destruct (truthy_string _), (truthy_string _), (as_number _) as [n|];
    try destruct (Number_isInteger n); simpl; rewrite Hname; auto.
Qed.

Lemma collectFindings_flat_map (items : list JSValue) :
  collectFindings items = flat_map (kept validateFinding) items.
Proof. unfold collectFindings. rewrite fold_left_push. reflexivity. Qed.

(** C2.  When the parsed object carries a textual summary, validation
    succeeds; from a [findings] array it keeps, in order, exactly the
    well-formed elements, each as its validated finding, and drops the
    others (an element without [rationale], or with a severity outside the
    four names, is dropped on its own); a [findings] field that is absent or
    not an array gives the empty sequence, not an error.  Validation fails
    only on a value that is not an object or has no textual summary: never
    because of [findings]. *)
Theorem validateAiResponse_drops_only_invalid :
  forall (parsed : JSValue),
    (forall e, validateAiResponse parsed = Throw e ->
               not_an_object parsed = true
               \/ forall s, get parsed (js "summary") <> JSString s)
    /\ (forall summary,
          not_an_object parsed = false ->
          get parsed (js "summary") = JSString summary ->
          exists r,
            validateAiResponse parsed = Ok r
            /\ v_summary r = summary
            /\ (forall items, get parsed (js "findings") = JSArray items ->
                  Forall2 survives (filter spec_validFinding items) (v_findings r)
                  /\ forall v, In v items -> spec_validFinding v = false ->
                               validateFinding v = None)
            /\ ((forall items, get parsed (js "findings") <> JSArray items) ->
                  v_findings r = [])
            /\ (forall v, get v (js "rationale") = JSUndefined ->
                          spec_validFinding v = false)
            /\ (forall v s, get v (js "severity") = JSString s ->
                            ~ In s validSeverities -> spec_validFinding v = false)).
Proof.
  intros parsed. split.
  { unfold validateAiResponse. intros e.
    destruct (not_an_object parsed); [auto|].
    destruct (get parsed (js "summary")); js_step; try discriminate;
      intros _; right; intros s0; discriminate. }
  intros summary Hobj Hsum.
  unfold validateAiResponse. rewrite Hobj, Hsum. js_step.
  eexists; split; [reflexivity|]. cbn [v_summary v_findings].
  split; [reflexivity|]. split; [|split; [|split]].
  - intros items ->. js_step. rewrite collectFindings_flat_map. split.
    + apply flat_map_kept_filter.
      * apply validateFinding_invalid.
      * intros x Hx. destruct (validateFinding_valid x Hx) as (f & Hf).
        exists f; split; [apply Hf | exact Hf].
    + intros v _. apply validateFinding_invalid.
  - intros Hnot. destruct (get parsed (js "findings")); try reflexivity.
    exfalso; eapply Hnot; reflexivity.
  - intros [| | | | | |props]; try reflexivity. unfold get, spec_validFinding.
    destruct (assoc (js "rationale") props) as [[]|]; try discriminate;
      intros _; destruct (assoc (js "severity") props) as [[]|];
      destruct (assoc (js "title") props) as [[]|]; reflexivity.
  - intros v s; destruct v as [| | | | | |props]; try reflexivity.
    unfold get, spec_validFinding.
    destruct (assoc (js "severity") props) as [[| | | |s'| |]|]; try discriminate.
    intros E Hn. inversion E; subst.
    destruct (includes validSeverities s) eqn:Ei;
      [apply includes_In in Ei; contradiction|].
    destruct (assoc (js "title") props) as [[| | | |t| |]|];
      try destruct (assoc (js "rationale") props) as [[| | | |r| |]|]; reflexivity.
Qed.

(** What [validateFinding] does with the three optional fields. *)
Lemma validateFinding_optional_fields (v : JSValue) (f : Finding) :
  validateFinding v = Some f ->
  suggestion f = truthy_string (as_string (get v (js "suggestion")))
  /\ file f = truthy_string (as_string (get v (js "file")))
  /\ line f = match as_number (get v (js "line")) with
              | Some n => if Number_isInteger n then Some n else None
              | None => None
              end.
Proof.
  unfold validateFinding.
  destruct (not_an_object v); [discriminate|].
  destruct (as_string (get v (js "severity"))) as [s|]; [|discriminate].
  destruct (negb (includes validSeverities s)); [discriminate|].
  destruct (severity_of_string s) as [sev|]; [|discriminate].
  destruct (as_string (get v (js "title"))) as [t|]; [|discriminate].
  destruct (negb (str_truthy t)); [discriminate|].
  destruct (as_string (get v (js "rationale"))) as [r|]; [|discriminate].
  destruct (negb (str_truthy r)); [discriminate|].
  cbv zeta.
  destruct (truthy_string (as_string (get v (js "suggestion"))));
    destruct (truthy_string (as_string (get v (js "file"))));
    destruct (as_number (get v (js "line"))) as [n|];
    try destruct (Number_isInteger n);
    intros E; inversion E; subst; clear E; cbn [suggestion file line]; auto.
Qed.

(** C7, as written, does not hold: [negative_line_element], whose [line]
    is [-5], survives validation and its finding carries the line [-5],
    which is not a non-negative integer. *)
Lemma validateFinding_admits_negative_line :
  validateFinding negative_line_element
  = Some (mkFinding low (js "Off by one") (js "The loop skips the last row.")
                    None None (Some (number_of_Z (-5))))
  /\ is_nonneg_integer (number_of_Z (-5)) = false.
Proof. split; vm_compute; reflexivity. Qed.

(** C7, amended.  A finding that survives validation carries a line only
    when the element's [line] is a number for which [Number.isInteger]
    holds, and then it carries that very number, whatever its sign; when the
    element's [line] is a number that is not an integer, or no number at
    all, the finding survives without a line. *)
Theorem validateFinding_line_is_integer :
  forall (v : JSValue) (f : Finding),
    validateFinding v = Some f ->
    (forall n, line f = Some n ->
               get v (js "line") = JSNumber n /\ Number_isInteger n = true)
    /\ (forall n, get v (js "line") = JSNumber n ->
                  Number_isInteger n = false -> line f = None)
    /\ ((forall n, get v (js "line") <> JSNumber n) -> line f = None).
Proof.
  intros v f Hv.
  destruct (validateFinding_optional_fields v f Hv) as (_ & _ & Hl).
  rewrite Hl. split; [|split].
  - intros n. destruct (get v (js "line")); cbn; try discriminate.
    destruct (Number_isInteger n0) eqn:E; [|discriminate].
    intros X; inversion X; subst; auto.
  - intros n E1 E2. rewrite E1. cbn [as_number]. rewrite E2. reflexivity.
  - intros Hn. destruct (get v (js "line")); try reflexivity.
    exfalso; eapply Hn; reflexivity.
Qed.

(* ------------------------------------------------------------------ *)
(** ** The recommendation deriver *)
(* ------------------------------------------------------------------ *)

Lemma severity_eqb_eq (a b : Severity) : severity_eqb a b = true <-> a = b.
Proof. destruct a, b; simpl; split; congruence. Qed.

Lemma existsb_severity (sev : Severity) (findings : list Finding) :
  existsb (fun f => severity_eqb (severity f) sev) findings = true
  <-> exists f, In f findings /\ severity f = sev.
Proof.
  rewrite existsb_exists. split; intros (f & Hin & E); exists f; split; auto;
    apply severity_eqb_eq; assumption.
Qed.

Lemma existsb_severity_map (sev : Severity) (findings : list Finding) :
  existsb (fun f => severity_eqb (severity f) sev) findings
  = existsb (fun s => severity_eqb s sev) (map severity findings).
Proof. induction findings; simpl; congruence. Qed.

Lemma existsb_without_lowOrNit (sev : Severity) (findings : list Finding) :
  sev = high \/ sev = medium ->
  existsb (fun f => severity_eqb (severity f) sev)
          (filter (fun f => negb (is_lowOrNit f)) findings)
  = existsb (fun f => severity_eqb (severity f) sev) findings.
Proof.
  intros Hs. induction findings as [|f fs IH]; [reflexivity|]. simpl.
  unfold is_lowOrNit at 1.
  destruct (severity f) eqn:E; simpl; rewrite ?E, IH;
    destruct Hs; subst; reflexivity.
Qed.

Lemma deriveRecommendation_cases (findings : list Finding) :
  ((exists f, In f findings /\ severity f = high) ->
   deriveRecommendation findings = request_changes)
  /\ ((forall f, In f findings -> severity f <> high) ->
      (exists f, In f findings /\ severity f = medium) ->
      deriveRecommendation findings = approve_with_changes)
  /\ ((forall f, In f findings -> severity f <> high /\ severity f <> medium) ->
      deriveRecommendation findings = approve).
Proof.
  unfold deriveRecommendation.
  destruct (existsb (fun f => severity_eqb (severity f) high) findings) eqn:Eh;
    destruct (existsb (fun f => severity_eqb (severity f) medium) findings) eqn:Em;
    repeat match goal with
           | E : existsb _ _ = true |- _ => apply existsb_severity in E
           | E : existsb _ _ = false |- _ =>
             apply not_true_iff_false in E; rewrite existsb_severity in E
           end;
    repeat split; intros; auto;
      try (exfalso; firstorder congruence).
Qed.

Lemma deriveRecommendation_severities (fs gs : list Finding) :
  map severity fs = map severity gs ->
  deriveRecommendation fs = deriveRecommendation gs.
Proof.
  intros E. unfold deriveRecommendation.
  rewrite !existsb_severity_map, E. reflexivity.
Qed.

Lemma deriveRecommendation_ignores_lowOrNit (findings : list Finding) :
  deriveRecommendation (filter (fun f => negb (is_lowOrNit f)) findings)
  = deriveRecommendation findings.
Proof.
  unfold deriveRecommendation.
  rewrite !existsb_without_lowOrNit by auto. reflexivity.
Qed.

(* ------------------------------------------------------------------ *)
(** ** The diff pre-processor: truncation *)
(* ------------------------------------------------------------------ *)

(** C4.  A diff of at most 60,000 code units passes through unchanged with
    the flag unset; of a longer one exactly the first 60,000 code units are
    kept and the flag is set.  No other field of the request changes. *)
Theorem truncateDiff_spec :
  forall (reviewReq : ReviewRequest),
    MAX_DIFF_LENGTH = 60000
    /\ (jslength (diff reviewReq) <= MAX_DIFF_LENGTH ->
        truncateDiff reviewReq = (reviewReq, false))
    /\ (MAX_DIFF_LENGTH < jslength (diff reviewReq) ->
        snd (truncateDiff reviewReq) = true
        /\ diff (fst (truncateDiff reviewReq))
           = firstn (Z.to_nat MAX_DIFF_LENGTH) (diff reviewReq)
        /\ jslength (diff (fst (truncateDiff reviewReq))) = MAX_DIFF_LENGTH
        /\ (exists dropped,
              diff reviewReq = diff (fst (truncateDiff reviewReq)) ++ dropped
              /\ dropped <> [])
        /\ set_diff (fst (truncateDiff reviewReq)) (diff reviewReq) = reviewReq).
Proof.
  intros reviewReq. split; [reflexivity|].
  assert (Hmax : 0 <= MAX_DIFF_LENGTH) by (unfold MAX_DIFF_LENGTH; lia).
  unfold truncateDiff.
  destruct (Z.gtb_spec (jslength (diff reviewReq)) MAX_DIFF_LENGTH) as [L|L]; split;
    try lia; intros Hlen; [|reflexivity].
  cbn [fst snd set_diff diff].
  rewrite slice_prefix by lia.
  unfold jslength in *.
  split; [reflexivity|]. split; [reflexivity|]. split; [|split].
  - rewrite length_firstn. lia.
  - exists (skipn (Z.to_nat MAX_DIFF_LENGTH) (diff reviewReq)). split.
    + symmetry; apply firstn_skipn.
    + intros E. apply (f_equal (@length _)) in E.
      rewrite length_skipn in E. simpl length in E. lia.
  - destruct reviewReq; reflexivity.
Qed.

(* ------------------------------------------------------------------ *)
(** ** The diff pre-processor: triviality *)
(* ------------------------------------------------------------------ *)

Lemma trimStart_head (s : jsstring) (c : code_unit) (r : jsstring) :
  trimStart s = c :: r -> isWhiteSpace c = false.
Proof.
  induction s as [|x s IH]; simpl; [discriminate|].
  destruct (isWhiteSpace x) eqn:E; [assumption|].
  intros X; inversion X; subst; assumption.
Qed.

Lemma trimStart_decompose (s : jsstring) :
  exists ws, s = ws ++ trimStart s /\ forallb isWhiteSpace ws = true.
Proof.
  induction s as [|x s (ws & E & Hws)]; simpl.
  - exists []; auto.
  - destruct (isWhiteSpace x) eqn:Ex.
    + exists (x :: ws); simpl. rewrite Ex, Hws, <- E. auto.
    + exists []; auto.
Qed.

Lemma trimStart_whitespace (s : jsstring) :
  forallb isWhiteSpace s = true -> trimStart s = [].
Proof.
  induction s as [|x s IH]; simpl; [reflexivity|].
  destruct (isWhiteSpace x); simpl; [assumption | discriminate].
Qed.

Lemma trimEnd_decompose (s : jsstring) :
  exists ws, s = trimEnd s ++ ws /\ forallb isWhiteSpace ws = true.
Proof.
  unfold trimEnd. destruct (trimStart_decompose (rev s)) as (ws & E & Hws).
  exists (rev ws). split.
  - rewrite <- rev_app_distr, <- E, rev_involutive. reflexivity.
  - rewrite forallb_forall in *. intros x Hx. apply Hws, in_rev; assumption.
Qed.

Lemma trim_head (s : jsstring) (c : code_unit) (r : jsstring) :
  trim s = c :: r -> isWhiteSpace c = false.
Proof.
  unfold trim. intros E.
  destruct (trimEnd_decompose (trimStart s)) as (ws & D & _).
  rewrite E in D. simpl in D. eapply trimStart_head; eassumption.
Qed.

(** A string of white space only trims to the empty string, and only
    such a string does. *)
Lemma trim_empty_iff (s : jsstring) :
  trim s = [] <-> forallb isWhiteSpace s = true.
Proof.
  split.
  - unfold trim. intros E.
    destruct (trimStart_decompose s) as (ws & D & Hws).
    destruct (trimEnd_decompose (trimStart s)) as (ws' & D' & Hws').
    rewrite E in D'. simpl in D'. rewrite D, D', forallb_app, Hws, Hws'.
    reflexivity.
  - intros Hs. unfold trim. rewrite trimStart_whitespace by assumption.
    reflexivity.
Qed.

(** The test [/^\s*$/.test(content)] never fires on a trimmed, non-empty
    string. *)
Lemma trimmed_not_blank (s : jsstring) :
  str_truthy (trim s) = true -> forallb isWhiteSpace (trim s) = false.
Proof.
  destruct (trim s) as [|c r] eqn:E; [discriminate|]. intros _.
  simpl. rewrite (trim_head _ _ _ E). reflexivity.
Qed.

Lemma lineIsSubstantive_spec (line : jsstring) :
  V3.lineIsSubstantive line
  = scannedLine line && negb (spec_blankOrComment line).
Proof.
  unfold V3.lineIsSubstantive, scannedLine, spec_blankOrComment.
  destruct (startsWith line (js "+")), (startsWith line (js "-"));
    cbn [negb andb orb]; try reflexivity;
    (destruct (startsWith line (js "+++") || startsWith line (js "---"));
     cbn [negb andb]; [reflexivity|]);
    (destruct (trim (slice_from line 1)) as [|c r] eqn:E;
     [reflexivity|]);
    cbn [str_truthy negb]; unfold COMMENT_MARKERS; cbn [existsb];
    rewrite orb_false_r, <- !orb_assoc;
    (destruct (orb _ _); [reflexivity|]);
    rewrite <- E, trimmed_not_blank by (rewrite E; reflexivity); reflexivity.
Qed.

Lemma scanLines_all_skipped (lines : list jsstring) (k : nat) :
  Forall (fun line => V3.lineIsSubstantive line = false) lines ->
  V3.scanLines lines k = (false, (k + length lines)%nat).
Proof.
  intros Hall; revert k; induction Hall as [|line rest Hl _ IH]; intros k; simpl.
  - f_equal; lia.
  - rewrite Hl, IH. f_equal; lia.
Qed.

Lemma scanLines_breaks (pre : list jsstring) (line : jsstring)
      (post : list jsstring) (k : nat) :
  Forall (fun line => V3.lineIsSubstantive line = false) pre ->
  V3.lineIsSubstantive line = true ->
  V3.scanLines (pre ++ line :: post) k = (true, (k + S (length pre))%nat).
Proof.
  intros Hpre Hl; revert k; induction Hpre as [|l rest Hs _ IH]; intros k; simpl.
  - rewrite Hl. f_equal; lia.
  - rewrite Hs, IH. f_equal; lia.
Qed.

Lemma scanLines_flag (lines : list jsstring) (k : nat) :
  fst (V3.scanLines lines k) = existsb V3.lineIsSubstantive lines.
Proof.
  revert k; induction lines as [|line rest IH]; intros k; simpl; [reflexivity|].
  destruct (V3.lineIsSubstantive line); simpl; auto.
Qed.

Lemma startsWith_prefix (s p q : jsstring) :
  startsWith s (p ++ q) = true -> startsWith s p = true.
Proof.
  revert s; induction p as [|c p IH]; intros s; [destruct s; reflexivity|].
  destruct s as [|d s]; simpl; [discriminate|].
  destruct (N.eqb d c); simpl; [apply IH | discriminate].
Qed.

Lemma fileHeader_has_marker (line : jsstring) :
  spec_fileHeader line = true ->
  startsWith line (js "+++") || startsWith line (js "---") = true.
Proof.
  unfold spec_fileHeader. intros E. apply orb_true_iff in E. apply orb_true_iff.
  destruct E as [E|E]; [left|right].
  - apply (startsWith_prefix line (js "+++") [32%N]).
    exact (eq_trans (f_equal (startsWith line) (eq_refl : js "+++" ++ [32%N] = js "+++ ")) E).
  - apply (startsWith_prefix line (js "---") [32%N]).
    exact (eq_trans (f_equal (startsWith line) (eq_refl : js "---" ++ [32%N] = js "--- ")) E).
Qed.

Lemma scannedLine_changedLine (line : jsstring) :
  scannedLine line
  = spec_changedLine line
    && negb (startsWith line (js "+++") || startsWith line (js "---")).
Proof.
  unfold scannedLine, spec_changedLine.
  pose proof (fileHeader_has_marker line) as Hm.
  destruct (startsWith line (js "+") || startsWith line (js "-")); [|reflexivity].
  destruct (spec_fileHeader line); cbn [negb andb]; [|reflexivity].
  rewrite (Hm eq_refl). reflexivity.
Qed.

(** C5, as written, does not hold: in a hunk that adds the statement
    [++x;] the added line reads [+++x;]; it is no file header and its
    content is neither blank nor a comment, yet the loop passes over it and
    the diff is found trivial. *)
Lemma isTrivialDiff_skips_increment_line :
  V3.isTrivialDiff increment_diff = true
  /\ In (js "+++x;") (split LF increment_diff)
  /\ spec_changedLine (js "+++x;") = true
  /\ spec_blankOrComment (js "+++x;") = false
  /\ ~ Forall (fun line => spec_changedLine line = true ->
                           spec_blankOrComment line = true)
              (split LF increment_diff).
Proof.
  assert (Hin : In (js "+++x;") (split LF increment_diff)).
  { assert (E : existsb (jsstring_eqb (js "+++x;")) (split LF increment_diff) = true)
      by (vm_compute; reflexivity).
    apply existsb_exists in E. destruct E as (l & Hl & E).
    apply jsstring_eqb_eq in E. rewrite E. exact Hl. }
  assert (Hc : spec_changedLine (js "+++x;") = true) by (vm_compute; reflexivity).
  assert (Hb : spec_blankOrComment (js "+++x;") = false) by (vm_compute; reflexivity).
  split; [vm_compute; reflexivity|].
  split; [exact Hin|]. split; [exact Hc|]. split; [exact Hb|].
  intros F. rewrite Forall_forall in F.
  specialize (F _ Hin Hc). rewrite Hb in F. discriminate F.
Qed.

(** C5, amended.  A diff is trivial exactly when every line that starts
    with [+] or [-] but not with [+++] or [---] is, once its prefix is
    removed and it is trimmed, empty or headed by one of [//], [#], [*],
    [/*], [*/].  The scan stops at the first such line that is neither: the
    lines after it are not visited.  A diff none of whose lines starts with
    [+] or [-] is trivial.  The lines looked into are the added and removed
    content lines of the specification except those that start with [+++]
    or [---], which the test takes for file headers whatever follows the
    marker; so a diff whose content lines are all blank or comments is
    trivial, and the converse holds only of the lines looked into. *)
Theorem isTrivialDiff_spec :
  forall (diff : jsstring),
    (V3.isTrivialDiff diff = true <->
     Forall (fun line => scannedLine line = true ->
                         spec_blankOrComment line = true) (split LF diff))
    /\ (forall pre line post,
          split LF diff = pre ++ line :: post ->
          Forall (fun l => scannedLine l = true ->
                           spec_blankOrComment l = true) pre ->
          scannedLine line = true ->
          spec_blankOrComment line = false ->
          V3.scanLines (split LF diff) 0 = (true, S (length pre))
          /\ V3.isTrivialDiff diff = false)
    /\ (Forall (fun line => startsWith line (js "+") = false
                            /\ startsWith line (js "-") = false) (split LF diff) ->
        V3.isTrivialDiff diff = true)
    /\ (forall line,
          scannedLine line
          = spec_changedLine line
            && negb (startsWith line (js "+++") || startsWith line (js "---")))
    /\ (Forall (fun line => spec_changedLine line = true ->
                            spec_blankOrComment line = true) (split LF diff) ->
        V3.isTrivialDiff diff = true).
Proof.
  intros diff.
  assert (Hskip : forall l,
             (scannedLine l = true -> spec_blankOrComment l = true)
             <-> V3.lineIsSubstantive l = false).
  { intros l. rewrite lineIsSubstantive_spec.
    destruct (scannedLine l), (spec_blankOrComment l); simpl;
      split; auto; intros X; specialize (X eq_refl); discriminate. }
  assert (Hall : forall ls,
             Forall (fun l => scannedLine l = true ->
                              spec_blankOrComment l = true) ls
             <-> Forall (fun l => V3.lineIsSubstantive l = false) ls).
  { intros ls. rewrite !Forall_forall. split; intros X l Hin; apply Hskip, X, Hin. }
  unfold V3.isTrivialDiff. split; [|split; [|split; [|split]]].
  - rewrite Hall, scanLines_flag, negb_true_iff, Forall_forall.
    rewrite <- not_true_iff_false, existsb_exists. split.
    + intros Hn l Hin. destruct (V3.lineIsSubstantive l) eqn:E; [|reflexivity].
      exfalso; apply Hn; exists l; auto.
    + intros Hf (l & Hin & E). rewrite (Hf l Hin) in E. discriminate.
  - intros pre line post E Hpre Hc Hb. rewrite E.
    assert (Hl : V3.lineIsSubstantive line = true)
      by (rewrite lineIsSubstantive_spec, Hc, Hb; reflexivity).
    rewrite scanLines_breaks by (try apply Hall; assumption).
    split; reflexivity.
  - intros Hno. rewrite scanLines_all_skipped; [reflexivity|].
    eapply Forall_impl; [|exact Hno]. intros l [Hp Hm].
    unfold V3.lineIsSubstantive. rewrite Hp, Hm. reflexivity.
  - exact scannedLine_changedLine.
  - intros Hspec. rewrite scanLines_all_skipped; [reflexivity|].
    eapply Forall_impl; [|exact Hspec]. intros l Hl.
    apply Hskip. intros Hs. apply Hl.
    rewrite scannedLine_changedLine in Hs. apply andb_true_iff in Hs. apply Hs.
Qed.

(* ------------------------------------------------------------------ *)
(** ** The report renderer *)
(* ------------------------------------------------------------------ *)

Lemma pushSection_spec {A : Type} (lines : list jsstring) (header : jsstring)
      (bullet : A -> jsstring) (bucket : list A) :
  pushSection lines header bullet bucket
  = lines ++ spec_section header bullet bucket.
Proof.
  unfold pushSection, arr_length, spec_section.
  destruct bucket as [|x xs].
  - simpl. symmetry; apply app_nil_r.
  - destruct (Z.gtb_spec (Z.of_nat (length (x :: xs))) 0) as [_|L];
      [|simpl length in L; lia].
    rewrite fold_left_push_all. unfold push.
    rewrite <- !app_assoc. reflexivity.
Qed.

Section Renderer.
Context `{JSRuntime}.

Lemma V2_renderReviewLines_sections summary findings testingNotes recommendation sha :
  exists footer,
    V2.renderReviewLines summary findings testingNotes recommendation sha
    = V2_head summary recommendation
      ++ spec_section V2.HIGH_HEADER V2.formatFindingBullet (filter is_high findings)
      ++ spec_section V2.MEDIUM_HEADER V2.formatFindingBullet (filter is_medium findings)
      ++ spec_section V2.LOW_HEADER V2.formatFindingBullet (filter is_lowOrNit findings)
      ++ spec_section V2.TEST_HEADER noteBullet testingNotes
      ++ footer
    /\ length footer = 1%nat.
Proof.
  eexists. unfold V2.renderReviewLines. cbv zeta.
  rewrite !pushSection_spec. unfold push. cbn [app].
  rewrite <- !app_assoc. split; reflexivity.
Qed.

Lemma V3_renderReviewLines_sections summary findings testingNotes recommendation sha :
  exists footer,
    V3.renderReviewLines summary findings testingNotes recommendation sha
    = V3_head summary
      ++ spec_section V3.HIGH_HEADER V3.formatFindingBullet (filter is_high findings)
      ++ spec_section V3.MEDIUM_HEADER V3.formatFindingBullet (filter is_medium findings)
      ++ spec_section V3.LOW_HEADER V3.formatFindingBullet (filter is_lowOrNit findings)
      ++ spec_section V3.TEST_HEADER noteBullet testingNotes
      ++ footer
    /\ nth_error footer 1 = Some (js "- " ++ V3.recText recommendation)
    /\ length footer = 4%nat.
Proof.
  eexists. unfold V3.renderReviewLines. cbv zeta.
  rewrite !pushSection_spec. unfold push. cbn [app].
  rewrite <- !app_assoc. cbn [app]. split; [reflexivity|]. split; reflexivity.
Qed.

End Renderer.

Lemma In_spec_section {A : Type} (header : jsstring) (bullet : A -> jsstring)
      (bucket : list A) (x : A) :
  In x bucket -> In (bullet x) (spec_section header bullet bucket).
Proof.
  destruct bucket as [|y ys]; [intros []|]. intros Hin.
  unfold spec_section. right. apply in_or_app. left.
  apply in_map. assumption.
Qed.


Lemma bucket_of_finding (f : Finding) :
  is_high f = true \/ is_medium f = true \/ is_lowOrNit f = true.
Proof.
  unfold is_high, is_medium, is_lowOrNit. destruct (severity f); simpl; auto.
Qed.

Section Report.
Context `{JSRuntime}.

Lemma V2_report_lists_every_finding summary findings testingNotes recommendation sha f :
  In f findings ->
  In (V2.formatFindingBullet f)
     (V2.renderReviewLines summary findings testingNotes recommendation sha).
Proof.
  intros Hin.
  destruct (V2_renderReviewLines_sections summary findings testingNotes
              recommendation sha) as (footer & -> & _).
  apply in_or_app; right.
  destruct (bucket_of_finding f) as [B|[B|B]].
  - apply in_or_app; left. apply In_spec_section, filter_In; auto.
  - apply in_or_app; right. apply in_or_app; left.
    apply In_spec_section, filter_In; auto.
  - apply in_or_app; right. apply in_or_app; right. apply in_or_app; left.
    apply In_spec_section, filter_In; auto.
Qed.



End Report.

(* ------------------------------------------------------------------ *)
(** ** Inline comments *)
(* ------------------------------------------------------------------ *)

(** C8, as written, does not hold: the finding validated from
    [line_zero_element] carries both a file and a line (the line [0]), and
    [buildInlineComments] emits no comment for it. *)
Lemma buildInlineComments_skips_line_zero :
  validateFinding line_zero_element = Some line_zero_finding
  /\ carries_file_and_line line_zero_finding = true
  /\ V2.buildInlineComments [line_zero_finding] = [].
Proof. split; [|split]; vm_compute; reflexivity. Qed.

Lemma inlineCommentFor_anchored (f : Finding) :
  spec_anchored f = true ->
  exists c, V2.inlineCommentFor f = Some c /\ anchors f c.
Proof.
  unfold spec_anchored, V2.inlineCommentFor, anchors, truthy_string, truthy_number.
  destruct (file f) as [[|c0 fl]|]; try discriminate.
  destruct (line f) as [n|]; try discriminate.
  intros ->. eexists; split; [reflexivity|]. split; reflexivity.
Qed.

Lemma inlineCommentFor_not_anchored (f : Finding) :
  spec_anchored f = false -> V2.inlineCommentFor f = None.
Proof.
  unfold spec_anchored, V2.inlineCommentFor, truthy_string, truthy_number.
  destruct (file f) as [[|c0 fl]|]; try reflexivity;
    destruct (line f) as [n|]; try reflexivity.
  intros ->. reflexivity.
Qed.

Lemma validated_line_integer (v : JSValue) (f : Finding) (n : number) :
  validateFinding v = Some f -> line f = Some n -> Number_isInteger n = true.
Proof.
  intros Hv. destruct (validateFinding_optional_fields v f Hv) as (_ & _ & ->).
  destruct (as_number _) as [m|]; [|discriminate].
  destruct (Number_isInteger m) eqn:E; [|discriminate].
  intros X; inversion X; subst; assumption.
Qed.

Lemma validated_file_nonempty (v : JSValue) (f : Finding) :
  validateFinding v = Some f -> file f <> Some [].
Proof.
  intros Hv. destruct (validateFinding_optional_fields v f Hv) as (_ & -> & _).
  unfold truthy_string. destruct (as_string _) as [[|c r]|]; discriminate.
Qed.

Section Inline.
Context `{JSRuntime}.

(** C8, amended.  [buildInlineComments] emits, in the findings' order,
    exactly one comment for every finding that carries a non-empty file and
    a line that is not zero, with that file as path and that line as line;
    a finding without file, without line, or with line zero gets no comment.
    Every finding, anchored or not, has its bullet in the report.  For a
    finding that came through validation the file, when present, is never
    empty and the line is never NaN, so such a finding is left out exactly
    when it lacks a file or a line or its line is zero. *)
Theorem buildInlineComments_spec :
  forall (findings : list Finding),
    Forall2 anchors (filter spec_anchored findings) (V2.buildInlineComments findings)
    /\ (forall f, In f findings -> spec_anchored f = false ->
                  V2.inlineCommentFor f = None)
    /\ (forall summary testingNotes recommendation sha f,
          In f findings ->
          In (V2.formatFindingBullet f)
             (V2.renderReviewLines summary findings testingNotes recommendation sha))
    /\ (forall v f,
          validateFinding v = Some f ->
          (spec_anchored f = true <->
           file f <> None
           /\ exists n, line f = Some n /\ forall s, n <> S754_zero s)).
Proof.
  intros findings. split; [|split; [|split]].
  - unfold V2.buildInlineComments. rewrite fold_left_push. simpl app.
    apply flat_map_kept_filter.
    + apply inlineCommentFor_not_anchored.
    + apply inlineCommentFor_anchored.
  - intros f _. apply inlineCommentFor_not_anchored.
  - intros. apply V2_report_lists_every_finding. assumption.
  - intros v f Hv.
    pose proof (validated_file_nonempty v f Hv) as Hfile.
    pose proof (validated_line_integer v f) as Hint.
    unfold spec_anchored.
    destruct (file f) as [[|c0 fl]|] eqn:Ef; [exfalso; apply Hfile; reflexivity| |];
      destruct (line f) as [n|] eqn:El; split;
      try discriminate; try (intros (X & _); congruence);
      try (intros (_ & n' & X & _); discriminate).
    + intros Ht. split; [discriminate|]. exists n; split; [reflexivity|].
      intros s ->. discriminate.
    + intros (_ & n' & X & Hz). inversion X; subst n'.
      pose proof (Hint n Hv eq_refl) as Hi.
      destruct n; try reflexivity; try discriminate.
      exfalso; eapply Hz; reflexivity.
Qed.

End Inline.

(* ------------------------------------------------------------------ *)
(** ** The handlers *)
(* ------------------------------------------------------------------ *)

Lemma readReviewRequest_unauthorized {R : Type} (request : Request) (env : Env) :
  authorized request env = false ->
  exists msg, @readReviewRequest R request env = inl (errorResponse msg 401).
Proof.
  unfold authorized, readReviewRequest.
  destruct (authorization request) as [[|c h]|]; [eexists; reflexivity| |eexists; reflexivity].
  cbn [str_truthy negb orb].
  destruct (startsWith (c :: h) (js "Bearer ")); cbn [negb andb];
    [|eexists; reflexivity].
  intros ->. cbn [negb]. eexists; reflexivity.
Qed.

Lemma readReviewRequest_blank_diff {R : Type} (request : Request) (env : Env)
      (body : JSValue) (d : jsstring) :
  authorized request env = true ->
  json request = Ok body ->
  get body (js "diff") = JSString d ->
  forallb isWhiteSpace d = true ->
  @readReviewRequest R request env = inl (errorResponse MISSING_DIFF 400).
Proof.
  unfold authorized, readReviewRequest. intros Hauth Hjson Hdiff Hblank.
  destruct (authorization request) as [[|c h]|]; try discriminate.
  apply andb_true_iff in Hauth as [-> ->].
  cbn [str_truthy negb orb]. rewrite Hjson.
  destruct body as [| | | | | |props]; try (unfold get in Hdiff; discriminate Hdiff).
  js_step. rewrite Hdiff. js_step.
  rewrite (proj2 (trim_empty_iff d) Hblank). cbn [str_truthy negb].
  unfold MISSING_DIFF. reflexivity.
Qed.

(** Case analysis on the next test the code makes. *)
Ltac next_case :=
  match goal with
  | |- context [match ?x with _ => _ end] =>
    lazymatch x with
    | context [match _ with _ => _ end] => fail
    | _ => destruct x eqn:?; cbv beta iota
    end
  end.

Lemma readReviewRequest_rejects_with_error {R : Type} (request : Request) (env : Env)
      (rejected : Response (ErrorResponse + R)) :
  readReviewRequest request env = inl rejected ->
  exists msg code, rejected = errorResponse msg code.
Proof.
  unfold readReviewRequest. cbv zeta.
  repeat next_case;
    intros E; first [discriminate E | injection E as <-; eexists; eexists; reflexivity].
Qed.

Section Handlers.
Context `{JSRuntime}.
Variable SYSTEM_PROMPT : jsstring.

Lemma V1_rejected request env w (rejected : Response V1.Payload) :
  readReviewRequest request env = inl rejected ->
  V1.handleReview SYSTEM_PROMPT request env w = (Ok rejected, w).
Proof. intros E. unfold V1.handleReview. rewrite E. reflexivity. Qed.

Lemma V2_rejected request env w (rejected : Response V2.Payload) :
  readReviewRequest request env = inl rejected ->
  V2.handleReview SYSTEM_PROMPT request env w = (Ok rejected, w).
Proof. intros E. unfold V2.handleReview. rewrite E. reflexivity. Qed.

Lemma V3_rejected request env w (rejected : Response V3.Payload) :
  readReviewRequest request env = inl rejected ->
  V3.handleReview SYSTEM_PROMPT request env w = (Ok rejected, w).
Proof. intros E. unfold V3.handleReview. rewrite E. reflexivity. Qed.

(** C10.  A request whose [diff] is a string of white space only never
    reaches the inference backend: in every revision the handler returns
    with the world as it found it.  When the request has passed the bearer
    token check, the answer is the error [Missing or empty 'diff' field]
    with status 400; when it has not, the answer is a 401 of that check. *)
Theorem blank_diff_rejected_before_inference :
  forall (request : Request) (env : Env) (body : JSValue) (d : jsstring)
         (w : World),
    json request = Ok body ->
    get body (js "diff") = JSString d ->
    forallb isWhiteSpace d = true ->
    (snd (V1.handleReview SYSTEM_PROMPT request env w) = w
     /\ snd (V2.handleReview SYSTEM_PROMPT request env w) = w
     /\ snd (V3.handleReview SYSTEM_PROMPT request env w) = w)
    /\ (authorized request env = true ->
        V1.handleReview SYSTEM_PROMPT request env w
        = (Ok (errorResponse MISSING_DIFF 400), w)
        /\ V2.handleReview SYSTEM_PROMPT request env w
           = (Ok (errorResponse MISSING_DIFF 400), w)
        /\ V3.handleReview SYSTEM_PROMPT request env w
           = (Ok (errorResponse MISSING_DIFF 400), w))
    /\ (authorized request env = false ->
        (exists msg, V1.handleReview SYSTEM_PROMPT request env w
                     = (Ok (errorResponse msg 401), w))
        /\ (exists msg, V2.handleReview SYSTEM_PROMPT request env w
                        = (Ok (errorResponse msg 401), w))
        /\ (exists msg, V3.handleReview SYSTEM_PROMPT request env w
                        = (Ok (errorResponse msg 401), w))).
Proof.
  intros request env body d w Hjson Hdiff Hblank.
  assert (Hyes : authorized request env = true ->
                 V1.handleReview SYSTEM_PROMPT request env w
                 = (Ok (errorResponse MISSING_DIFF 400), w)
                 /\ V2.handleReview SYSTEM_PROMPT request env w
                    = (Ok (errorResponse MISSING_DIFF 400), w)
                 /\ V3.handleReview SYSTEM_PROMPT request env w
                    = (Ok (errorResponse MISSING_DIFF 400), w)).
  { intros Hauth. split; [|split].
    - apply V1_rejected. eapply readReviewRequest_blank_diff; eassumption.
    - apply V2_rejected. eapply readReviewRequest_blank_diff; eassumption.
    - apply V3_rejected. eapply readReviewRequest_blank_diff; eassumption. }
  assert (Hno : authorized request env = false ->
                (exists msg, V1.handleReview SYSTEM_PROMPT request env w
                             = (Ok (errorResponse msg 401), w))
                /\ (exists msg, V2.handleReview SYSTEM_PROMPT request env w
                                = (Ok (errorResponse msg 401), w))
                /\ (exists msg, V3.handleReview SYSTEM_PROMPT request env w
                                = (Ok (errorResponse msg 401), w))).
  { intros Hauth. split; [|split].
    - destruct (@readReviewRequest_unauthorized V1.ReviewResponse request env Hauth)
        as (msg & E). exists msg. apply V1_rejected. exact E.
    - destruct (@readReviewRequest_unauthorized V2.ReviewResponse request env Hauth)
        as (msg & E). exists msg. apply V2_rejected. exact E.
    - destruct (@readReviewRequest_unauthorized V3.ReviewResponse request env Hauth)
        as (msg & E). exists msg. apply V3_rejected. exact E. }
  split; [|split; assumption].
  destruct (authorized request env).
  - destruct (Hyes eq_refl) as (E1 & E2 & E3). rewrite E1, E2, E3. auto.
  - destruct (Hno eq_refl) as ((m1 & E1) & (m2 & E2) & (m3 & E3)).
    rewrite E1, E2, E3. auto.
Qed.

Ltac run_handler :=
  unfold bind, try_catch, lift, ret, AI_run, randomUUID, push;
  cbn [fst snd ai_calls uuids_drawn].

(** C6.  When the first reply of the backend cannot be extracted or
    validated, the handler of [V3] calls the backend exactly once more, with
    the same model, the same system message and the same response format,
    and with the user message of the first call followed by a blank line
    and the sentence [Your previous response was not valid JSON. Try again
    and output ONLY valid JSON.]; it runs extraction and validation once on
    that second answer: if they succeed the caller gets the ordinary 200
    review built from it; if anything in the second attempt fails the
    caller gets the 500 error [AI response parsing failed: ...]; either way
    the backend has been called twice and never a third time. *)
Theorem retry_once_then_terminal :
  forall (request : Request) (env : Env) (w : World) (accepted : ReviewRequest)
         (reply : JSValue) (text : jsstring) (err : exn),
    readReviewRequest (R := V3.ReviewResponse) request env = inr accepted ->
    V3.isTrivialDiff (diff (prepared accepted)) = false ->
    AI_backend env (length (ai_calls w)) V3.AI_MODEL (call_input (firstCall SYSTEM_PROMPT accepted))
    = Ok reply ->
    V3.getAiResponseText reply = Ok text ->
    extractAndValidate text = Throw err ->
    V3.handleReview SYSTEM_PROMPT request env w
    = match retryOutcome
              (AI_backend env (length (ai_calls w ++ [firstCall SYSTEM_PROMPT accepted]))
                          V3.AI_MODEL (call_input (retryCall SYSTEM_PROMPT accepted))) with
      | Ok validated =>
        (Ok (jsonResponse
               (inr (reviewOf accepted validated (crypto_randomUUID (uuids_drawn w))))
               200),
         mkWorld (ai_calls w ++ [firstCall SYSTEM_PROMPT accepted; retryCall SYSTEM_PROMPT accepted])
                 (S (uuids_drawn w)))
      | Throw e =>
        (Ok (parsingFailed e),
         mkWorld (ai_calls w ++ [firstCall SYSTEM_PROMPT accepted; retryCall SYSTEM_PROMPT accepted])
                 (uuids_drawn w))
      end
    /\ (exists user,
          firstCall SYSTEM_PROMPT accepted
          = mkAiCall V3.AI_MODEL
                     (ResponsesInput (chat SYSTEM_PROMPT user) (js "json_object"))
          /\ retryCall SYSTEM_PROMPT accepted
             = mkAiCall V3.AI_MODEL
                        (ResponsesInput
                           (chat SYSTEM_PROMPT
                                 (user ++ [LF; LF]
                                  ++ js "Your previous response was not valid JSON. Try again and output ONLY valid JSON."))
                           (js "json_object"))).
Proof.
  intros request env w accepted reply text err Hacc Hsubst Hreply Htext Hfail.
  split; [|exists (strictUserPrompt accepted); split; reflexivity].
  unfold V3.handleReview. rewrite Hacc. cbv zeta.
  fold (prepared accepted) (flagged accepted).
  rewrite Hsubst.
  fold (strictUserPrompt accepted).
  unfold firstCall, retryCall, RETRY_INSTRUCTION, V3.RETRY_SUFFIX, call_input in *.
  run_handler.
  rewrite Hreply, Htext.
  unfold extractAndValidate in Hfail.
  destruct (extractJson text) as [parsed|e] eqn:E1.
  - rewrite Hfail. cbn [ai_calls uuids_drawn].
    rewrite <- app_assoc. cbn [app].
    unfold retryOutcome, extractAndValidate, parsingFailed, reviewOf, V3_meta.
    repeat next_case; reflexivity.
  - inversion Hfail; subst e. cbn [ai_calls uuids_drawn].
    rewrite <- app_assoc. cbn [app].
    unfold retryOutcome, extractAndValidate, parsingFailed, reviewOf, V3_meta.
    repeat next_case; reflexivity.
Qed.

Lemma filter_idempotent {A : Type} (p : A -> bool) (xs : list A) :
  filter p (filter p xs) = filter p xs.
Proof.
  induction xs as [|x xs IH]; [reflexivity|]. simpl.
  destruct (p x) eqn:E; [simpl; rewrite E, IH; reflexivity | exact IH].
Qed.

(** Whatever review the handler of [V3] returns, its recommendation is
    derived from the findings it returns, and those have passed the noise
    filter. *)
Lemma V3_recommendation_of_returned_findings request env w resp w' r :
  V3.handleReview SYSTEM_PROMPT request env w = (Ok resp, w') ->
  resp_data resp = inr r ->
  V3.recommendation r = deriveRecommendation (V3.findings r)
  /\ V3.filterNonsensicalFindings (V3.findings r) = V3.findings r.
Proof.
  unfold V3.handleReview.
  destruct (readReviewRequest request env) as [rejected|accepted] eqn:Hacc.
  - destruct (readReviewRequest_rejects_with_error _ _ _ Hacc) as (msg & code & ->).
    unfold ret. intros E D. inversion E; subst. discriminate D.
  - cbv zeta. run_handler.
    repeat next_case; intros E D; inversion E; subst;
      cbn [resp_data jsonResponse errorResponse] in D;
      try discriminate D; inversion D; subst;
      cbn [V3.recommendation V3.findings];
      (split; [reflexivity|]);
      first [reflexivity | apply filter_idempotent].
Qed.

(** C3.  The recommendation is a function of the findings' severities
    alone: [request_changes] when some finding is high; otherwise
    [approve_with_changes] when some finding is medium; otherwise
    [approve], the empty list included; findings of severity low or nit
    can be removed without changing it.  In the handler of [V3] it is
    computed from the very findings the response returns, which are the
    filtered ones. *)
Theorem recommendation_from_filtered_severities :
  forall (findings : list Finding),
    ((exists f, In f findings /\ severity f = high) ->
     deriveRecommendation findings = request_changes)
    /\ ((forall f, In f findings -> severity f <> high) ->
        (exists f, In f findings /\ severity f = medium) ->
        deriveRecommendation findings = approve_with_changes)
    /\ ((forall f, In f findings -> severity f <> high /\ severity f <> medium) ->
        deriveRecommendation findings = approve)
    /\ deriveRecommendation [] = approve
    /\ deriveRecommendation (filter (fun f => negb (is_lowOrNit f)) findings)
       = deriveRecommendation findings
    /\ (forall others, map severity others = map severity findings ->
                       deriveRecommendation others = deriveRecommendation findings)
    /\ (forall request env w resp w' r,
          V3.handleReview SYSTEM_PROMPT request env w = (Ok resp, w') ->
          resp_data resp = inr r ->
          V3.recommendation r = deriveRecommendation (V3.findings r)
          /\ V3.filterNonsensicalFindings (V3.findings r) = V3.findings r).
Proof.
  intros findings.
  destruct (deriveRecommendation_cases findings) as (Hh & Hm & Hl).
  repeat (split; [assumption|]).
  split; [reflexivity|].
  split; [apply deriveRecommendation_ignores_lowOrNit|].
  split; [intros others; apply deriveRecommendation_severities|].
  apply V3_recommendation_of_returned_findings.
Qed.

End Handlers.

(* ------------------------------------------------------------------ *)
(** ** Worked examples *)
(* ------------------------------------------------------------------ *)

Lemma not_In_by_search (c : code_unit) (s : jsstring) :
  existsb (N.eqb c) s = false -> ~ In c s.
Proof.
  intros E Hin. apply not_true_iff_false in E. apply E.
  apply existsb_exists. exists c; split; [assumption | apply N.eqb_refl].
Qed.

(** *** Extraction: the reply of the specification's test, a JSON object
    inside a fenced block inside prose *)

Lemma extractJson_fenced_reply :
  extractJson (H := fenced_runtime) fenced_reply = Ok a_is_1.
Proof.
  apply (proj2 (extractJson_correct (H := fenced_runtime) fenced_reply (Ok a_is_1))).
  apply (spec_parsed (H := fenced_runtime) fenced_prefix fenced_inner fenced_suffix).
  - apply not_In_by_search. vm_compute. reflexivity.
  - apply not_In_by_search. vm_compute. reflexivity.
  - vm_compute. reflexivity.
Defined.

Example extractJson_runs_on_fenced_reply :
  extractJson (H := fenced_runtime) fenced_reply = Ok a_is_1
  /\ extractJson (H := fenced_runtime) (js "no braces here") = Throw NoJsonFound
  /\ extractJson (H := fenced_runtime) (js "} before {") = Throw NoJsonFound
  /\ extractJson (H := fenced_runtime) (js "{ not json }")
     = Throw (MalformedJson (js "Unexpected token")).
Proof. split; [|split; [|split]]; vm_compute; reflexivity. Qed.

(** *** Validation: two well-formed findings around two malformed ones *)

Lemma validateAiResponse_mixed_reply :
  exists r,
    validateAiResponse mixed_reply = Ok r
    /\ Forall2 survives [finding_a; finding_b] (v_findings r).
Proof.
  destruct (proj2 (validateAiResponse_drops_only_invalid mixed_reply)
                  (js "Two real issues."))
    as (r & Hr & _ & Hkeep & _).
  - vm_compute. reflexivity.
  - vm_compute. reflexivity.
  - exists r. split; [exact Hr|].
    destruct (Hkeep mixed_findings) as (Hall & _).
    + vm_compute. reflexivity.
    + exact Hall.
Defined.

Example validateAiResponse_runs_on_mixed_reply :
  validateAiResponse mixed_reply
  = Ok (mkValidated
          (js "Two real issues.")
          [mkFinding high (js "Use of eval") (js "Runs attacker-controlled code.")
                     None (Some (js "src/app.ts")) (Some (number_of_Z 12));
           mkFinding nit (js "Typo") (js "Spelling in a comment.") None None None]
          [])
  /\ validateAiResponse (obj [("summary", str "Nothing."); ("findings", str "none")]%string)
     = Ok (mkValidated (js "Nothing.") [] [])
  /\ validateAiResponse (obj [("summary", str "Nothing.")]%string)
     = Ok (mkValidated (js "Nothing.") [] [])
  /\ validateAiResponse (obj [("findings", JSArray [])]%string)
     = Throw (JsError EError (js "AI response missing summary")).
Proof. split; [|split; [|split]]; vm_compute; reflexivity. Qed.

(** *** Lines *)

Lemma validateFinding_line_of_finding_a :
  get finding_a (js "line") = JSNumber (number_of_Z 12)
  /\ Number_isInteger (number_of_Z 12) = true.
Proof.
  refine (proj1 (validateFinding_line_is_integer
                   finding_a
                   (mkFinding high (js "Use of eval")
                              (js "Runs attacker-controlled code.")
                              None (Some (js "src/app.ts")) (Some (number_of_Z 12)))
                   _)
                (number_of_Z 12) _).
  - vm_compute. reflexivity.
  - reflexivity.
Defined.

(** *** Recommendations: the three cases of the specification *)

Lemma deriveRecommendation_high_and_medium :
  deriveRecommendation [some_finding high; some_finding medium] = request_changes.
Proof.
  refine (proj1 (recommendation_from_filtered_severities
                   (H := example_runtime []) (js "prompt")
                   [some_finding high; some_finding medium]) _).
  exists (some_finding high). split; [left; reflexivity | reflexivity].
Defined.

Example deriveRecommendation_runs :
  deriveRecommendation [some_finding medium] = approve_with_changes
  /\ deriveRecommendation [some_finding high; some_finding medium] = request_changes
  /\ deriveRecommendation [] = approve
  /\ deriveRecommendation [some_finding low; some_finding nit] = approve.
Proof. repeat split. Qed.

(** *** Truncation *)

Lemma truncateDiff_long_and_short :
  truncateDiff (request_with_diff (js "+x")) = (request_with_diff (js "+x"), false)
  /\ snd (truncateDiff (request_with_diff long_diff)) = true
  /\ jslength (diff (fst (truncateDiff (request_with_diff long_diff)))) = MAX_DIFF_LENGTH.
Proof.
  split.
  - refine (proj1 (proj2 (truncateDiff_spec (request_with_diff (js "+x")))) _).
    vm_compute. discriminate.
  - assert (L : MAX_DIFF_LENGTH < jslength (diff (request_with_diff long_diff)))
      by (vm_compute; reflexivity).
    destruct (proj2 (proj2 (truncateDiff_spec (request_with_diff long_diff))) L)
      as (Hflag & _ & Hlen & _).
    split; assumption.
Defined.

(** *** Triviality: the two diffs of the specification *)

Lemma isTrivialDiff_stops_at_assignment :
  V3.scanLines (split LF substantive_diff) 0 = (true, 2%nat)
  /\ V3.isTrivialDiff substantive_diff = false.
Proof.
  refine (proj1 (proj2 (isTrivialDiff_spec substantive_diff))
                [js "+ // note"] (js "+ x = 1") [js "+ y = 2"] _ _ _ _).
  - vm_compute. reflexivity.
  - constructor; [|constructor]. intros _. vm_compute. reflexivity.
  - vm_compute. reflexivity.
  - vm_compute. reflexivity.
Defined.

Example isTrivialDiff_runs :
  V3.isTrivialDiff comment_only_diff = true
  /\ V3.isTrivialDiff substantive_diff = false
  /\ V3.isTrivialDiff (js " unchanged line") = true
  /\ V3.isTrivialDiff (js "+++x") = true
  /\ V3.isTrivialDiff (js "-/* gone */") = true.
Proof. repeat split; vm_compute; reflexivity. Qed.

(** *** Inline comments *)

Lemma buildInlineComments_leaves_out_line_zero :
  V2.inlineCommentFor line_zero_finding = None.
Proof.
  refine (proj1 (proj2 (buildInlineComments_spec
                          (H := example_runtime [])
                          [anchored_finding; line_zero_finding]))
                line_zero_finding _ _).
  - right; left; reflexivity.
  - vm_compute. reflexivity.
Defined.

Example buildInlineComments_runs :
  map (fun c => (path c, comment_line c))
      (V2.buildInlineComments
         [unanchored_finding; anchored_finding; line_zero_finding])
  = [(js "src/app.ts", number_of_Z 12)]
  /\ length (V2.renderReviewLines
               (H := example_runtime []) (js "s")
               [unanchored_finding; anchored_finding; line_zero_finding]
               [] request_changes None) = 15%nat.
Proof. split; vm_compute; reflexivity. Qed.

(** *** The report *)


Example renderReviewLines_runs :
  V2.renderReviewLines (H := example_runtime []) (js "One issue.")
                       [unanchored_finding] [] approve (Some (js "0123456789abcdef"))
  = [js "<!-- diff-sheriff -->"; js "## ✅ Diff-Sheriff"; []; js "One issue."; [];
     js "**💡 Optional**"; js "- **Naming**: The name hides the unit."; [];
     js "<sub>0123456</sub>"]
  /\ V3.renderReviewLines (H := example_runtime []) (js "One issue.")
                          [anchored_finding] [] request_changes None
     = [js "<!-- diff-sheriff -->"; js "## âœ… Diff-Sheriff Review"; [];
        js "### ðŸ”Ž Summary"; js "> One issue."; [];
        js "### ðŸš¨ Must Fix (Blocking)";
        js "- **Use of eval** (`src/app.ts`:12) â€” Runs attacker-controlled code. *Suggestion:* Validate first.";
        [];
        js "### ðŸ§­ Overall Recommendation";
        js "- **Request changes** â€” Blocking issues must be resolved before merge.";
        [];
        js "<sub>Reviewed by Diff-Sheriff â€¢ AI-assisted, human-aligned â€¢ Commit: N/A</sub>"].
Proof. split; vm_compute; reflexivity. Qed.

(** *** The handlers on whole requests *)

Lemma blank_diff_request_gets_400 :
  V1.handleReview (H := example_runtime []) (js "prompt") (bearer blank_body)
                  (example_env []) initial_world
  = (Ok (errorResponse MISSING_DIFF 400), initial_world)
  /\ V2.handleReview (H := example_runtime []) (js "prompt") (bearer blank_body)
                     (example_env []) initial_world
     = (Ok (errorResponse MISSING_DIFF 400), initial_world)
  /\ V3.handleReview (H := example_runtime []) (js "prompt") (bearer blank_body)
                     (example_env []) initial_world
     = (Ok (errorResponse MISSING_DIFF 400), initial_world).
Proof.
  refine (proj1 (proj2 (blank_diff_rejected_before_inference
                          (H := example_runtime []) (js "prompt")
                          (bearer blank_body) (example_env []) blank_body
                          ([0x20; 0x09; 0x0A; 0xA0; 0x20])%N initial_world
                          _ _ _)) _).
  - reflexivity.
  - vm_compute. reflexivity.
  - vm_compute. reflexivity.
  - vm_compute. reflexivity.
Defined.

Lemma retry_recovers_after_prose_reply :
  exists r,
    V3.handleReview (H := review_runtime) (js "prompt") eval_request
                    (example_env [Ok prose_reply; Ok wrapped_reply]) initial_world
    = (Ok (jsonResponse (inr r) 200),
       mkWorld [firstCall (js "prompt") eval_accepted;
                retryCall (js "prompt") eval_accepted] 1)
    /\ V3.recommendation r = request_changes.
Proof.
  eexists.
  rewrite (fun h1 h2 h3 h4 h5 =>
             proj1 (retry_once_then_terminal
                      (H := review_runtime) (js "prompt") eval_request
                      (example_env [Ok prose_reply; Ok wrapped_reply]) initial_world
                      eval_accepted prose_reply (js "I could not produce a review.")
                      NoJsonFound h1 h2 h3 h4 h5)).
  - vm_compute. split; reflexivity.
  - vm_compute. reflexivity.
  - vm_compute. reflexivity.
  - vm_compute. reflexivity.
  - vm_compute. reflexivity.
  - vm_compute. reflexivity.
Defined.

Example handleReview_runs :
  (** two replies without JSON: one retry, then the terminal error *)
  V3.handleReview (H := review_runtime) (js "prompt") eval_request
                  (example_env [Ok prose_reply; Ok prose_reply; Ok wrapped_reply])
                  initial_world
  = (Ok (errorResponse (js "AI response parsing failed: No JSON object found in response") 500),
     mkWorld [firstCall (js "prompt") eval_accepted;
              retryCall (js "prompt") eval_accepted] 0)
  (** a backend failure on the first call is not retried *)
  /\ V3.handleReview (H := review_runtime) (js "prompt") eval_request
                     (example_env []) initial_world
     = (Ok (errorResponse (js "AI failure: Unknown AI error") 500),
        mkWorld [firstCall (js "prompt") eval_accepted] 0)
  (** a wrong bearer token stops the request before anything else *)
  /\ V3.handleReview (H := review_runtime) (js "prompt")
                     (mkRequest (Some (js "Bearer guess")) (Ok blank_body))
                     (example_env []) initial_world
     = (Ok (errorResponse (js "Unauthorized: Invalid token") 401), initial_world)
  (** the retry sentence is what the second call adds to the first *)
  /\ (forall accepted,
        call_input (retryCall (js "prompt") accepted)
        = ResponsesInput
            (chat (js "prompt")
                  (strictUserPrompt accepted ++ [LF; LF]
                   ++ js "Your previous response was not valid JSON. Try again and output ONLY valid JSON."))
            (js "json_object")).
Proof.
  split; [|split; [|split]]; [vm_compute; reflexivity ..|].
  intros accepted. unfold retryCall, RETRY_INSTRUCTION, call_input. reflexivity.
Qed.

(* ================================================================== *)
(** * Further properties *)
(* ================================================================== *)

(* ------------------------------------------------------------------ *)
(** ** Extraction under wrapping *)
(* ------------------------------------------------------------------ *)

Section Wrapping.
Context `{JSRuntime}.

(** Text without braces around a reply does not change what is extracted
    from it: prose and code fences before and after the object are
    ignored, whatever the reply itself holds. *)
Theorem extractJson_ignores_braceless_wrapping :
  forall (pre text post : jsstring),
    ~ In LBRACE pre -> ~ In RBRACE pre ->
    ~ In LBRACE post -> ~ In RBRACE post ->
    extractJson (pre ++ text ++ post) = extractJson text.
Proof.
  intros pre text post Hpo Hpc Hqo Hqc.
  pose proof (extractJson_meets_spec text) as S.
  remember (extractJson text) as r eqn:Er. clear Er.
  destruct S as [text Ho|text Hc|a b c Ho Hc|p mid q msg Ho Hc P|p mid q parsed Ho Hc P].
  - apply extractJson_no_opening. rewrite !in_app_iff. tauto.
  - apply extractJson_no_closing. rewrite !in_app_iff. tauto.
  - replace (pre ++ (a ++ RBRACE :: b ++ LBRACE :: c) ++ post)
      with ((pre ++ a) ++ RBRACE :: b ++ LBRACE :: (c ++ post))
      by (rewrite <- !app_assoc; simpl; rewrite <- !app_assoc; reflexivity).
    apply extractJson_closing_first.
    + rewrite <- app_assoc, in_app_iff. tauto.
    + intros Hin. apply in_app_iff in Hin. simpl in Hin.
      rewrite in_app_iff in Hin. apply Hc. rewrite in_app_iff. simpl.
      destruct Hin as [?|[?|[?|?]]]; auto. contradiction.
  - replace (pre ++ (p ++ LBRACE :: mid ++ RBRACE :: q) ++ post)
      with ((pre ++ p) ++ LBRACE :: mid ++ RBRACE :: (q ++ post))
      by (rewrite <- !app_assoc; simpl; rewrite <- !app_assoc; reflexivity).
    rewrite extractJson_span, P; [reflexivity| |]; rewrite in_app_iff; tauto.
  - replace (pre ++ (p ++ LBRACE :: mid ++ RBRACE :: q) ++ post)
      with ((pre ++ p) ++ LBRACE :: mid ++ RBRACE :: (q ++ post))
      by (rewrite <- !app_assoc; simpl; rewrite <- !app_assoc; reflexivity).
    rewrite extractJson_span, P; [reflexivity| |]; rewrite in_app_iff; tauto.
Qed.

End Wrapping.

(* ------------------------------------------------------------------ *)
(** ** What a validated finding looks like *)
(* ------------------------------------------------------------------ *)

Lemma validateFinding_required_fields (v : JSValue) (f : Finding) :
  validateFinding v = Some f ->
  get v (js "title") = JSString (title f)
  /\ get v (js "rationale") = JSString (rationale f)
  /\ str_truthy (title f) = true
  /\ str_truthy (rationale f) = true.
Proof.
  intros Hv.
  destruct (spec_validFinding v) eqn:Ev;
    [|rewrite (validateFinding_invalid v Ev) in Hv; discriminate].
  destruct (validateFinding_valid v Ev) as (f' & Hf' & _ & Ht & Hr).
  assert (f' = f) by congruence. subst f'.
  split; [exact Ht|]. split; [exact Hr|].
  destruct v as [| | | | | |props]; try discriminate.
  unfold get in Ht, Hr. unfold spec_validFinding in Ev.
  destruct (assoc (js "severity") props) as [[| | | |s| |]|]; try discriminate.
  destruct (assoc (js "title") props) as [[| | | |t| |]|]; try discriminate.
  destruct (assoc (js "rationale") props) as [[| | | |r| |]|]; try discriminate.
  inversion Ht; inversion Hr; subst.
  apply andb_true_iff in Ev as [Ev Hrt]. apply andb_true_iff in Ev as [_ Htt].
  auto.
Qed.

Lemma truthy_string_not_empty (o : option jsstring) : truthy_string o <> Some [].
Proof. destruct o as [[|c r]|]; discriminate. Qed.

Lemma truthy_string_Some (o : option jsstring) (s : jsstring) :
  truthy_string o = Some s -> o = Some s.
Proof. destruct o as [[|c r]|]; simpl; congruence. Qed.

(** A finding that has passed validation has a non-empty title and a
    non-empty rationale, copied as they stand from the element; its
    suggestion and file, when it has them, are non-empty and are the
    element's; an element whose suggestion or file is the empty string is
    not rejected: it passes without that field. *)
Theorem validateFinding_wellformed :
  forall (v : JSValue) (f : Finding),
    validateFinding v = Some f ->
    (title f <> [] /\ get v (js "title") = JSString (title f))
    /\ (rationale f <> [] /\ get v (js "rationale") = JSString (rationale f))
    /\ (suggestion f <> Some []
        /\ forall s, suggestion f = Some s -> get v (js "suggestion") = JSString s)
    /\ (file f <> Some []
        /\ forall s, file f = Some s -> get v (js "file") = JSString s)
    /\ (get v (js "suggestion") = JSString [] -> suggestion f = None)
    /\ (get v (js "file") = JSString [] -> file f = None).
Proof.
  intros v f Hv.
  destruct (validateFinding_required_fields v f Hv) as (Ht & Hr & Htt & Hrt).
  destruct (validateFinding_optional_fields v f Hv) as (Hs & Hf & _).
  assert (Hget : forall k s, truthy_string (as_string (get v k)) = Some s ->
                             get v k = JSString s).
  { intros k s E. apply truthy_string_Some in E.
    destruct (get v k); try discriminate. inversion E; reflexivity. }
  repeat split.
  - intros E; rewrite E in Htt; discriminate.
  - exact Ht.
  - intros E; rewrite E in Hrt; discriminate.
  - exact Hr.
  - rewrite Hs. apply truthy_string_not_empty.
  - intros s E. rewrite Hs in E. apply Hget; exact E.
  - rewrite Hf. apply truthy_string_not_empty.
  - intros s E. rewrite Hf in E. apply Hget; exact E.
  - intros E. rewrite Hs, E. reflexivity.
  - intros E. rewrite Hf, E. reflexivity.
Qed.

(* ------------------------------------------------------------------ *)
(** ** Testing notes *)
(* ------------------------------------------------------------------ *)

Lemma trimStart_fixed (s : jsstring) :
  (forall c r, s = c :: r -> isWhiteSpace c = false) -> trimStart s = s.
Proof.
  destruct s as [|c r]; [reflexivity|]. intros Hh. simpl.
  rewrite (Hh c r eq_refl). reflexivity.
Qed.

Lemma trimStart_idempotent (s : jsstring) : trimStart (trimStart s) = trimStart s.
Proof.
  apply trimStart_fixed. intros c r E. eapply trimStart_head; eassumption.
Qed.

Lemma trim_idempotent (s : jsstring) : trim (trim s) = trim s.
Proof.
  assert (Hstart : trimStart (trim s) = trim s).
  { apply trimStart_fixed. intros c r E. eapply trim_head; eassumption. }
  unfold trim at 1. rewrite Hstart.
  unfold trim, trimEnd. rewrite rev_involutive, trimStart_idempotent.
  reflexivity.
Qed.

Lemma collectTestingNotes_flat_map (items : list JSValue) :
  collectTestingNotes items = flat_map (kept noteOf) items.
Proof.
  unfold collectTestingNotes.
  transitivity (fold_left (fun acc x => match noteOf x with
                                        | Some y => push acc y
                                        | None => acc
                                        end) items []).
  - generalize (@nil jsstring). induction items as [|x items IH]; intros acc;
      [reflexivity|]. simpl. rewrite <- IH. f_equal.
    destruct x; try reflexivity. simpl.
    destruct (forallb isWhiteSpace s) eqn:E.
    + rewrite (proj2 (trim_empty_iff s) E). reflexivity.
    + destruct (trim s) as [|c r] eqn:Et; [|reflexivity].
      rewrite (proj1 (trim_empty_iff s) Et) in E. discriminate.
  - rewrite fold_left_push. reflexivity.
Qed.

(** The testing notes of a validated reply are, in order, the trimmed forms
    of the entries of [testingNotes] that are strings with something other
    than white space in them; entries of any other kind are dropped, and a
    [testingNotes] that is absent or not an array gives no note.  Every note
    kept is non-empty and carries no white space at either end. *)
Theorem validateAiResponse_testingNotes :
  forall (parsed : JSValue) (r : ValidatedResponse),
    validateAiResponse parsed = Ok r ->
    (forall items, get parsed (js "testingNotes") = JSArray items ->
                   v_testingNotes r = flat_map (kept noteOf) items)
    /\ ((forall items, get parsed (js "testingNotes") <> JSArray items) ->
        v_testingNotes r = [])
    /\ Forall (fun note => note <> [] /\ trim note = note) (v_testingNotes r).
Proof.
  intros parsed r. unfold validateAiResponse.
  destruct (not_an_object parsed); [discriminate|].
  destruct (as_string (get parsed (js "summary"))) as [summary|]; [|discriminate].
  intros E; inversion E; subst r; clear E. cbn [v_testingNotes].
  split; [|split].
  - intros items ->. js_step. apply collectTestingNotes_flat_map.
  - intros Hn. destruct (get parsed (js "testingNotes")); try reflexivity.
    exfalso; eapply Hn; reflexivity.
  - destruct (as_array (get parsed (js "testingNotes"))) as [items|]; [|constructor].
    rewrite collectTestingNotes_flat_map.
    induction items as [|x items IH]; [constructor|]. simpl.
    apply Forall_app. split; [|exact IH].
    unfold kept, noteOf. destruct x; try constructor.
    destruct (forallb isWhiteSpace s) eqn:Eb; constructor; [|constructor].
    split; [|apply trim_idempotent].
    intros Et. rewrite (proj1 (trim_empty_iff s) Et) in Eb. discriminate.
Qed.

(* ------------------------------------------------------------------ *)
(** ** Validation across revisions *)
(* ------------------------------------------------------------------ *)

(** The validator of [V1] and the validator of [V2] and [V3] accept the same
    values with the same summary and findings, and reject the others with
    the same error: adding testing notes changed nothing else. *)
Theorem validateAiResponse_revisions_agree :
  forall (parsed : JSValue),
    match V1.validateAiResponse parsed, validateAiResponse parsed with
    | Ok r1, Ok r =>
      V1.v_summary r1 = v_summary r /\ V1.v_findings r1 = v_findings r
    | Throw e1, Throw e => e1 = e
    | _, _ => False
    end.
Proof.
  intros parsed. unfold V1.validateAiResponse, validateAiResponse.
  destruct (not_an_object parsed); [reflexivity|].
  destruct (as_string (get parsed (js "summary"))); [|reflexivity].
  split; reflexivity.
Qed.

(* ------------------------------------------------------------------ *)
(** ** Recommendations of combined and filtered findings *)
(* ------------------------------------------------------------------ *)

Lemma deriveRecommendation_by_flags (findings : list Finding) :
  deriveRecommendation findings
  = if existsb is_high findings then request_changes
    else if existsb is_medium findings then approve_with_changes
    else approve.
Proof. reflexivity. Qed.

Lemma existsb_subsequence {A : Type} (p : A -> bool) (xs ys : list A) :
  subsequence xs ys -> existsb p xs = true -> existsb p ys = true.
Proof.
  induction 1 as [|x xs ys _ IH|x xs ys _ IH]; simpl; intros E.
  - discriminate.
  - rewrite (IH E). apply orb_true_r.
  - apply orb_true_iff in E as [E|E]; [rewrite E; reflexivity|].
    rewrite (IH E). apply orb_true_r.
Qed.

Lemma existsb_Permutation {A : Type} (p : A -> bool) (xs ys : list A) :
  Permutation xs ys -> existsb p xs = existsb p ys.
Proof.
  induction 1; simpl; try congruence.
  destruct (p x), (p y); reflexivity.
Qed.

Lemma filter_subsequence {A : Type} (p : A -> bool) (xs : list A) :
  subsequence (filter p xs) xs.
Proof.
  induction xs as [|x xs IH]; simpl; [constructor|].
  destruct (p x); constructor; assumption.
Qed.

Lemma deriveRecommendation_subsequence (fs gs : list Finding) :
  subsequence fs gs ->
  (strictness (deriveRecommendation fs) <= strictness (deriveRecommendation gs))%nat.
Proof.
  intros S. rewrite !deriveRecommendation_by_flags.
  pose proof (existsb_subsequence is_high fs gs S) as Hh.
  pose proof (existsb_subsequence is_medium fs gs S) as Hm.
  destruct (existsb is_high fs); [rewrite (Hh eq_refl); simpl; lia|].
  destruct (existsb is_medium fs); [rewrite (Hm eq_refl)|];
    destruct (existsb is_high gs); try destruct (existsb is_medium gs);
    simpl; lia.
Qed.

(** The recommendation for two lists of findings put together is the
    stricter of their recommendations, and reordering the findings does
    not change it. *)
Theorem deriveRecommendation_of_union :
  forall (fs gs : list Finding),
    deriveRecommendation (fs ++ gs)
    = stricter (deriveRecommendation fs) (deriveRecommendation gs)
    /\ (Permutation fs gs -> deriveRecommendation fs = deriveRecommendation gs).
Proof.
  intros fs gs. split.
  - rewrite !deriveRecommendation_by_flags, !existsb_app.
    destruct (existsb is_high fs), (existsb is_medium fs),
             (existsb is_high gs), (existsb is_medium gs); reflexivity.
  - intros P. rewrite !deriveRecommendation_by_flags.
    rewrite (existsb_Permutation is_high fs gs P),
            (existsb_Permutation is_medium fs gs P).
    reflexivity.
Qed.

Section NoiseFilter.
Context `{JSRuntime}.

(** The noise filter only leaves findings out: what it returns is the
    input with some findings removed, the others untouched and in place;
    filtering again removes nothing more; and the recommendation derived
    after filtering is never stricter than the one the unfiltered findings
    would have given. *)
Theorem filterNonsensicalFindings_only_removes :
  forall (findings : list Finding),
    subsequence (V3.filterNonsensicalFindings findings) findings
    /\ V3.filterNonsensicalFindings (V3.filterNonsensicalFindings findings)
       = V3.filterNonsensicalFindings findings
    /\ (forall f, In f (V3.filterNonsensicalFindings findings) <->
                  In f findings /\ V3.isMetadataNoiseFinding f = false)
    /\ (strictness (deriveRecommendation (V3.filterNonsensicalFindings findings))
        <= strictness (deriveRecommendation findings))%nat.
Proof.
  intros findings. unfold V3.filterNonsensicalFindings.
  split; [apply filter_subsequence|].
  split; [apply filter_idempotent|].
  split.
  - intros f. rewrite filter_In, negb_true_iff. reflexivity.
  - apply deriveRecommendation_subsequence, filter_subsequence.
Qed.

End NoiseFilter.

(* ------------------------------------------------------------------ *)
(** ** Truncation as a bound *)
(* ------------------------------------------------------------------ *)

Lemma truncateDiff_bound (reviewReq : ReviewRequest) :
  jslength (diff (fst (truncateDiff reviewReq))) <= MAX_DIFF_LENGTH.
Proof.
  unfold truncateDiff.
  destruct (Z.gtb_spec (jslength (diff reviewReq)) MAX_DIFF_LENGTH) as [L|L];
    cbn [fst set_diff diff]; [|exact L].
  rewrite slice_prefix by (unfold MAX_DIFF_LENGTH; lia).
  unfold jslength. rewrite length_firstn. unfold MAX_DIFF_LENGTH. lia.
Qed.

(** Whatever the request, after the truncation block its diff has at most
    60,000 code units and is a prefix of the diff submitted; the flag is
    set exactly when something was cut off; and running the block again
    on its own result changes nothing and sets no flag. *)
Theorem truncateDiff_bounded_prefix :
  forall (reviewReq : ReviewRequest),
    jslength (diff (fst (truncateDiff reviewReq))) <= MAX_DIFF_LENGTH
    /\ (exists dropped,
          diff reviewReq = diff (fst (truncateDiff reviewReq)) ++ dropped
          /\ (snd (truncateDiff reviewReq) = true <-> dropped <> []))
    /\ truncateDiff (fst (truncateDiff reviewReq))
       = (fst (truncateDiff reviewReq), false).
Proof.
  intros reviewReq.
  pose proof (truncateDiff_bound reviewReq) as Hb.
  split; [exact Hb|]. split.
  - unfold truncateDiff in *.
    destruct (Z.gtb_spec (jslength (diff reviewReq)) MAX_DIFF_LENGTH) as [L|L];
      cbn [fst snd set_diff diff] in *.
    + rewrite slice_prefix in * by (unfold MAX_DIFF_LENGTH; lia).
      exists (skipn (Z.to_nat MAX_DIFF_LENGTH) (diff reviewReq)). split.
      * symmetry; apply firstn_skipn.
      * split; [|reflexivity]. intros _ E.
        apply (f_equal (@length _)) in E. rewrite length_skipn in E.
        unfold jslength, MAX_DIFF_LENGTH in *. simpl length in E. lia.
    + exists []. split; [symmetry; apply app_nil_r|].
      split; [discriminate | intros X; exfalso; apply X; reflexivity].
  - unfold truncateDiff at 1.
    destruct (Z.gtb_spec (jslength (diff (fst (truncateDiff reviewReq))))
                         MAX_DIFF_LENGTH) as [L|L]; [lia | reflexivity].
Qed.

(* ------------------------------------------------------------------ *)
(** ** Triviality of diffs put together *)
(* ------------------------------------------------------------------ *)

Lemma split_app (sep : code_unit) (a b : jsstring) :
  split sep (a ++ sep :: b) = split sep a ++ split sep b.
Proof.
  induction a as [|c a IH]; simpl.
  - rewrite N.eqb_refl. reflexivity.
  - destruct (N.eqb c sep); [rewrite IH; reflexivity|].
    rewrite IH. destruct (split sep a) as [|piece pieces] eqn:E; [|reflexivity].
    exfalso. destruct a; simpl in E; [discriminate|].
    destruct (N.eqb c0 sep); [discriminate|].
    destruct (split sep a); discriminate.
Qed.

(** The empty diff is trivial, and a diff made of two diffs joined by a
    line feed is trivial exactly when both are: one substantive line
    anywhere makes the whole diff substantive. *)
Theorem isTrivialDiff_of_joined_diffs :
  forall (a b : jsstring),
    V3.isTrivialDiff [] = true
    /\ V3.isTrivialDiff (a ++ LF :: b) = V3.isTrivialDiff a && V3.isTrivialDiff b.
Proof.
  intros a b. split; [reflexivity|].
  unfold V3.isTrivialDiff. rewrite !scanLines_flag, split_app, existsb_app.
  apply negb_orb.
Qed.

(* ------------------------------------------------------------------ *)
(** ** The user prompt *)
(* ------------------------------------------------------------------ *)

Lemma join_snoc (sep : jsstring) (parts : list jsstring) (last : jsstring) :
  join sep (parts ++ [last])
  = match parts with
    | [] => last
    | _ :: _ => join sep parts ++ sep ++ last
    end.
Proof.
  induction parts as [|p parts IH]; [reflexivity|].
  simpl app. destruct parts as [|q parts]; [reflexivity|].
  change (join sep (p :: (q :: parts) ++ [last]))
    with (p ++ sep ++ join sep ((q :: parts) ++ [last])).
  rewrite IH.
  change (join sep (p :: q :: parts)) with (p ++ sep ++ join sep (q :: parts)).
  rewrite <- !app_assoc. reflexivity.
Qed.

Lemma join_snoc_ends (sep : jsstring) (parts : list jsstring) (last : jsstring) :
  exists before, join sep (parts ++ [last]) = before ++ last.
Proof.
  rewrite join_snoc. destruct parts as [|p parts].
  - exists []; reflexivity.
  - exists (join sep (p :: parts) ++ sep). rewrite <- app_assoc. reflexivity.
Qed.

(** The user prompt is a heading part that does not depend on the diff,
    a blank line, and the diff inside its fence, with nothing after the
    closing fence.  What comes right before the blank line is the
    truncation notice when the diff was truncated and the review-mode line
    when it was not. *)
Theorem buildUserPrompt_ends_with_fenced_diff :
  forall (req : ReviewRequest) (truncated : bool),
    exists head,
      (forall d, buildUserPrompt (set_diff req d) truncated
                 = head ++ [LF; LF] ++ diffBlock d)
      /\ buildUserPrompt req truncated = head ++ [LF; LF] ++ diffBlock (diff req)
      /\ exists before,
          head = before
                 ++ (if truncated
                     then js "Note: The diff was truncated due to length limits."
                     else js "Review Mode: " ++ mode_name (mode_or_summary (mode req))).
Proof.
  intros req truncated.
  set (titled := match truthy_string (req_title req) with
                 | Some t => push [] (js "PR Title: " ++ t)
                 | None => []
                 end).
  set (described := match truthy_string (description req) with
                    | Some d => push titled (js "PR Description: " ++ d)
                    | None => titled
                    end).
  set (ruled := match truthy_string (rulesMd req) with
                | Some r => push described (js "Additional Review Rules:" ++ [LF] ++ r)
                | None => described
                end).
  set (moded := push ruled (js "Review Mode: " ++ mode_name (mode_or_summary (mode req)))).
  set (noted := if truncated
                then push moded (js "Note: The diff was truncated due to length limits.")
                else moded).
  assert (Hshape : forall d, buildUserPrompt (set_diff req d) truncated
                             = join [LF; LF] (noted ++ [diffBlock d])).
  { intros d. reflexivity. }
  assert (Hne : noted <> []).
  { unfold noted, moded, push. destruct truncated; intros E;
      apply (f_equal (@length _)) in E; rewrite !length_app in E; simpl in E; lia. }
  exists (join [LF; LF] noted). split; [|split].
  - intros d. rewrite Hshape, join_snoc.
    destruct noted; [contradiction | reflexivity].
  - replace req with (set_diff req (diff req)) at 1 by (destruct req; reflexivity).
    rewrite Hshape, join_snoc.
    destruct noted; [contradiction | reflexivity].
  - unfold noted, moded. destruct truncated; apply join_snoc_ends.
Qed.

(* ------------------------------------------------------------------ *)
(** ** The size of the report *)
(* ------------------------------------------------------------------ *)

Lemma buckets_partition (findings : list Finding) :
  Permutation findings
              (filter is_high findings ++ filter is_medium findings
               ++ filter is_lowOrNit findings).
Proof.
  induction findings as [|f fs IH]; [constructor|].
  unfold is_high, is_medium, is_lowOrNit in *. simpl.
  destruct (severity f); simpl.
  - constructor; exact IH.
  - apply Permutation_cons_app; exact IH.
  - rewrite app_assoc. apply Permutation_cons_app. rewrite <- app_assoc; exact IH.
  - rewrite app_assoc. apply Permutation_cons_app. rewrite <- app_assoc; exact IH.
Qed.

Lemma length_spec_section {A : Type} (header : jsstring) (bullet : A -> jsstring)
      (bucket : list A) :
  length (spec_section header bullet bucket) = (length bucket + frame bucket)%nat.
Proof.
  destruct bucket as [|x xs]; [reflexivity|].
  simpl. rewrite length_app, length_map. simpl. lia.
Qed.

Lemma length_split (s : jsstring) :
  length (split LF s) = S (lineFeeds s).
Proof.
  unfold lineFeeds. induction s as [|c s IH]; [reflexivity|]. simpl.
  destruct (N.eqb c LF); simpl; [rewrite IH; reflexivity|].
  destruct (split LF s) as [|piece pieces]; [discriminate IH | exact IH].
Qed.

Lemma lineFeeds_app (a b : jsstring) :
  lineFeeds (a ++ b) = (lineFeeds a + lineFeeds b)%nat.
Proof. unfold lineFeeds. rewrite filter_app, length_app. reflexivity. Qed.

Lemma lineFeeds_join (p : jsstring) (parts : list jsstring) :
  lineFeeds (join [LF] (p :: parts))
  = (list_sum (map lineFeeds (p :: parts)) + length parts)%nat.
Proof.
  revert p; induction parts as [|q parts IH]; intros p.
  - simpl. lia.
  - change (join [LF] (p :: q :: parts)) with (p ++ [LF] ++ join [LF] (q :: parts)).
    rewrite !lineFeeds_app, IH. simpl. lia.
Qed.

Lemma split_without_lineFeed (p : jsstring) :
  lineFeeds p = 0%nat -> split LF p = [p].
Proof.
  unfold lineFeeds. induction p as [|c p IH]; [reflexivity|]. simpl.
  destruct (N.eqb c LF); simpl; [discriminate|].
  intros E. rewrite (IH E). reflexivity.
Qed.

Lemma split_join (p : jsstring) (parts : list jsstring) :
  list_sum (map lineFeeds (p :: parts)) = 0%nat ->
  split LF (join [LF] (p :: parts)) = p :: parts.
Proof.
  revert p; induction parts as [|q parts IH]; intros p E.
  - simpl in E. apply split_without_lineFeed. lia.
  - change (join [LF] (p :: q :: parts)) with (p ++ LF :: join [LF] (q :: parts)).
    rewrite split_app, IH, split_without_lineFeed; [reflexivity| |];
      simpl in E |- *; lia.
Qed.

Section ReportSize.
Context `{JSRuntime}.

(** The report is an array of entries joined by line feeds.  Every finding
    is rendered once: the three buckets are a rearrangement of the
    findings, each finding in exactly one of them, so the array has one
    bullet per finding and one per testing note, two framing entries for
    every section that is not empty, and its fixed entries: six in [V2],
    ten in [V3].  The lines of the rendered text are as many as the entries
    plus the line feeds that the entries themselves hold (in the summary,
    a bullet or a note); when they hold none, the lines of the text are
    exactly the entries. *)
Theorem report_has_one_bullet_per_finding :
  forall (summary : jsstring) (findings : list Finding)
         (testingNotes : list jsstring) (recommendation : Recommendation)
         (sha : option jsstring),
    Permutation findings
                (filter is_high findings ++ filter is_medium findings
                 ++ filter is_lowOrNit findings)
    /\ length (V2.renderReviewLines summary findings testingNotes recommendation sha)
       = (6 + length findings + length testingNotes
          + frame (filter is_high findings) + frame (filter is_medium findings)
          + frame (filter is_lowOrNit findings) + frame testingNotes)%nat
    /\ length (V3.renderReviewLines summary findings testingNotes recommendation sha)
       = (10 + length findings + length testingNotes
          + frame (filter is_high findings) + frame (filter is_medium findings)
          + frame (filter is_lowOrNit findings) + frame testingNotes)%nat
    /\ (length (split LF (V2.renderReviewMarkdown summary findings testingNotes
                                                  recommendation sha))
        = (length (V2.renderReviewLines summary findings testingNotes
                                        recommendation sha)
           + list_sum (map lineFeeds
                           (V2.renderReviewLines summary findings testingNotes
                                                 recommendation sha)))%nat
        /\ (list_sum (map lineFeeds
                          (V2.renderReviewLines summary findings testingNotes
                                                recommendation sha)) = 0%nat ->
            split LF (V2.renderReviewMarkdown summary findings testingNotes
                                              recommendation sha)
            = V2.renderReviewLines summary findings testingNotes recommendation sha))
    /\ (length (split LF (V3.renderReviewMarkdown summary findings testingNotes
                                                  recommendation sha))
        = (length (V3.renderReviewLines summary findings testingNotes
                                        recommendation sha)
           + list_sum (map lineFeeds
                           (V3.renderReviewLines summary findings testingNotes
                                                 recommendation sha)))%nat
        /\ (list_sum (map lineFeeds
                          (V3.renderReviewLines summary findings testingNotes
                                                recommendation sha)) = 0%nat ->
            split LF (V3.renderReviewMarkdown summary findings testingNotes
                                              recommendation sha)
            = V3.renderReviewLines summary findings testingNotes recommendation sha)).
Proof.
  intros summary findings testingNotes recommendation sha.
  pose proof (buckets_partition findings) as P.
  pose proof (Permutation_length P) as L. rewrite !length_app in L.
  assert (L2 : length (V2.renderReviewLines summary findings testingNotes
                                            recommendation sha)
               = (6 + length findings + length testingNotes
                  + frame (filter is_high findings) + frame (filter is_medium findings)
                  + frame (filter is_lowOrNit findings) + frame testingNotes)%nat).
  { destruct (V2_renderReviewLines_sections summary findings testingNotes
                recommendation sha) as (footer & -> & Hf).
    rewrite !length_app, !length_spec_section, Hf. simpl length. lia. }
  assert (L3 : length (V3.renderReviewLines summary findings testingNotes
                                            recommendation sha)
               = (10 + length findings + length testingNotes
                  + frame (filter is_high findings) + frame (filter is_medium findings)
                  + frame (filter is_lowOrNit findings) + frame testingNotes)%nat).
  { destruct (V3_renderReviewLines_sections summary findings testingNotes
                recommendation sha) as (footer & -> & _ & Hf).
    rewrite !length_app, !length_spec_section, Hf. simpl length. lia. }
  assert (Hjoin : forall entries,
             (0 < length entries)%nat ->
             length (split LF (join [LF] entries))
             = (length entries + list_sum (map lineFeeds entries))%nat
             /\ (list_sum (map lineFeeds entries) = 0%nat ->
                 split LF (join [LF] entries) = entries)).
  { intros [|p parts] Hne; [simpl in Hne; lia|]. split.
    - rewrite length_split, lineFeeds_join. simpl length. lia.
    - apply split_join. }
  split; [exact P|]. split; [exact L2|]. split; [exact L3|]. split.
  - unfold V2.renderReviewMarkdown. apply Hjoin. rewrite L2. lia.
  - unfold V3.renderReviewMarkdown. apply Hjoin. rewrite L3. lia.
Qed.

End ReportSize.

(* ------------------------------------------------------------------ *)
(** ** Reply envelopes *)
(* ------------------------------------------------------------------ *)

Lemma fold_left_texts (content : list JSValue) (chunks : list jsstring) :
  fold_left (fun chunks c =>
               if not_an_object c then chunks
               else match as_string (get c (js "text")) with
                    | Some t => push chunks t
                    | None => chunks
                    end) content chunks
  = chunks ++ flat_map (kept textsOf) content.
Proof.
  revert chunks; induction content as [|c content IH]; intros chunks; simpl.
  - symmetry; apply app_nil_r.
  - rewrite IH. unfold kept at 2, textsOf, push.
    destruct (not_an_object c); [reflexivity|].
    destruct (as_string (get c (js "text"))); simpl;
      [rewrite <- app_assoc|]; reflexivity.
Qed.

Lemma fold_left_leaves (output : list JSValue) (chunks : list jsstring) :
  fold_left
    (fun chunks item =>
       if not_an_object item then chunks
       else
         match as_array (get item (js "content")) with
         | Some content =>
           fold_left
             (fun chunks c =>
                if not_an_object c then chunks
                else match as_string (get c (js "text")) with
                     | Some t => push chunks t
                     | None => chunks
                     end) content chunks
         | None => chunks
         end) output chunks
  = chunks ++ flat_map leavesOf output.
Proof.
  revert chunks; induction output as [|item output IH]; intros chunks; simpl.
  - symmetry; apply app_nil_r.
  - rewrite IH. unfold leavesOf at 2.
    destruct (not_an_object item); [reflexivity|].
    destruct (as_array (get item (js "content"))) as [content|]; [|reflexivity].
    rewrite fold_left_texts, <- app_assoc. reflexivity.
Qed.

Section Envelopes.
Context `{JSRuntime}.

Lemma all_ok_error {A : Type} (rs : list (result A)) (e : exn) :
  all_ok rs = Throw e -> In (Throw e) rs.
Proof.
  induction rs as [|[a|e'] rs IH]; simpl; [discriminate| |].
  - destruct (all_ok rs); [discriminate|]. intros E; right; apply IH; exact E.
  - intros E; left; inversion E; reflexivity.
Qed.

(** Induction on a value through the elements of its arrays. *)
Lemma JSValue_array_ind (P : JSValue -> Prop) :
  P JSUndefined -> P JSNull -> (forall b, P (JSBool b)) ->
  (forall n, P (JSNumber n)) -> (forall s, P (JSString s)) ->
  (forall items, Forall P items -> P (JSArray items)) ->
  (forall props, P (JSObject props)) ->
  forall v, P v.
Proof.
  intros Hu Hn Hb Hnum Hs Harr Hobj. fix IH 1.
  intros [| |b|n|s|items|props];
    [exact Hu | exact Hn | apply Hb | apply Hnum | apply Hs | | apply Hobj].
  apply Harr. induction items as [|x items IHitems]; constructor;
    [apply IH | exact IHitems].
Qed.

(** [String] has one way to fail. *)
Lemma ToString_error : forall (v : JSValue) (e : exn),
    ToString v = Throw e -> e = cannotConvert.
Proof.
  intros v. induction v as [| |b|n|s|items IHitems|props] using JSValue_array_ind;
    intros e; simpl; try discriminate.
  - destruct b; discriminate.
  - destruct (all_ok _) eqn:E; [discriminate|]. intros E'; inversion E'; subst e0.
    apply all_ok_error in E. clear E'.
    induction IHitems as [|x items Hx _ IH]; simpl in E; [destruct E|].
    destruct E as [E|E]; [|exact (IH E)].
    destruct x; try discriminate; exact (Hx _ E).
  - destruct (assoc (js "toString") props); [|discriminate].
    intros E; inversion E; reflexivity.
Qed.

Lemma has_prop_of_get (v : JSValue) (k : jsstring) :
  get v k <> JSUndefined -> has_prop v k = true.
Proof.
  unfold get, has_prop. destruct v; try (intros X; exfalso; apply X; reflexivity).
  destruct (assoc k props); [reflexivity | intros X; exfalso; apply X; reflexivity].
Qed.

(** [getAiResponseText] returns a bare string as it is; for an object it
    prefers [response], then [output_text], each converted with [String]:
    a string is returned as it stands, a plain object becomes [[object
    Object]], and an object with a [toString] property of its own makes the
    conversion throw; failing both it joins with line feeds the [text]
    strings found under [output[i].content[j]], in order, and fails when
    there is none.  It fails with the error [Unexpected AI response format]
    or, only when it converts a [response] or an [output_text], with the
    [TypeError] of [String]. *)
Theorem getAiResponseText_shapes :
  forall (aiResponse : JSValue),
    (forall s, aiResponse = JSString s -> V3.getAiResponseText aiResponse = Ok s)
    /\ (has_prop aiResponse (js "response") = true ->
        V3.getAiResponseText aiResponse
        = ToString (get aiResponse (js "response")))
    /\ (has_prop aiResponse (js "response") = false ->
        has_prop aiResponse (js "output_text") = true ->
        V3.getAiResponseText aiResponse
        = ToString (get aiResponse (js "output_text")))
    /\ (has_prop aiResponse (js "response") = false ->
        has_prop aiResponse (js "output_text") = false ->
        forall output, get aiResponse (js "output") = JSArray output ->
        V3.getAiResponseText aiResponse
        = match flat_map leavesOf output with
          | [] => Throw V3.unexpectedFormat
          | _ :: _ => Ok (join [LF] (flat_map leavesOf output))
          end)
    /\ (forall s, get aiResponse (js "response") = JSString s ->
                  V3.getAiResponseText aiResponse = Ok s)
    /\ (forall props, get aiResponse (js "response") = JSObject props ->
                      V3.getAiResponseText aiResponse
                      = if has_prop (JSObject props) (js "toString")
                        then Throw cannotConvert
                        else Ok (js "[object Object]"))
    /\ (forall e, V3.getAiResponseText aiResponse = Throw e ->
                  e = V3.unexpectedFormat
                  \/ (e = cannotConvert
                      /\ (has_prop aiResponse (js "response") = true
                          \/ has_prop aiResponse (js "output_text") = true))).
Proof.
  intros aiResponse.
  assert (Hresp : has_prop aiResponse (js "response") = true ->
                  V3.getAiResponseText aiResponse
                  = ToString (get aiResponse (js "response"))).
  { destruct aiResponse as [| | | | | |props]; try discriminate.
    intros E. unfold V3.getAiResponseText. js_step. rewrite E. reflexivity. }
  split; [|split; [|split; [|split; [|split; [|split]]]]].
  - intros s ->. reflexivity.
  - exact Hresp.
  - destruct aiResponse as [| | | | | |props]; try discriminate.
    intros E1 E2. unfold V3.getAiResponseText. js_step. rewrite E1, E2. reflexivity.
  - destruct aiResponse as [| | | | | |props]; try discriminate.
    intros E1 E2 output E3. unfold V3.getAiResponseText. js_step.
    rewrite E1, E2.
    assert (E4 : has_prop (JSObject props) (js "output") = true).
    { unfold has_prop, get in *. destruct (assoc (js "output") props);
        [reflexivity | discriminate]. }
    rewrite E4, E3. js_step. rewrite fold_left_leaves. cbn [app].
    unfold arr_length. destruct (flat_map leavesOf output); reflexivity.
  - intros s E. rewrite Hresp, E; [reflexivity|].
    apply has_prop_of_get. rewrite E. discriminate.
  - intros props E. rewrite Hresp, E.
    + unfold has_prop. cbn [ToString]. destruct (assoc (js "toString") props); reflexivity.
    + apply has_prop_of_get. rewrite E. discriminate.
  - intros e. unfold V3.getAiResponseText.
    destruct (as_string aiResponse); [discriminate|].
    destruct (not_an_object aiResponse); [intros E; inversion E; left; reflexivity|].
    destruct (has_prop aiResponse (js "response"));
      [intros E; right; split; [exact (ToString_error _ _ E) | left; reflexivity]|].
    destruct (has_prop aiResponse (js "output_text"));
      [intros E; right; split; [exact (ToString_error _ _ E) | right; reflexivity]|].
    destruct (if has_prop aiResponse (js "output") then _ else _);
      [|intros E; inversion E; left; reflexivity].
    destruct (arr_length _ >? 0); [discriminate|].
    intros E; inversion E; left; reflexivity.
Qed.

(** The envelope reader of [V2] returns a text exactly when [choices] is an
    array whose first element has a [message] whose [content] is a string,
    and then it returns that string: the other choices are never read. *)
Theorem choiceContent_reads_first_choice :
  forall (aiResponse : JSValue) (text : jsstring),
    V2.choiceContent aiResponse = Ok text
    <-> exists choice rest,
        get aiResponse (js "choices") = JSArray (choice :: rest)
        /\ get (get choice (js "message")) (js "content") = JSString text.
Proof.
  intros aiResponse text. unfold V2.choiceContent. split.
  - intros E.
    destruct (not_an_object aiResponse); cbn [negb] in E; [discriminate|].
    destruct (has_prop aiResponse (js "choices")); [|discriminate].
    destruct (get aiResponse (js "choices")) as [| | | | |[|choice rest]|] eqn:Ec;
      cbn [as_array] in E; try discriminate.
    exists choice, rest. split; [reflexivity|].
    destruct choice; try discriminate;
      match type of E with
      | context [V2.truthy ?m] =>
        destruct (V2.truthy m); [|discriminate];
          destruct (get m (js "content")); try discriminate;
          inversion E; reflexivity
      end.
  - intros (choice & rest & Ec & Em).
    destruct aiResponse as [| | | | | |props]; try discriminate.
    js_step.
    assert (Eh : has_prop (JSObject props) (js "choices") = true).
    { unfold has_prop, get in *. destruct (assoc (js "choices") props);
        [reflexivity | discriminate]. }
    rewrite Eh, Ec. js_step.
    destruct (get choice (js "message")) as [| | | | | |mprops] eqn:Emsg;
      try discriminate.
    destruct choice as [| | | | | |cprops]; try discriminate.
    cbv beta iota zeta. cbn [V2.truthy]. rewrite Em. reflexivity.
Qed.

End Envelopes.

(* ------------------------------------------------------------------ *)
(** ** Bullets *)
(* ------------------------------------------------------------------ *)

Section Bullets.
Context `{JSRuntime}.

(** The bullet of a finding shows a line only beside a file: with no file,
    or the empty string for one, the line is not read; a line that is zero
    or NaN is not shown either; and the severity is never part of the
    bullet. *)
Theorem formatFindingBullet_line_needs_file :
  forall (f : Finding),
    ((file f = None \/ file f = Some []) ->
     V2.formatFindingBullet f = V2.formatFindingBullet (without_line f)
     /\ V3.formatFindingBullet f = V3.formatFindingBullet (without_line f))
    /\ (forall n, line f = Some n -> num_truthy n = false ->
                  V2.formatFindingBullet f = V2.formatFindingBullet (without_line f)
                  /\ V3.formatFindingBullet f = V3.formatFindingBullet (without_line f))
    /\ (forall s,
          V2.formatFindingBullet
            (mkFinding s (title f) (rationale f) (suggestion f) (file f) (line f))
          = V2.formatFindingBullet f
          /\ V3.formatFindingBullet
               (mkFinding s (title f) (rationale f) (suggestion f) (file f) (line f))
             = V3.formatFindingBullet f).
Proof.
  intros f. unfold V2.formatFindingBullet, V3.formatFindingBullet, without_line.
  cbn [severity title rationale suggestion file line].
  split; [|split].
  - intros [E|E]; rewrite E; cbn [truthy_string]; split; reflexivity.
  - intros n En Ez. rewrite En. cbn [truthy_number]. rewrite Ez.
    split; reflexivity.
  - intros s. split; reflexivity.
Qed.

End Bullets.

(* ------------------------------------------------------------------ *)
(** ** The handlers, case by case *)
(* ------------------------------------------------------------------ *)

Section FurtherHandlers.
Context `{JSRuntime}.
Variable SYSTEM_PROMPT : jsstring.

Ltac run_monad :=
  unfold bind, try_catch, lift, ret, AI_run, randomUUID, push;
  cbn [fst snd ai_calls uuids_drawn].

Ltac close_world :=
  unfold after; cbn [Nat.add ai_calls uuids_drawn];
  rewrite <- ?app_assoc, ?app_nil_r; cbn [app]; reflexivity.

(** The handler of [V3] never throws, and what it returns and leaves behind
    is [V3_outcome]. *)
Lemma V3_handleReview_outcome (request : Request) (env : Env) (w : World) :
  V3.handleReview SYSTEM_PROMPT request env w
  = (Ok (fst (V3_outcome SYSTEM_PROMPT request env w)),
     snd (V3_outcome SYSTEM_PROMPT request env w)).
Proof.
  unfold V3.handleReview, V3_outcome.
  destruct (readReviewRequest request env) as [rejected|accepted]; [reflexivity|].
  cbv zeta. fold (prepared accepted) (flagged accepted).
  destruct (V3.isTrivialDiff (diff (prepared accepted))).
  - unfold trivialReview, V3_meta. run_monad. cbn [fst snd].
    f_equal. close_world.
  - fold (strictUserPrompt accepted).
    unfold firstAnswer, firstCall, retryCall, RETRY_INSTRUCTION, V3.RETRY_SUFFIX,
      call_input, retryOutcome,
      extractAndValidate, parseError, aiFailed, reviewOf, V3_meta.
    run_monad.
    repeat (cbn [fst snd ai_calls uuids_drawn]; next_case);
      cbn [fst snd ai_calls uuids_drawn]; f_equal; close_world.
Qed.

Lemma V1_handleReview_outcome (request : Request) (env : Env) (w : World) :
  V1.handleReview SYSTEM_PROMPT request env w
  = (Ok (fst (V1_outcome SYSTEM_PROMPT request env w)),
     snd (V1_outcome SYSTEM_PROMPT request env w)).
Proof.
  unfold V1.handleReview, V1_outcome.
  destruct (readReviewRequest request env) as [rejected|accepted]; [reflexivity|].
  cbv zeta. fold (prepared accepted) (flagged accepted).
  unfold V1_answer, V1_call, call_input, V1_envelope, V1_extractAndValidate,
    parseError, aiFailed, V1_reviewOf, V3_meta.
  run_monad.
  repeat (cbn [fst snd ai_calls uuids_drawn]; next_case);
    cbn [fst snd ai_calls uuids_drawn]; f_equal; close_world.
Qed.

Lemma V2_handleReview_outcome (request : Request) (env : Env) (w : World) :
  V2.handleReview SYSTEM_PROMPT request env w
  = (Ok (fst (V2_outcome SYSTEM_PROMPT request env w)),
     snd (V2_outcome SYSTEM_PROMPT request env w)).
Proof.
  unfold V2.handleReview, V2_outcome.
  destruct (readReviewRequest request env) as [rejected|accepted]; [reflexivity|].
  cbv zeta. fold (prepared accepted) (flagged accepted).
  unfold V2_answer, V2_call, call_input, extractAndValidate,
    parseError, aiFailed, V2_reviewOf, V3_meta.
  run_monad.
  repeat (cbn [fst snd ai_calls uuids_drawn]; next_case);
    cbn [fst snd ai_calls uuids_drawn]; f_equal; close_world.
Qed.

Lemma readReviewRequest_accepts_uniform {R1 R2 : Type} (request : Request) (env : Env)
      (accepted : ReviewRequest) :
  @readReviewRequest R1 request env = inr accepted ->
  @readReviewRequest R2 request env = inr accepted.
Proof.
  unfold readReviewRequest. cbv zeta.
  repeat next_case;
    intros E; first [discriminate E | injection E as <-; reflexivity].
Qed.

Lemma readReviewRequest_accepts_authorized {R : Type} (request : Request) (env : Env)
      (accepted : ReviewRequest) :
  @readReviewRequest R request env = inr accepted ->
  authorized request env = true.
Proof.
  unfold readReviewRequest, authorized.
  destruct (authorization request) as [[|c h]|]; cbv beta iota;
    cbn [str_truthy negb orb]; try discriminate.
  destruct (startsWith (c :: h) (js "Bearer ")); cbn [negb andb]; try discriminate.
  destruct (jsstring_eqb (slice_from (c :: h) 7) (AUTH_TOKEN env)); cbn [negb];
    [reflexivity | discriminate].
Qed.

Lemma all_reject_of_readReviewRequest request env w msg code :
  (forall R, @readReviewRequest R request env = inl (errorResponse msg code)) ->
  all_reject SYSTEM_PROMPT request env w msg code.
Proof.
  intros E. split; [|split].
  - apply V1_rejected, E.
  - apply V2_rejected, E.
  - apply V3_rejected, E.
Qed.

Lemma authorized_header request env :
  authorized request env = true ->
  exists c h, authorization request = Some (c :: h)
              /\ startsWith (c :: h) (js "Bearer ") = true
              /\ jsstring_eqb (slice_from (c :: h) 7) (AUTH_TOKEN env) = true.
Proof.
  unfold authorized.
  destruct (authorization request) as [[|c h]|]; try discriminate.
  intros E. apply andb_true_iff in E as [E1 E2]. exists c, h. auto.
Qed.

(** A request that fails the bearer check gets a 401 from every revision,
    whatever its body, even one that cannot be read; the message tells a
    header that does not start with [Bearer ] from a wrong token; the
    backend is not called and no identifier is drawn. *)
Theorem unauthorized_request_gets_401 :
  forall (request : Request) (env : Env) (w : World),
    authorized request env = false ->
    all_reject SYSTEM_PROMPT request env w (unauthorizedMessage request) 401.
Proof.
  intros request env w Hauth. apply all_reject_of_readReviewRequest. intros R.
  unfold authorized in Hauth. unfold readReviewRequest, unauthorizedMessage.
  destruct (authorization request) as [[|c h]|]; cbv beta iota.
  - cbn [str_truthy negb orb].
    assert (E : startsWith [] (js "Bearer ") = false) by (vm_compute; reflexivity).
    rewrite E. reflexivity.
  - cbn [str_truthy negb orb].
    destruct (startsWith (c :: h) (js "Bearer ")); cbn [negb andb] in *.
    + rewrite Hauth. cbn [negb]. reflexivity.
    + reflexivity.
  - reflexivity.
Qed.

(** An authorized request whose body is not an object with a string [diff]
    gets a 400 from every revision, and the backend is not called: [Invalid
    JSON body] when the body cannot be read, [Request body must be a JSON
    object] when it is [null] or a primitive, and [Missing or empty 'diff'
    field] when it is an object, an array included, whose [diff] is not a
    string. *)
Theorem malformed_body_gets_400 :
  forall (request : Request) (env : Env) (w : World),
    authorized request env = true ->
    (forall e, json request = Throw e ->
               all_reject SYSTEM_PROMPT request env w (js "Invalid JSON body") 400)
    /\ (forall body, json request = Ok body ->
                     not_an_object body = true ->
                     all_reject SYSTEM_PROMPT request env w
                                (js "Request body must be a JSON object") 400)
    /\ (forall body, json request = Ok body ->
                     not_an_object body = false ->
                     as_string (get body (js "diff")) = None ->
                     all_reject SYSTEM_PROMPT request env w MISSING_DIFF 400)
    /\ (forall items, json request = Ok (JSArray items) ->
                      all_reject SYSTEM_PROMPT request env w MISSING_DIFF 400).
Proof.
  intros request env w Hauth.
  destruct (authorized_header _ _ Hauth) as (c & h & Eh & Es & Et).
  assert (Hobj : forall body, json request = Ok body ->
                       not_an_object body = false ->
                       as_string (get body (js "diff")) = None ->
                       all_reject SYSTEM_PROMPT request env w MISSING_DIFF 400).
  { intros body Ej Eo Ed. apply all_reject_of_readReviewRequest. intros R.
    unfold readReviewRequest, MISSING_DIFF. rewrite Eh. cbn [str_truthy negb orb].
    rewrite Es, Et. cbn [negb]. rewrite Ej, Eo, Ed. reflexivity. }
  split; [|split; [|split]].
  - intros e Ej. apply all_reject_of_readReviewRequest. intros R.
    unfold readReviewRequest. rewrite Eh. cbn [str_truthy negb orb].
    rewrite Es, Et. cbn [negb]. rewrite Ej. reflexivity.
  - intros body Ej Eo. apply all_reject_of_readReviewRequest. intros R.
    unfold readReviewRequest. rewrite Eh. cbn [str_truthy negb orb].
    rewrite Es, Et. cbn [negb]. rewrite Ej, Eo. reflexivity.
  - exact Hobj.
  - intros items Ej. apply (Hobj _ Ej); reflexivity.
Qed.

(** For a diff that [isTrivialDiff] accepts, the handler of [V3] answers
    200 with the canned review, no findings and [approve], without calling
    the backend; [V1] and [V2], which have no such test, call the backend
    once on the same request. *)
Theorem trivial_diff_skips_inference :
  forall (request : Request) (env : Env) (w : World) (accepted : ReviewRequest),
    readReviewRequest (R := V3.ReviewResponse) request env = inr accepted ->
    V3.isTrivialDiff (diff (prepared accepted)) = true ->
    V3.handleReview SYSTEM_PROMPT request env w
    = (Ok (jsonResponse
             (inr (trivialReview accepted (crypto_randomUUID (uuids_drawn w)))) 200),
       after w [] 1)
    /\ V3.findings (trivialReview accepted (crypto_randomUUID (uuids_drawn w))) = []
    /\ V3.recommendation (trivialReview accepted (crypto_randomUUID (uuids_drawn w)))
       = approve
    /\ ai_calls (snd (V1.handleReview SYSTEM_PROMPT request env w))
       = ai_calls w ++ [V1_call SYSTEM_PROMPT accepted]
    /\ ai_calls (snd (V2.handleReview SYSTEM_PROMPT request env w))
       = ai_calls w ++ [V2_call SYSTEM_PROMPT accepted].
Proof.
  intros request env w accepted Hacc Htriv.
  split; [|split; [reflexivity|split; [reflexivity|split]]].
  - rewrite V3_handleReview_outcome. unfold V3_outcome.
    rewrite Hacc. cbv zeta. rewrite Htriv. reflexivity.
  - rewrite V1_handleReview_outcome. unfold V1_outcome.
    rewrite (readReviewRequest_accepts_uniform _ _ _ Hacc). cbv zeta.
    destruct (V1_answer SYSTEM_PROMPT env w accepted);
      [destruct (V1_extractAndValidate _)|]; reflexivity.
  - rewrite V2_handleReview_outcome. unfold V2_outcome.
    rewrite (readReviewRequest_accepts_uniform _ _ _ Hacc). cbv zeta.
    destruct (V2_answer SYSTEM_PROMPT env w accepted);
      [destruct (extractAndValidate _)|]; reflexivity.
Qed.

(** The retry of [V3] is reserved for a reply that cannot be parsed.  When
    the first call is rejected, or its reply has none of the shapes
    [getAiResponseText] reads, the answer is the 500 [AI failure: ...]
    after that one call; when the first reply validates, the answer is the
    200 review built from it after that one call. *)
Theorem no_retry_without_parse_failure :
  forall (request : Request) (env : Env) (w : World) (accepted : ReviewRequest),
    readReviewRequest (R := V3.ReviewResponse) request env = inr accepted ->
    V3.isTrivialDiff (diff (prepared accepted)) = false ->
    (forall e, firstAnswer SYSTEM_PROMPT env w accepted = Throw e ->
               V3.handleReview SYSTEM_PROMPT request env w
               = (Ok (aiFailed e), after w [firstCall SYSTEM_PROMPT accepted] 0))
    /\ (forall text validated,
          firstAnswer SYSTEM_PROMPT env w accepted = Ok text ->
          extractAndValidate text = Ok validated ->
          V3.handleReview SYSTEM_PROMPT request env w
          = (Ok (jsonResponse
                   (inr (reviewOf accepted validated (crypto_randomUUID (uuids_drawn w))))
                   200),
             after w [firstCall SYSTEM_PROMPT accepted] 1)).
Proof.
  intros request env w accepted Hacc Hsubst. split.
  - intros e E. rewrite V3_handleReview_outcome. unfold V3_outcome.
    rewrite Hacc. cbv zeta. rewrite Hsubst, E. reflexivity.
  - intros text validated E1 E2. rewrite V3_handleReview_outcome. unfold V3_outcome.
    rewrite Hacc. cbv zeta. rewrite Hsubst, E1, E2. reflexivity.
Qed.

(** In [V1] and [V2] a reply that cannot be extracted or validated is
    final: the answer is the 500 [AI response parsing failed: ...] with the
    message of the failure, after the one call, and no identifier is
    drawn. *)
Theorem parse_failure_is_final_without_retry :
  forall (request : Request) (env : Env) (w : World) (accepted : ReviewRequest)
         (text : jsstring),
    readReviewRequest (R := V1.ReviewResponse) request env = inr accepted ->
    ((forall e, V1_answer SYSTEM_PROMPT env w accepted = Ok text ->
                V1_extractAndValidate text = Throw e ->
                V1.handleReview SYSTEM_PROMPT request env w
                = (Ok (parseError e), after w [V1_call SYSTEM_PROMPT accepted] 0))
     /\ (forall e, V2_answer SYSTEM_PROMPT env w accepted = Ok text ->
                   extractAndValidate text = Throw e ->
                   V2.handleReview SYSTEM_PROMPT request env w
                   = (Ok (parseError e), after w [V2_call SYSTEM_PROMPT accepted] 0))).
Proof.
  intros request env w accepted text Hacc. split.
  - intros e E1 E2. rewrite V1_handleReview_outcome. unfold V1_outcome.
    rewrite Hacc. cbv zeta. rewrite E1, E2. reflexivity.
  - intros e E1 E2. rewrite V2_handleReview_outcome. unfold V2_outcome.
    rewrite (readReviewRequest_accepts_uniform _ _ _ Hacc). cbv zeta.
    rewrite E1, E2. reflexivity.
Qed.

Lemma readReviewRequest_rejection {R : Type} (request : Request) (env : Env)
      (rejected : Response (ErrorResponse + R)) :
  readReviewRequest request env = inl rejected ->
  exists msg code, rejected = errorResponse msg code /\ (code = 400 \/ code = 401).
Proof.
  unfold readReviewRequest. cbv zeta.
  repeat next_case;
    intros E; first [discriminate E
                    | injection E as <-; eexists; eexists; split;
                      [reflexivity | first [left; reflexivity | right; reflexivity]]].
Qed.

Lemma after_nothing (w : World) : w = after w [] 0.
Proof. destruct w as [calls n]. unfold after. cbn. rewrite app_nil_r. reflexivity. Qed.

Ltac bounded_leaf :=
  split; [reflexivity|];
  split; [cbn [length]; lia|];
  split; [unfold handler_status; cbn [status jsonResponse errorResponse aiFailed parseError];
          auto|];
  cbn [status resp_data jsonResponse errorResponse aiFailed parseError];
  split; [split; [intros E; first [reflexivity | discriminate E]
                 |intros E; first [reflexivity | discriminate E]]|];
  split; [split; [intros E; first [reflexivity | exfalso; apply E; reflexivity]
                 |intros E; first [discriminate E | discriminate]]|];
  split; [intros E; first [eexists; reflexivity | discriminate E]
         |intros (r & E); first [reflexivity | discriminate E]].

Lemma bounded_rejection {R : Type} (n : nat) (w : World) (msg : jsstring) (code : Z) :
  code = 400 \/ code = 401 ->
  @bounded_run R n w (Ok (errorResponse msg code), w).
Proof.
  intros Hcode. exists (errorResponse msg code), [], 0%nat.
  split; [f_equal; apply after_nothing|].
  split; [cbn [length]; lia|].
  unfold handler_status. cbn [status resp_data jsonResponse errorResponse].
  split; [tauto|].
  split; [split; [intros E; exfalso; destruct Hcode; subst; discriminate E
                 |discriminate]|].
  split; [split; [reflexivity
                 |intros _ E; destruct Hcode; subst; discriminate E]|].
  split; [intros E; exfalso; destruct Hcode; subst; discriminate E
         |intros (r & E); discriminate E].
Qed.

(** No handler throws, whatever the request and the backend do: each run
    returns a response with status 200, 400, 401 or 500; [V1] and [V2] call
    the backend at most once and [V3] at most twice; an identifier is drawn
    exactly for a 200, and a 200 is exactly what carries a review. *)
Theorem handlers_return_bounded :
  forall (request : Request) (env : Env) (w : World),
    bounded_run 1 w (V1.handleReview SYSTEM_PROMPT request env w)
    /\ bounded_run 1 w (V2.handleReview SYSTEM_PROMPT request env w)
    /\ bounded_run 2 w (V3.handleReview SYSTEM_PROMPT request env w).
Proof.
  intros request env w. split; [|split].
  - rewrite V1_handleReview_outcome. unfold V1_outcome.
    destruct (readReviewRequest request env) as [rejected|accepted] eqn:Hacc.
    + destruct (readReviewRequest_rejection _ _ _ Hacc) as (msg & code & -> & Hc).
      apply bounded_rejection, Hc.
    + cbv zeta. repeat next_case; cbn [fst snd];
        eexists; eexists; eexists; bounded_leaf.
  - rewrite V2_handleReview_outcome. unfold V2_outcome.
    destruct (readReviewRequest request env) as [rejected|accepted] eqn:Hacc.
    + destruct (readReviewRequest_rejection _ _ _ Hacc) as (msg & code & -> & Hc).
      apply bounded_rejection, Hc.
    + cbv zeta. repeat next_case; cbn [fst snd];
        eexists; eexists; eexists; bounded_leaf.
  - rewrite V3_handleReview_outcome. unfold V3_outcome.
    destruct (readReviewRequest request env) as [rejected|accepted] eqn:Hacc.
    + destruct (readReviewRequest_rejection _ _ _ Hacc) as (msg & code & -> & Hc).
      apply bounded_rejection, Hc.
    + cbv zeta. repeat next_case; cbn [fst snd];
        eexists; eexists; eexists; bounded_leaf.
Qed.

Lemma outcomes_call_only_when_authorized (request : Request) (env : Env) (w : World) :
  (ai_calls (snd (V1_outcome SYSTEM_PROMPT request env w)) <> ai_calls w ->
   authorized request env = true)
  /\ (ai_calls (snd (V2_outcome SYSTEM_PROMPT request env w)) <> ai_calls w ->
      authorized request env = true)
  /\ (ai_calls (snd (V3_outcome SYSTEM_PROMPT request env w)) <> ai_calls w ->
      authorized request env = true).
Proof.
  unfold V1_outcome, V2_outcome, V3_outcome. split; [|split].
  - destruct (readReviewRequest request env) as [rejected|accepted] eqn:E;
      [intros X; exfalso; apply X; reflexivity
      |intros _; exact (readReviewRequest_accepts_authorized _ _ _ E)].
  - destruct (readReviewRequest request env) as [rejected|accepted] eqn:E;
      [intros X; exfalso; apply X; reflexivity
      |intros _; exact (readReviewRequest_accepts_authorized _ _ _ E)].
  - destruct (readReviewRequest request env) as [rejected|accepted] eqn:E;
      [intros X; exfalso; apply X; reflexivity
      |intros _; exact (readReviewRequest_accepts_authorized _ _ _ E)].
Qed.

Lemma guarded_route_of_outcome {R : Type}
      (handleReview : Request -> Env -> M (Response (ErrorResponse + R)))
      (outcome : Request -> Env -> World -> Response (ErrorResponse + R) * World)
      (now : jsstring) (request : HttpRequest) (env : Env) (w : World) :
  (forall r e w0, handleReview r e w0 = (Ok (fst (outcome r e w0)), snd (outcome r e w0))) ->
  (ai_calls (snd (outcome (http_request request) env w)) <> ai_calls w ->
   authorized (http_request request) env = true) ->
  guarded_route handleReview now request env w.
Proof.
  intros Hout Hauth. unfold guarded_route, fetch. cbv zeta.
  destruct (jsstring_eqb (url_pathname request) (js "/health")
            && jsstring_eqb (http_method request) (js "GET")).
  - unfold ret. cbn [fst snd].
    split; [eexists; reflexivity | intros X; exfalso; apply X; reflexivity].
  - destruct (jsstring_eqb (url_pathname request) (js "/review")
              && jsstring_eqb (http_method request) (js "POST")) eqn:E.
    + unfold bind, ret. rewrite Hout. cbn [fst snd].
      split; [eexists; reflexivity|]. intros X.
      apply andb_true_iff in E as [Ep Em].
      apply jsstring_eqb_eq in Ep. apply jsstring_eqb_eq in Em.
      split; [exact Ep | split; [exact Em | exact (Hauth X)]].
    + unfold ret. cbn [fst snd].
      split; [eexists; reflexivity | intros X; exfalso; apply X; reflexivity].
Qed.

(** The router answers [GET /health] without reading the [Authorization]
    header or the body, answers every path and method other than
    [GET /health] and [POST /review] with the 404 [Not found], both with
    the world untouched, and never throws; the backend is called only under
    [POST /review], and only for a request that passed the bearer check. *)
Theorem fetch_routes_and_guards :
  forall (now : jsstring) (request : HttpRequest) (env : Env) (w : World),
    (url_pathname request = js "/health" -> http_method request = js "GET" ->
     forall R handleReview,
       @fetch R handleReview now request env w
       = (Ok (HealthReply (handleHealth now)), w))
    /\ ((url_pathname request <> js "/health" \/ http_method request <> js "GET") ->
        (url_pathname request <> js "/review" \/ http_method request <> js "POST") ->
        forall R handleReview,
          @fetch R handleReview now request env w
          = (Ok (ReviewReply (errorResponse (js "Not found") 404)), w))
    /\ guarded_route (V1.handleReview SYSTEM_PROMPT) now request env w
    /\ guarded_route (V2.handleReview SYSTEM_PROMPT) now request env w
    /\ guarded_route (V3.handleReview SYSTEM_PROMPT) now request env w.
Proof.
  intros now request env w.
  destruct (outcomes_call_only_when_authorized (http_request request) env w)
    as (A1 & A2 & A3).
  split; [|split; [|split; [|split]]].
  - intros Ep Em R handleReview. unfold fetch. cbv zeta.
    rewrite Ep, Em, !jsstring_eqb_refl. reflexivity.
  - intros Hh Hr R handleReview. unfold fetch. cbv zeta.
    assert (E1 : jsstring_eqb (url_pathname request) (js "/health")
                 && jsstring_eqb (http_method request) (js "GET") = false).
    { apply andb_false_iff.
      destruct Hh as [Hh|Hh]; [left|right]; apply jsstring_eqb_neq; exact Hh. }
    assert (E2 : jsstring_eqb (url_pathname request) (js "/review")
                 && jsstring_eqb (http_method request) (js "POST") = false).
    { apply andb_false_iff.
      destruct Hr as [Hr|Hr]; [left|right]; apply jsstring_eqb_neq; exact Hr. }
    rewrite E1, E2. reflexivity.
  - exact (guarded_route_of_outcome _ (V1_outcome SYSTEM_PROMPT) now request env w
                                    V1_handleReview_outcome A1).
  - exact (guarded_route_of_outcome _ (V2_outcome SYSTEM_PROMPT) now request env w
                                    V2_handleReview_outcome A2).
  - exact (guarded_route_of_outcome _ (V3_outcome SYSTEM_PROMPT) now request env w
                                    V3_handleReview_outcome A3).
Qed.

End FurtherHandlers.

(* ------------------------------------------------------------------ *)
(** ** Further worked examples *)
(* ------------------------------------------------------------------ *)

(** The fenced reply of the extraction example, with and without its
    prose and fence. *)
Lemma extractJson_fence_is_ignored :
  extractJson (H := fenced_runtime)
              (fenced_prefix ++ (LBRACE :: fenced_inner ++ [RBRACE]) ++ fenced_suffix)
  = extractJson (H := fenced_runtime) (LBRACE :: fenced_inner ++ [RBRACE]).
Proof.
  apply (extractJson_ignores_braceless_wrapping
           (H := fenced_runtime) fenced_prefix (LBRACE :: fenced_inner ++ [RBRACE])
           fenced_suffix).
  - apply not_In_by_search. vm_compute. reflexivity.
  - apply not_In_by_search. vm_compute. reflexivity.
  - apply not_In_by_search. vm_compute. reflexivity.
  - apply not_In_by_search. vm_compute. reflexivity.
Defined.

(** An element whose suggestion is the empty string passes without it. *)
Lemma validateFinding_blank_suggestion_passes :
  validateFinding finding_blank_suggestion = Some naming_finding
  /\ suggestion naming_finding = None.
Proof.
  split; [vm_compute; reflexivity|].
  refine (proj1 (proj2 (proj2 (proj2 (proj2
            (validateFinding_wellformed finding_blank_suggestion naming_finding _)))))
                _).
  - vm_compute. reflexivity.
  - vm_compute. reflexivity.
Defined.

(** Of four entries, the blank one and the number are dropped and the
    other two are trimmed. *)
Lemma validateAiResponse_notes_reply :
  validateAiResponse notes_reply = Ok notes_validated
  /\ Forall (fun note => note <> [] /\ trim note = note)
            (v_testingNotes notes_validated).
Proof.
  split; [vm_compute; reflexivity|].
  refine (proj2 (proj2 (validateAiResponse_testingNotes notes_reply notes_validated _))).
  vm_compute. reflexivity.
Defined.

(** A wrong token with an unreadable body. *)
Lemma wrong_token_gets_401 :
  all_reject (H := example_runtime []) (js "prompt") wrong_token_request
             (example_env []) initial_world
             (unauthorizedMessage wrong_token_request) 401
  /\ unauthorizedMessage wrong_token_request = js "Unauthorized: Invalid token".
Proof.
  split; [|vm_compute; reflexivity].
  apply (unauthorized_request_gets_401
           (H := example_runtime []) (js "prompt") wrong_token_request
           (example_env []) initial_world).
  vm_compute. reflexivity.
Defined.

(** A body that is an array. *)
Lemma array_body_gets_400 :
  all_reject (H := example_runtime []) (js "prompt") (bearer (JSArray []))
             (example_env []) initial_world MISSING_DIFF 400.
Proof.
  refine (proj2 (proj2 (proj2
            (malformed_body_gets_400
               (H := example_runtime []) (js "prompt") (bearer (JSArray []))
               (example_env []) initial_world _))) [] _).
  - vm_compute. reflexivity.
  - reflexivity.
Defined.

(** A diff of one added comment line. *)
Lemma comment_diff_skips_inference :
  V3.handleReview (H := example_runtime []) (js "prompt") trivial_request
                  (example_env []) initial_world
  = (Ok (jsonResponse
           (inr (trivialReview (H := example_runtime []) trivial_accepted
                               (crypto_randomUUID (JSRuntime := example_runtime [])
                                                  (uuids_drawn initial_world))))
           200),
     after initial_world [] 1).
Proof.
  refine (proj1 (trivial_diff_skips_inference
                   (H := example_runtime []) (js "prompt") trivial_request
                   (example_env []) initial_world trivial_accepted _ _)).
  - vm_compute. reflexivity.
  - vm_compute. reflexivity.
Defined.

(** A backend that rejects the first call. *)
Lemma backend_down_is_not_retried :
  V3.handleReview (H := review_runtime) (js "prompt") eval_request
                  (example_env []) initial_world
  = (Ok (aiFailed (JsThrown (JSString (js "backend down")))),
     after initial_world [firstCall (js "prompt") eval_accepted] 0).
Proof.
  refine (proj1 (no_retry_without_parse_failure
                   (H := review_runtime) (js "prompt") eval_request
                   (example_env []) initial_world eval_accepted _ _)
                (JsThrown (JSString (js "backend down"))) _).
  - vm_compute. reflexivity.
  - vm_compute. reflexivity.
  - vm_compute. reflexivity.
Defined.

(** A reply of prose only, in [V1]. *)
Lemma prose_reply_is_final_in_V1 :
  V1.handleReview (H := review_runtime) (js "prompt") eval_request
                  (example_env [Ok prose_reply; Ok wrapped_reply]) initial_world
  = (Ok (parseError NoJsonFound),
     after initial_world [V1_call (js "prompt") eval_accepted] 0).
Proof.
  refine (proj1 (parse_failure_is_final_without_retry
                   (H := review_runtime) (js "prompt") eval_request
                   (example_env [Ok prose_reply; Ok wrapped_reply]) initial_world
                   eval_accepted (js "I could not produce a review.") _)
                NoJsonFound _ _).
  - vm_compute. reflexivity.
  - vm_compute. reflexivity.
  - vm_compute. reflexivity.
Defined.

Example handlers_run_further :
  (** a valid first reply: one call, a 200 *)
  (exists r,
      V3.handleReview (H := review_runtime) (js "prompt") eval_request
                      (example_env [Ok wrapped_reply]) initial_world
      = (Ok (jsonResponse (inr r) 200),
         mkWorld [firstCall (js "prompt") eval_accepted] 1))
  (** the [choices] envelope of [V2] *)
  /\ V2.choiceContent (H := review_runtime) choices_reply = Ok review_json
  (** the router *)
  /\ fetch (V3.handleReview (H := review_runtime) (js "prompt")) (js "2024-01-01T00:00:00.000Z")
           (mkHttpRequest (js "/health") (js "POST") eval_request)
           (example_env []) initial_world
     = (Ok (ReviewReply (errorResponse (js "Not found") 404)), initial_world).
Proof.
  split; [|split].
  - eexists. vm_compute. reflexivity.
  - vm_compute. reflexivity.
  - vm_compute. reflexivity.
Qed.

Example String_conversion_runs :
  (** a [response] that [String] cannot convert *)
  V3.getAiResponseText (H := review_runtime) unconvertible_reply = Throw cannotConvert
  /\ V1.handleReview (H := review_runtime) (js "prompt") eval_request
                     (example_env [Ok unconvertible_reply]) initial_world
     = (Ok (errorResponse
              (js "AI failure: Cannot convert object to primitive value") 500),
        mkWorld [V1_call (js "prompt") eval_accepted] 0)
  (** a plain object and an array *)
  /\ ToString (H := review_runtime) (obj [("a", num 1)]%string)
     = Ok (js "[object Object]")
  /\ ToString (H := review_runtime) (JSArray [str "a"; JSNull; JSArray [str "b"; str "c"]])
     = Ok (js "a,,b,c").
Proof. split; [|split; [|split]]; vm_compute; reflexivity. Qed.

Example report_lines_run :
  (** a summary of two lines: six entries, seven lines *)
  length (V2.renderReviewLines (H := example_runtime []) [97; LF; 98]%N [] [] approve None)
  = 6%nat
  /\ length (split LF (V2.renderReviewMarkdown (H := example_runtime [])
                                              [97; LF; 98]%N [] [] approve None))
     = 7%nat.
Proof. split; vm_compute; reflexivity. Qed.
